(** * deadline-mcp-server: documentation indexer and search engine

    A shallow embedding of the indexer ([UniversalDocIndexer]), of the
    store-backed search ([DeadlineDocSearch]) and of the curated fallback
    ([RemoteDeadlineSearch]), with the properties of the indexing and
    retrieval engine stated over it.

    JavaScript strings are sequences of UTF-16 code units; they are modelled
    as [string], one [ascii] per code unit, which covers the code units
    U+0000 to U+00FF.  The character classes below are the JavaScript ones
    restricted to that range. *)

From Stdlib Require Import String Ascii NArith ZArith QArith List Bool Lia.
From stdpp Require Import base option list gmap strings sorting.

Open Scope string_scope.

(** ** JavaScript strings *)

Module Js.

Definition code (c : ascii) : N := N_of_ascii c.

Definition in_range (lo hi : N) (c : ascii) : bool :=
  ((lo <=? code c) && (code c <=? hi))%N.

(** The class [\s]: TAB, LF, VT, FF, CR, SPACE and NBSP. *)
Definition is_space (c : ascii) : bool :=
  in_range 9 13 c || (code c =? 32)%N || (code c =? 160)%N.

(** The class [\w]: digits, letters and the underscore. *)
Definition is_word (c : ascii) : bool :=
  in_range 48 57 c || in_range 65 90 c || in_range 97 122 c || (code c =? 95)%N.

(** Line terminators, which [.] does not match. *)
Definition is_line_terminator (c : ascii) : bool :=
  (code c =? 10)%N || (code c =? 13)%N.

Definition lower_char (c : ascii) : ascii :=
  if in_range 65 90 c || in_range 192 214 c || in_range 216 222 c
  then ascii_of_N (code c + 32)
  else c.

Fixpoint map_chars (f : ascii -> ascii) (s : string) : string :=
  match s with
  | EmptyString => EmptyString
  | String c s' => String (f c) (map_chars f s')
  end.

Definition toLowerCase (s : string) : string := map_chars lower_char s.

Fixpoint all_chars (p : ascii -> bool) (s : string) : bool :=
  match s with
  | EmptyString => true
  | String c s' => p c && all_chars p s'
  end.

Definition is_empty (s : string) : bool :=
  match s with EmptyString => true | _ => false end.

(** [startsWith s t]: [t] is a prefix of [s]. *)
Fixpoint startsWith (s t : string) : bool :=
  match t, s with
  | EmptyString, _ => true
  | String b t', String a s' => Ascii.eqb a b && startsWith s' t'
  | String _ _, EmptyString => false
  end.

(** [includes s t]: [t] occurs in [s]. *)
Fixpoint includes (s t : string) : bool :=
  startsWith s t ||
  match s with
  | EmptyString => false
  | String _ s' => includes s' t
  end.

Fixpoint take (n : nat) (s : string) : string :=
  match n, s with
  | S k, String c s' => String c (take k s')
  | _, _ => EmptyString
  end.

Fixpoint skip (n : nat) (s : string) : string :=
  match n, s with
  | S k, String _ s' => skip k s'
  | _, _ => s
  end.

(** Length of the longest prefix whose characters satisfy [p]. *)
Fixpoint span (p : ascii -> bool) (s : string) : nat :=
  match s with
  | String c s' => if p c then S (span p s') else 0
  | EmptyString => 0
  end.

Fixpoint trimStart (s : string) : string :=
  match s with
  | String c s' => if is_space c then trimStart s' else s
  | EmptyString => EmptyString
  end.

Fixpoint trimEnd (s : string) : string :=
  match s with
  | String c s' =>
      let t := trimEnd s' in
      if is_space c && is_empty t then EmptyString else String c t
  | EmptyString => EmptyString
  end.

Definition trim (s : string) : string := trimEnd (trimStart s).

(** A pattern is given by its matcher: the length of the match that starts
    at the head of the string, if there is one.  None of the patterns of
    this program matches the empty string. *)
Definition matcher := string -> option nat.

(** [s.replace(/p/g, rep)]: every match, found left to right and never
    overlapping the one before, is replaced by [rep].  [pending] counts the
    characters of the current match that are still to be dropped. *)
Fixpoint replaceAll (m : matcher) (rep : string) (pending : nat) (s : string) : string :=
  match s with
  | EmptyString => EmptyString
  | String c s' =>
      match pending with
      | S k => replaceAll m rep k s'
      | O =>
          match m s with
          | Some n => rep +:+ replaceAll m rep (pred n) s'
          | None => String c (replaceAll m rep 0 s')
          end
      end
  end.

(** [s.match(/p/g)]: the matched substrings, left to right; [null] when
    there is none is the empty list here. *)
Fixpoint matchAll (m : matcher) (pending : nat) (s : string) : list string :=
  match s with
  | EmptyString => []
  | String c s' =>
      match pending with
      | S k => matchAll m k s'
      | O =>
          match m s with
          | Some n => take n s :: matchAll m (pred n) s'
          | None => matchAll m 0 s'
          end
      end
  end.

(** [array.join(sep)]. *)
Fixpoint join (sep : string) (l : list string) : string :=
  match l with
  | [] => EmptyString
  | [x] => x
  | x :: l' => x +:+ sep +:+ join sep l'
  end.

(** [[...new Set(l)]]: duplicates removed, first occurrences kept in order. *)
Fixpoint dedupe_from (seen : list string) (l : list string) : list string :=
  match l with
  | [] => []
  | x :: l' =>
      if bool_decide (x ∈ seen) then dedupe_from seen l'
      else x :: dedupe_from (x :: seen) l'
  end.

Definition dedupe (l : list string) : list string := dedupe_from [] l.


(** [array.slice(0, n)]: a negative [n] counts from the end. *)
Definition slice0 {A} (n : Z) (l : list A) : list A :=
  if (n <? 0)%Z then firstn (length l - Z.to_nat (- n)) l else firstn (Z.to_nat n) l.

(** [s.split(':')] as the fallback reads it: the part before the first
    colon, and the parts after it joined by colons again, which is the rest
    of the string after that colon. *)
Fixpoint split_first_colon (s : string) : string * string :=
  match s with
  | EmptyString => (EmptyString, EmptyString)
  | String c s' =>
      if (code c =? 58)%N then (EmptyString, s')
      else let '(a, b) := split_first_colon s' in (String c a, b)
  end.

(** *** Values and objects *)

Inductive JsValue :=
  | JsUndefined
  | JsNull
  | JsString (s : string)
  | JsFunction (name : string)    (* a built-in function object *)
  | JsObjectPrototype.            (* the object [Object.prototype] *)

Definition truthy (v : JsValue) : bool :=
  match v with
  | JsUndefined | JsNull => false
  | JsString s => negb (is_empty s)
  | JsFunction _ | JsObjectPrototype => true
  end.

(** [a || b]. *)
Definition js_or (a b : JsValue) : JsValue := if truthy a then a else b.

(** The string a value turns into inside a template literal. *)
Definition to_string (v : JsValue) : string :=
  match v with
  | JsUndefined => "undefined"
  | JsNull => "null"
  | JsString s => s
  | JsFunction name => "function " +:+ name +:+ "() { [native code] }"
  | JsObjectPrototype => "[object Object]"
  end.

(** What every object literal inherits from [Object.prototype]. *)
Definition object_prototype_functions : list string :=
  [ "__defineGetter__"; "__defineSetter__"; "hasOwnProperty";
    "__lookupGetter__"; "__lookupSetter__"; "isPrototypeOf";
    "propertyIsEnumerable"; "toString"; "valueOf"; "toLocaleString" ].

Definition object_prototype (key : string) : JsValue :=
  if String.eqb key "constructor" then JsFunction "Object"
  else if String.eqb key "__proto__" then JsObjectPrototype
  else if bool_decide (key ∈ object_prototype_functions) then JsFunction key
  else JsUndefined.

(** [obj[key]] on an object literal with the own properties [own]: an own
    property first, an inherited one otherwise. *)
Definition get_property (own : gmap string JsValue) (key : string) : JsValue :=
  match own !! key with
  | Some v => v
  | None => object_prototype key
  end.

(** *** JSON of arrays of strings *)

Definition chr (n : N) : ascii := ascii_of_N n.
Definition str1 (n : N) : string := String (chr n) EmptyString.

Definition hex_digit (n : N) : ascii :=
  if (n <? 10)%N then chr (48 + n) else chr (87 + n).

Definition hex_value (c : ascii) : option N :=
  if in_range 48 57 c then Some (code c - 48)%N
  else if in_range 97 102 c then Some (code c - 87)%N
  else if in_range 65 70 c then Some (code c - 55)%N
  else None.

(** [QuoteJSONString] on one code unit. *)
Definition escape_char (c : ascii) : string :=
  let n := code c in
  if (n =? 34)%N then str1 92 +:+ str1 34
  else if (n =? 92)%N then str1 92 +:+ str1 92
  else if (n =? 8)%N then str1 92 +:+ "b"
  else if (n =? 9)%N then str1 92 +:+ "t"
  else if (n =? 10)%N then str1 92 +:+ "n"
  else if (n =? 12)%N then str1 92 +:+ "f"
  else if (n =? 13)%N then str1 92 +:+ "r"
  else if (n <? 32)%N then
    str1 92 +:+ "u00" +:+ String (hex_digit (n / 16)) (String (hex_digit (n mod 16)) EmptyString)
  else String c EmptyString.

Fixpoint escape (s : string) : string :=
  match s with
  | EmptyString => EmptyString
  | String c s' => escape_char c +:+ escape s'
  end.

Definition quote (s : string) : string := str1 34 +:+ escape s +:+ str1 34.

(** [JSON.stringify] of an array of strings. *)
Definition JSON_stringify (l : list string) : string :=
  "[" +:+ join "," (map quote l) +:+ "]".

Inductive JsonState :=
  | JStart                                  (* before the opening bracket *)
  | JFirst                                  (* after it: a string or the end *)
  | JValue                                  (* after a comma: a string *)
  | JStr (acc : list ascii)                 (* inside a string, reversed *)
  | JEsc (acc : list ascii)                 (* after a backslash *)
  | JHex (acc : list ascii) (k : nat) (v : N)  (* in a u-escape, k digits read *)
  | JAfter                                  (* after a string *)
  | JEnd.                                   (* after the closing bracket *)

Definition json_ws (c : ascii) : bool :=
  let n := code c in
  ((n =? 32) || (n =? 9) || (n =? 10) || (n =? 13))%N.

Definition unescape (c : ascii) : option ascii :=
  let n := code c in
  if ((n =? 34) || (n =? 92) || (n =? 47))%N then Some c
  else if (n =? 98)%N then Some (chr 8)
  else if (n =? 102)%N then Some (chr 12)
  else if (n =? 110)%N then Some (chr 10)
  else if (n =? 114)%N then Some (chr 13)
  else if (n =? 116)%N then Some (chr 9)
  else None.

(** [JSON.parse] where the text is an array of strings; [None] stands for a
    [SyntaxError], and also for a text that is some other JSON value or
    that names a code unit above U+00FF. *)
Fixpoint parse_from (st : JsonState) (out : list string) (s : string) : option (list string) :=
  match s with
  | EmptyString => match st with JEnd => Some (rev out) | _ => None end
  | String c s' =>
      let n := code c in
      match st with
      | JStart =>
          if json_ws c then parse_from JStart out s'
          else if (n =? 91)%N then parse_from JFirst out s'
          else None
      | JFirst =>
          if json_ws c then parse_from JFirst out s'
          else if (n =? 93)%N then parse_from JEnd out s'
          else if (n =? 34)%N then parse_from (JStr []) out s'
          else None
      | JValue =>
          if json_ws c then parse_from JValue out s'
          else if (n =? 34)%N then parse_from (JStr []) out s'
          else None
      | JStr acc =>
          if (n =? 34)%N then parse_from JAfter (string_of_list_ascii (rev acc) :: out) s'
          else if (n =? 92)%N then parse_from (JEsc acc) out s'
          else if (n <? 32)%N then None
          else parse_from (JStr (c :: acc)) out s'
      | JEsc acc =>
          if (n =? 117)%N then parse_from (JHex acc 0 0%N) out s'
          else match unescape c with
               | Some d => parse_from (JStr (d :: acc)) out s'
               | None => None
               end
      | JHex acc k v =>
          match hex_value c with
          | None => None
          | Some d =>
              let v' := (v * 16 + d)%N in
              if (k <? 3)%nat then parse_from (JHex acc (S k) v') out s'
              else if (v' <? 256)%N then parse_from (JStr (chr v' :: acc)) out s'
              else None
          end
      | JAfter =>
          if json_ws c then parse_from JAfter out s'
          else if (n =? 44)%N then parse_from JValue out s'
          else if (n =? 93)%N then parse_from JEnd out s'
          else None
      | JEnd => if json_ws c then parse_from JEnd out s' else None
      end
  end.

Definition JSON_parse (s : string) : option (list string) := parse_from JStart [] s.

End Js.

(** ** Failures *)

Inductive Error :=
  | SqliteError (message : string)
  | SyntaxError (message : string)
  | TypeError (message : string).

Inductive Result (A : Type) :=
  | Ok (a : A)
  | Err (e : Error).

Arguments Ok {A} a.
Arguments Err {A} e.

#[export] Instance result_ret : MRet Result := fun A a => Ok a.
#[export] Instance result_bind : MBind Result := fun A B f m =>
  match m with
  | Ok a => f a
  | Err e => Err e
  end.

Definition is_ok {A} (r : Result A) : bool :=
  match r with Ok _ => true | Err _ => false end.

(** ** The SQLite store

    A table is its declared columns and its rows in rowid order: nothing is
    ever deleted from a table, so the row at position [i] has rowid [i + 1].
    A row maps column names to values.  TEXT columns hold text or NULL. *)

Module Sql.

Inductive SqlValue :=
  | SqlNull
  | SqlText (s : string).

#[global] Instance SqlValue_eq_dec : EqDecision SqlValue.
Proof. solve_decision. Defined.

Record Column := {
  col_name : string;
  col_not_null : bool;
  col_primary_key : bool
}.

Abbreviation Row := (gmap string SqlValue).

Record Table := {
  columns : list Column;
  rows : list Row
}.

(** A row of the full-text table: the rowid it was inserted with and the
    indexed columns. *)
Record FtsRow := {
  fts_rowid : nat;
  fts_values : Row
}.

Record Database := {
  documents : option Table;
  documents_fts : option (list FtsRow);
  documents_ai : bool        (* the AFTER INSERT trigger on documents *)
}.

(** SQLite compares the names of columns without regard to the case of
    the ASCII letters.  The names that this program declares and the names
    that its queries use are equal letter for letter, except [docType] and
    [doc_type], which differ by more than case; so names are compared as
    they are written. *)
Definition has_column (t : Table) (c : string) : bool :=
  bool_decide (c ∈ map col_name (columns t)).

(** The value of a column in a row. *)
Definition cell (r : Row) (c : string) : SqlValue := default SqlNull (r !! c).

(** The property of the row object that sqlite3 hands to a callback. *)
Definition prop (r : Row) (key : string) : Js.JsValue :=
  match r !! key with
  | Some SqlNull => Js.JsNull
  | Some (SqlText s) => Js.JsString s
  | None => Js.JsUndefined
  end.

(** A bound parameter. *)
Definition bind_param (v : Js.JsValue) : Result SqlValue :=
  match v with
  | Js.JsString s => Ok (SqlText s)
  | Js.JsUndefined | Js.JsNull => Ok SqlNull
  | _ => Err (SqliteError "data type is not supported")
  end.

Definition the_table (db : Database) : Result Table :=
  match documents db with
  | Some t => Ok t
  | None => Err (SqliteError "no such table: documents")
  end.

Definition require_column (t : Table) (c : string) : Result unit :=
  if has_column t c then Ok tt
  else Err (SqliteError ("no such column: " +:+ c)).

Fixpoint require_columns (t : Table) (cs : list string) : Result unit :=
  match cs with
  | [] => Ok tt
  | c :: cs' => _ ← require_column t c; require_columns t cs'
  end.

(** *** Three-valued conditions *)

Definition sql_and (a b : option bool) : option bool :=
  match a, b with
  | Some false, _ | _, Some false => Some false
  | Some true, Some true => Some true
  | _, _ => None
  end.

Definition sql_or (a b : option bool) : option bool :=
  match a, b with
  | Some true, _ | _, Some true => Some true
  | Some false, Some false => Some false
  | _, _ => None
  end.

(** WHERE keeps a row when its condition is true, not when it is NULL. *)
Definition holds (c : option bool) : bool :=
  match c with Some true => true | _ => false end.

Definition sql_eq (v : SqlValue) (s : string) : option bool :=
  match v with
  | SqlNull => None
  | SqlText t => Some (String.eqb t s)
  end.

(** LIKE folds the case of the ASCII letters only. *)
Definition fold_ascii (c : ascii) : ascii :=
  if Js.in_range 65 90 c then ascii_of_N (Js.code c + 32) else c.

(** [like p s]: [%] stands for any sequence, [_] for any one character. *)
Fixpoint like (p : string) : string -> bool :=
  match p with
  | EmptyString => Js.is_empty
  | String pc p' =>
      if (Js.code pc =? 37)%N then
        fix any (s : string) : bool :=
          like p' s || match s with
                       | EmptyString => false
                       | String _ s' => any s'
                       end
      else fun s =>
        match s with
        | EmptyString => false
        | String c s' =>
            ((Js.code pc =? 95)%N || Ascii.eqb (fold_ascii pc) (fold_ascii c)) && like p' s'
        end
  end.

Definition sql_like (v : SqlValue) (p : string) : option bool :=
  match v with
  | SqlNull => None
  | SqlText s => Some (like p s)
  end.

(** *** ORDER BY and GROUP BY *)

(** NULL sorts first, text by its code units. *)
Definition sql_leb (a b : SqlValue) : bool :=
  match a, b with
  | SqlNull, _ => true
  | SqlText _, SqlNull => false
  | SqlText s, SqlText t => String.leb s t
  end.

Fixpoint insert_by {A} (le : A -> A -> bool) (x : A) (l : list A) : list A :=
  match l with
  | [] => [x]
  | y :: l' => if le x y then x :: l else y :: insert_by le x l'
  end.

Definition sort_by {A} (le : A -> A -> bool) (l : list A) : list A :=
  foldr (insert_by le) [] l.

Fixpoint distinct (seen : list SqlValue) (l : list SqlValue) : list SqlValue :=
  match l with
  | [] => []
  | x :: l' =>
      if bool_decide (x ∈ seen) then distinct seen l'
      else x :: distinct (x :: seen) l'
  end.

Definition count_of (v : SqlValue) (l : list SqlValue) : nat :=
  length (List.filter (fun x => bool_decide (x = v)) l).

(** [SELECT c, COUNT( * ) FROM t GROUP BY c]: one row per value of [c]. *)
Definition group_count (c : string) (t : Table) : list (SqlValue * nat) :=
  let vals := map (fun r => cell r c) (rows t) in
  map (fun v => (v, count_of v vals)) (sort_by sql_leb (distinct [] vals)).

(** [LIMIT n]: a negative limit is no limit. *)
Definition limit {A} (n : Z) (l : list A) : list A :=
  if (n <? 0)%Z then l else firstn (Z.to_nat n) l.

End Sql.

(** ** types.ts

    The fields of a [DocumentSection] are declared as strings; what a row
    of the store puts in them at run time is any value, so they are values
    here. *)

Record DocumentSection := {
  id : Js.JsValue;
  title : Js.JsValue;
  content : Js.JsValue;
  url : Js.JsValue;
  docType : Js.JsValue;
  section : Js.JsValue;
  codeExamples : list string;
  keywords : list string
}.

Record DeadlineDocConfig := {
  docsPath : string;
  userManualPath : string;
  scriptingReferencePath : string;
  pythonReferencePath : string
}.

(** ** What the indexer is given: the HTML parser, the file system, paths *)

Module Html.

(** node-html-parser.  A parsed document is mutable: [remove] changes it,
    and later queries see the change.  [Dom] is the state of the document,
    [Element] a handle on one of its nodes. *)
Class Parser := {
  Dom : Type;
  Element : Type;
  parse : string -> Dom * Element;
  querySelector : Dom -> Element -> string -> option Element;
  querySelectorAll : Dom -> Element -> string -> list Element;
  remove : Element -> Dom -> Dom;
  text : Dom -> Element -> string;
  innerText : Dom -> Element -> string
}.

End Html.

Module Fs.

(** fs, glob and path.  [readFile] and [glob] are [None] where they throw. *)
Class Files := {
  access : string -> bool;
  glob : string -> option (list string);
  readFile : string -> option string;
  join : string -> string -> string;
  relative : string -> string -> string;
  basename : string -> string -> string
}.

End Fs.

(** ** The indexer: UniversalDocIndexer *)

Module Indexer.

Import Sql.

(** [s || t] on strings. *)
Definition or_else (s t : string) : string := if Js.is_empty s then t else s.

Definition ws_run : Js.matcher := fun s =>
  match Js.span Js.is_space s with
  | O => None
  | n => Some n
  end.

(** [/\n\s*\n/]: from a line feed to the last line feed of the whitespace
    that follows it. *)
Fixpoint last_lf (s : string) (n : nat) : option nat :=
  match n, s with
  | S k, String c s' =>
      match last_lf s' k with
      | Some i => Some (S i)
      | None => if (Js.code c =? 10)%N then Some 1 else None
      end
  | _, _ => None
  end.

Definition blank_lines : Js.matcher := fun s =>
  match s with
  | String c s' =>
      if (Js.code c =? 10)%N then
        match last_lf s' (Js.span Js.is_space s') with
        | Some i => Some (S i)
        | None => None
        end
      else None
  | EmptyString => None
  end.

Definition is_punctuation (c : ascii) : bool :=
  bool_decide (Js.code c ∈ [45; 46; 44; 59; 58; 40; 41; 123; 125; 91; 93]%N).

(** The characters that [/[^\w\s\-.,;:(){}[\]]/] does not match. *)
Definition is_safe (c : ascii) : bool :=
  Js.is_word c || Js.is_space c || is_punctuation c.

Definition unsafe_char : Js.matcher := fun s =>
  match s with
  | String c _ => if is_safe c then None else Some 1
  | EmptyString => None
  end.

Definition cleanText (text : string) : string :=
  Js.trim
    (Js.replaceAll unsafe_char EmptyString 0
       (Js.replaceAll blank_lines (Js.str1 10) 0
          (Js.replaceAll ws_run " " 0 text))).

Definition navIndicators : list string :=
  [ "Member List"; "Class Members"; "File List"; "Directory Reference";
    "Class List"; "Namespace List"; "Function Index"; "Variable Index";
    "Index"; "Contents"; "Table of Contents" ].

Definition isNavigationPage (title content : string) : bool :=
  let titleLower := Js.toLowerCase title in
  let contentLower := Js.toLowerCase content in
  existsb (fun indicator =>
             Js.includes titleLower (Js.toLowerCase indicator) ||
             (Js.includes contentLower "list of" && (String.length contentLower <? 1000)%nat))
          navIndicators.

Definition deadlineTerms : list string :=
  [ "deadline"; "render"; "job"; "worker"; "slave"; "submit"; "plugin";
    "repository"; "monitor"; "pool"; "group"; "limit"; "task"; "frame";
    "script"; "python"; "maya"; "max"; "nuke"; "houdini"; "blender";
    "deadlinecon"; "clientutils"; "repositoryutils"; "jobutils";
    "farm"; "queue"; "priority"; "timeout"; "event"; "command" ].

Definition progTerms : list string :=
  [ "function"; "class"; "method"; "parameter"; "return"; "import"; "module" ].

Definition extractKeywords (content title : string) : list string :=
  let allText := Js.toLowerCase (title +:+ " " +:+ content) in
  Js.dedupe (List.filter (fun term => Js.includes allText term) deadlineTerms ++
             List.filter (fun term => Js.includes allText term) progTerms)%list.

(** [s.split(/[/\\]/)]. *)
Fixpoint split_path (s : string) : list string :=
  match s with
  | EmptyString => [EmptyString]
  | String c s' =>
      if ((Js.code c =? 47) || (Js.code c =? 92))%N then EmptyString :: split_path s'
      else match split_path s' with
           | x :: r => String c x :: r
           | [] => [String c EmptyString]
           end
  end.

Definition one_char (n : N) : Js.matcher := fun s =>
  match s with
  | String c _ => if (Js.code c =? n)%N then Some 1 else None
  | EmptyString => None
  end.

(** The end of [/^(.+?)\s*[-–—]\s*(.+)$/], after the dash: optional
    whitespace, then at least one character up to the end of the string,
    none of them a line terminator. *)
Fixpoint subtitle_ok (u : string) : bool :=
  (negb (Js.is_empty u) && Js.all_chars (fun c => negb (Js.is_line_terminator c)) u) ||
  match u with
  | String c u' => Js.is_space c && subtitle_ok u'
  | EmptyString => false
  end.

(** What follows the first group: whitespace, a dash, the subtitle.  Of the
    three dashes of the pattern only the hyphen is a code unit below
    U+0100. *)
Definition dash_subtitle (r : string) : bool :=
  match Js.skip (Js.span Js.is_space r) r with
  | String c u => (Js.code c =? 45)%N && subtitle_ok u
  | EmptyString => false
  end.

(** The length of the first group: the shortest prefix, of at least one
    character and without a line terminator, that the rest can follow. *)
Fixpoint section_group (s : string) : option nat :=
  match s with
  | EmptyString => None
  | String c s' =>
      if Js.is_line_terminator c then None
      else if dash_subtitle s' then Some 1
      else S <$> section_group s'
  end.

Definition extractSection (title filePath : string) : string :=
  let pathParts := split_path filePath in
  let fromPath :=
    if (1 <? length pathParts)%nat then
      let section := default EmptyString (pathParts !! (length pathParts - 2)) in
      if negb (Js.is_empty section) && negb (String.eqb section "manual")
         && negb (String.eqb section "html")
      then Some (Js.replaceAll (one_char 95) " " 0 (Js.replaceAll (one_char 45) " " 0 section))
      else None
    else None in
  match fromPath with
  | Some s => s
  | None =>
      match section_group title with
      | Some n => Js.trim (Js.take n title)
      | None => EmptyString
      end
  end.

(** *** The store of the indexer *)

Definition text_column (name : string) (not_null primary_key : bool) : Column :=
  {| col_name := name; col_not_null := not_null; col_primary_key := primary_key |}.

(** The columns of [CREATE TABLE documents]. *)
Definition documents_columns : list Column :=
  [ text_column "id" false true;
    text_column "title" true false;
    text_column "content" true false;
    text_column "section" false false;
    text_column "docType" true false;
    text_column "url" false false;
    text_column "keywords" false false ].

(** [DROP TABLE IF EXISTS documents]; the triggers of a table go with it. *)
Definition drop_documents (db : Database) : Database :=
  {| documents := None; documents_fts := documents_fts db; documents_ai := false |}.

(** [DROP TABLE IF EXISTS documents_fts]. *)
Definition drop_documents_fts (db : Database) : Database :=
  {| documents := documents db; documents_fts := None; documents_ai := documents_ai db |}.

(** [CREATE TABLE IF NOT EXISTS documents (...)]. *)
Definition create_documents (db : Database) : Database :=
  match documents db with
  | Some _ => db
  | None =>
      {| documents := Some {| columns := documents_columns; rows := [] |};
         documents_fts := documents_fts db;
         documents_ai := documents_ai db |}
  end.

(** [CREATE VIRTUAL TABLE IF NOT EXISTS documents_fts USING fts5(...)]. *)
Definition create_documents_fts (db : Database) : Database :=
  match documents_fts db with
  | Some _ => db
  | None =>
      {| documents := documents db; documents_fts := Some []; documents_ai := documents_ai db |}
  end.

(** [CREATE TRIGGER IF NOT EXISTS documents_ai AFTER INSERT ON documents]. *)
Definition create_trigger (db : Database) : Database :=
  {| documents := documents db; documents_fts := documents_fts db; documents_ai := true |}.

Definition initDatabase (db : Database) : Database :=
  create_trigger
    (create_documents_fts
       (create_documents
          (drop_documents_fts
             (drop_documents db)))).

(** The columns the trigger copies into the full-text table. *)
Definition fts_columns : list string :=
  [ "title"; "content"; "keywords"; "section"; "docType" ].

(** The row an INSERT builds: the given value for a column that is named,
    NULL for the others. *)
Definition new_row (t : Table) (values : Row) : Row :=
  foldr (fun c r => <[col_name c := cell values (col_name c)]> r) ∅ (columns t).

Definition violates_not_null (t : Table) (r : Row) : bool :=
  existsb (fun c => col_not_null c && bool_decide (cell r (col_name c) = SqlNull)) (columns t).

(** A primary key is unique among the values that are not NULL. *)
Definition violates_unique (t : Table) (r : Row) : bool :=
  existsb (fun c =>
             col_primary_key c &&
             negb (bool_decide (cell r (col_name c) = SqlNull)) &&
             existsb (fun r' => bool_decide (cell r' (col_name c) = cell r (col_name c))) (rows t))
          (columns t).

(** The trigger body, run for the row that was just inserted. *)
Definition run_trigger (db : Database) (rowid : nat) (r : Row) : Result (option (list FtsRow)) :=
  if documents_ai db then
    match documents_fts db with
    | Some f =>
        Ok (Some (f ++ [ {| fts_rowid := rowid;
                            fts_values := list_to_map (map (fun c => (c, cell r c)) fts_columns) |} ])%list)
    | None => Err (SqliteError "no such table: main.documents_fts")
    end
  else Ok (documents_fts db).

Definition insert_columns : list string :=
  [ "id"; "title"; "content"; "section"; "docType"; "url"; "keywords" ].

(** The seven parameters of the INSERT, by the column they go to. *)
Definition insert_values (doc : DocumentSection) : Result Row :=
  v_id ← bind_param (id doc);
  v_title ← bind_param (title doc);
  v_content ← bind_param (content doc);
  v_section ← bind_param (section doc);
  v_docType ← bind_param (docType doc);
  v_url ← bind_param (url doc);
  let v_keywords := SqlText (Js.JSON_stringify (keywords doc)) in
  mret (list_to_map
          [ ("id", v_id); ("title", v_title); ("content", v_content);
            ("section", v_section); ("docType", v_docType); ("url", v_url);
            ("keywords", v_keywords) ]).

Definition insertDocument (db : Database) (doc : DocumentSection) : Result Database :=
  t ← the_table db;
  _ ← require_columns t insert_columns;
  values ← insert_values doc;
  let r := new_row t values in
  if violates_not_null t r then Err (SqliteError "NOT NULL constraint failed")
  else if violates_unique t r then Err (SqliteError "UNIQUE constraint failed: documents.id")
  else
    f ← run_trigger db (S (length (rows t))) r;
    mret {| documents := Some {| columns := columns t; rows := (rows t ++ [r])%list |};
            documents_fts := f;
            documents_ai := documents_ai db |}.

(** What [showIndexStats] reads: the number of rows, and the number of rows
    of each type. *)
Definition showIndexStats (db : Database) : Result (nat * list (SqlValue * nat)) :=
  t ← the_table db;
  let count := length (rows t) in
  _ ← require_column t "docType";
  mret (count, group_count "docType" t).

(** *** Reading and processing the files *)

Section Processing.

Context `{Html.Parser} `{Fs.Files}.
Variable config : DeadlineDocConfig.

Definition contentSelectors : list string :=
  [ ".document .body"; ".contents"; "main"; ".content"; "article"; "#content"; ".main-content" ].

Definition elementsToRemove : list string :=
  [ ".sphinxsidebar"; ".sidebar"; ".navigation"; ".nav";
    ".footer"; ".header"; ".breadcrumb"; ".toc";
    "script"; "style"; ".highlight pre"; "nav" ].

(** The first selector of the list that matches. *)
Fixpoint first_match (d : Html.Dom) (root : Html.Element) (selectors : list string) : option Html.Element :=
  match selectors with
  | [] => None
  | selector :: rest =>
      match Html.querySelector d root selector with
      | Some e => Some e
      | None => first_match d root rest
      end
  end.

(** The text of the main content, and the document as the removals leave
    it. *)
Definition extractMainContent (d : Html.Dom) (root : Html.Element) : string * Html.Dom :=
  let contentElement :=
    match first_match d root contentSelectors with
    | Some e => Some e
    | None => Html.querySelector d root "body"
    end in
  match contentElement with
  | None => (EmptyString, d)
  | Some e =>
      let d' :=
        foldl (fun d selector =>
                 foldl (fun d el => Html.remove el d) d (Html.querySelectorAll d e selector))
              d elementsToRemove in
      let text := or_else (Html.innerText d' e) (or_else (Html.text d' e) EmptyString) in
      (cleanText text, d')
  end.

Definition codeSelectors : list string :=
  [ "pre code"; "code"; ".highlight"; ".codehilite"; ".code-block" ].

Definition extractCodeExamples (d : Html.Dom) (root : Html.Element) : list string :=
  Js.dedupe
    (flat_map
       (fun selector =>
          flat_map
            (fun element =>
               let code := or_else (Html.innerText d element) (or_else (Html.text d element) EmptyString) in
               if (20 <? String.length code)%nat && (String.length code <? 2000)%nat
               then [cleanText code] else [])
            (Html.querySelectorAll d root selector))
       codeSelectors).

Definition backslash : Js.matcher := one_char 92.

(** The title that [processHtmlFile] works out first: the text of the
    [title] element, replaced by the text of the first [h1] where that one
    is not blank. *)
Definition page_title (d : Html.Dom) (root : Html.Element) : string :=
  let title :=
    match Html.querySelector d root "title" with
    | Some titleElement => cleanText (Html.text d titleElement)
    | None => EmptyString
    end in
  match Html.querySelector d root "h1" with
  | Some h1Element =>
      if negb (Js.is_empty (Js.trim (Html.text d h1Element)))
      then cleanText (Html.text d h1Element) else title
  | None => title
  end.

(** [false] with the store unchanged where the file is skipped, whatever
    the reason; [true] with the new store where the document was inserted. *)
Definition processHtmlFile (db : Database) (filePath docType : string) : bool * Database :=
  match Fs.readFile filePath with
  | None => (false, db)
  | Some htmlContent =>
      let '(d, root) := Html.parse htmlContent in
      let title := page_title d root in
      if isNavigationPage title htmlContent then (false, db)
      else
        let '(content, d) := extractMainContent d root in
        if (String.length content <? 50)%nat then (false, db)
        else
          let keywords := extractKeywords content title in
          let codeExamples := extractCodeExamples d root in
          let relativePath := Fs.relative (docsPath config) filePath in
          let docId := docType +:+ ":" +:+ Js.replaceAll backslash "/" 0 relativePath in
          let section := extractSection title filePath in
          let document :=
            {| id := Js.JsString docId;
               title := Js.JsString (or_else title (Fs.basename filePath ".html"));
               content := Js.JsString (content +:+ " " +:+ Js.join " " codeExamples);
               section := Js.JsString section;
               docType := Js.JsString docType;
               url := Js.JsString (Js.replaceAll backslash "/" 0 relativePath);
               keywords := keywords;
               codeExamples := codeExamples |} in
          match insertDocument db document with
          | Ok db' => (true, db')
          | Err _ => (false, db)
          end
  end.

Definition indexDocumentationType (db : Database) (docType docsPath : string) : Database :=
  if Fs.access docsPath then
    match Fs.glob (Js.replaceAll backslash "/" 0 (Fs.join docsPath "**/*.html")) with
    | Some htmlFiles =>
        foldl (fun db filePath => snd (processHtmlFile db filePath docType)) db htmlFiles
    | None => db
    end
  else db.

Definition indexAllDocumentation (db : Database) : Database :=
  let db := indexDocumentationType db "user-manual" (userManualPath config) in
  let db := indexDocumentationType db "scripting-reference" (scriptingReferencePath config) in
  let db := indexDocumentationType db "python-reference" (pythonReferencePath config) in
  db.

(** A full run, as the command line makes it: [initialize], then
    [indexAllDocumentation]. *)
Definition run (db : Database) : Database :=
  indexAllDocumentation (initDatabase db).

End Processing.

End Indexer.

(** ** The store-backed search: DeadlineDocSearch *)

Record SearchResult (Score : Type) := {
  result_section : DocumentSection;
  score : Score;
  matches : list Js.JsValue
}.

Arguments result_section {Score} _.
Arguments score {Score} _.
Arguments matches {Score} _.

Module Search.

Import Sql.

(** *** The code patterns

    Each pattern is a sequence of literals and of greedy repetitions of a
    character class, and in each of them the character that must follow a
    repetition is outside its class (or, for [\w+[\w\s(,)]*], the second
    class contains the first): giving back a character never helps, so the
    greedy match is the match. *)

Definition lit (t : string) : Js.matcher := fun s =>
  if Js.startsWith s t then Some (String.length t) else None.

Definition plus (p : ascii -> bool) : Js.matcher := fun s =>
  match Js.span p s with
  | O => None
  | n => Some n
  end.

Definition star (p : ascii -> bool) : Js.matcher := fun s => Some (Js.span p s).

Definition seq (m1 m2 : Js.matcher) : Js.matcher := fun s =>
  match m1 s with
  | Some a =>
      match m2 (Js.skip a s) with
      | Some b => Some (a + b)
      | None => None
      end
  | None => None
  end.

(** A pattern made of parts, one after the other. *)
Definition parts (ms : list Js.matcher) : Js.matcher :=
  foldr seq (fun _ => Some 0) ms.

Definition is_char (n : N) (c : ascii) : bool := (Js.code c =? n)%N.
Definition word_or_dot (c : ascii) : bool := Js.is_word c || is_char 46 c.
Definition not_close (c : ascii) : bool := negb (is_char 41 c).
Definition class_tail (c : ascii) : bool :=
  Js.is_word c || Js.is_space c || is_char 40 c || is_char 44 c || is_char 41 c.

(** [/DeadlineCon\.[\w.]+\([^)]*\)/] *)
Definition call_pattern : Js.matcher :=
  parts [ lit "DeadlineCon."; plus word_or_dot; lit "("; star not_close; lit ")" ].

(** [/import\s+[\w.]+/] *)
Definition import_pattern : Js.matcher :=
  parts [ lit "import"; plus Js.is_space; plus word_or_dot ].

(** [/def\s+\w+\([^)]*\):/] *)
Definition def_pattern : Js.matcher :=
  parts [ lit "def"; plus Js.is_space; plus Js.is_word; lit "("; star not_close; lit "):" ].

(** [/class\s+\w+[\w\s(,)]*:/] *)
Definition class_pattern : Js.matcher :=
  parts [ lit "class"; plus Js.is_space; plus Js.is_word; star class_tail; lit ":" ].

(** [/\w+\s*=\s*DeadlineCon\.\w+/] *)
Definition assign_pattern : Js.matcher :=
  parts [ plus Js.is_word; star Js.is_space; lit "="; star Js.is_space; lit "DeadlineCon."; plus Js.is_word ].

Definition codePatterns : list Js.matcher :=
  [ call_pattern; import_pattern; def_pattern; class_pattern; assign_pattern ].

Definition extractCodeExamples (content : string) : list string :=
  Js.dedupe (flat_map (fun pattern => firstn 3 (Js.matchAll pattern 0 content)) codePatterns).

(** *** Rows into documents *)

(** [JSON.parse(row.keywords || '[]')]. *)
Definition parse_keywords (v : Js.JsValue) : Result (list string) :=
  match Js.JSON_parse (Js.to_string (Js.js_or v (Js.JsString "[]"))) with
  | Some l => Ok l
  | None => Err (SyntaxError "Unexpected token in JSON")
  end.

(** [this.extractCodeExamples(row.content)]; [content.match] throws where
    the content is not a string. *)
Definition examples_of (v : Js.JsValue) : Result (list string) :=
  match v with
  | Js.JsString s => Ok (extractCodeExamples s)
  | _ => Err (TypeError "Cannot read properties of null (reading 'match')")
  end.

Definition row_document (row : Row) : Result DocumentSection :=
  ks ← parse_keywords (prop row "keywords");
  ex ← examples_of (prop row "content");
  mret {| id := prop row "id";
          title := prop row "title";
          content := prop row "content";
          section := Js.js_or (prop row "section") (Js.JsString EmptyString);
          docType := prop row "doc_type";
          url := prop row "url";
          keywords := ks;
          codeExamples := ex |}.

Fixpoint all_ok {A B} (f : A -> Result B) (l : list A) : Result (list B) :=
  match l with
  | [] => Ok []
  | x :: l' => y ← f x; ys ← all_ok f l'; mret (y :: ys)
  end.

(** [docType] as a condition: [undefined] and the empty string are no
    filter. *)
Definition given (docType : option string) : option string :=
  match docType with
  | Some t => if Js.is_empty t then None else Some t
  | None => None
  end.

(** *** getDocumentById *)

Definition getDocumentById (db : Database) (id : string) : Result (option DocumentSection) :=
  t ← the_table db;
  _ ← require_column t "id";
  match List.filter (fun r => holds (sql_eq (cell r "id") id)) (rows t) with
  | row :: _ => d ← row_document row; mret (Some d)
  | [] => mret None
  end.

(** *** browseSections

    In [section LIKE ? OR title LIKE ? AND doc_type = ?] the AND binds
    tighter than the OR. *)

Definition browse_condition (section : string) (docType : option string) (r : Row) : option bool :=
  let p := "%" +:+ section +:+ "%" in
  match given docType with
  | Some t =>
      sql_or (sql_like (cell r "section") p)
             (sql_and (sql_like (cell r "title") p) (sql_eq (cell r "doc_type") t))
  | None => sql_or (sql_like (cell r "section") p) (sql_like (cell r "title") p)
  end.

Definition browseSections (db : Database) (section : string) (docType : option string)
  : Result (list DocumentSection) :=
  t ← the_table db;
  _ ← require_columns t ["section"; "title"];
  _ ← match given docType with
      | Some _ => require_column t "doc_type"
      | None => Ok tt
      end;
  all_ok row_document
    (firstn 20
       (sort_by (fun r1 r2 => sql_leb (cell r1 "title") (cell r2 "title"))
          (List.filter (fun r => holds (browse_condition section docType r)) (rows t)))).

(** *** getStats *)

Record Stats := {
  total : nat;
  byType : gmap string nat
}.

(** The property key a value turns into. *)
Definition property_key (v : SqlValue) : string :=
  match v with
  | SqlNull => "null"
  | SqlText s => s
  end.

(** [obj[key] = value] on an object literal; assigning a number to
    [__proto__] leaves the object as it is. *)
Definition set_property {A} (obj : gmap string A) (key : string) (value : A) : gmap string A :=
  if String.eqb key "__proto__" then obj else <[key := value]> obj.

Definition getStats (db : Database) : Result Stats :=
  t ← the_table db;
  let totalRow := length (rows t) in
  _ ← require_column t "doc_type";
  let typeRows := group_count "doc_type" t in
  mret {| total := totalRow;
          byType := foldl (fun byType row => set_property byType (property_key row.1) row.2)
                          ∅ typeRows |}.

(** *** The full-text queries *)

(** What FTS5 answers to [documents_fts MATCH ?]: the rowids that match,
    each with its rank and with the highlighted content column, or an
    error for a query it cannot parse. *)
Record Hit (Score : Type) := {
  hit_rowid : nat;
  hit_rank : Score;
  hit_highlighted : SqlValue
}.

Arguments hit_rowid {Score} _.
Arguments hit_rank {Score} _.
Arguments hit_highlighted {Score} _.

Class Fts5 := {
  Score : Type;
  score_leb : Score -> Score -> bool;
  fts5_match : string -> Table -> list FtsRow -> Result (list (Hit Score))
}.

Section FullText.

Context `{Fts5}.

Definition the_fts (db : Database) : Result (list FtsRow) :=
  match documents_fts db with
  | Some f => Ok f
  | None => Err (SqliteError "no such table: documents_fts")
  end.

(** [JOIN documents d ON d.rowid = documents_fts.rowid]. *)
Definition join_documents (t : Table) (hits : list (Hit Score)) : list (Hit Score * Row) :=
  flat_map (fun h =>
              match hit_rowid h with
              | S i => match rows t !! i with Some r => [(h, r)] | None => [] end
              | O => []
              end) hits.

Definition search_columns : list string :=
  [ "id"; "title"; "content"; "section"; "doc_type"; "url"; "keywords" ].

(** [row.content.substring(0, 300)]. *)
Definition excerpt (v : Js.JsValue) : Result Js.JsValue :=
  match v with
  | Js.JsString s => Ok (Js.JsString (Js.take 300 s))
  | _ => Err (TypeError "Cannot read properties of null (reading 'substring')")
  end.

Definition search_result (hr : Hit Score * Row) : Result (SearchResult Score) :=
  let '(h, row) := hr in
  d ← row_document row;
  let highlighted :=
    match hit_highlighted h with
    | SqlNull => Js.JsNull
    | SqlText s => Js.JsString s
    end in
  m ← (if Js.truthy highlighted then Ok highlighted else excerpt (prop row "content"));
  mret {| result_section := d; score := hit_rank h; matches := [m] |}.

Definition searchDocumentation (db : Database) (query : string) (docType : option string) (limit : Z)
  : Result (list (SearchResult Score)) :=
  f ← the_fts db;
  t ← the_table db;
  _ ← require_columns t search_columns;
  hits ← fts5_match query t f;
  let joined := join_documents t hits in
  let matching :=
    match given docType with
    | Some ty => List.filter (fun hr => holds (sql_eq (cell hr.2 "doc_type") ty)) joined
    | None => joined
    end in
  all_ok search_result
    (Sql.limit limit (sort_by (fun a b => score_leb (hit_rank a.1) (hit_rank b.1)) matching)).

(** [getCodeExamples]: the examples of the best [2 * limit] documents, cut
    at [limit]; the loop stops once it holds [limit] of them. *)
Fixpoint collect_examples (limit : Z) (examples : list string) (contents : list Js.JsValue)
  : Result (list string) :=
  match contents with
  | [] => Ok examples
  | c :: rest =>
      codeBlocks ← examples_of c;
      let examples := (examples ++ codeBlocks)%list in
      if (limit <=? Z.of_nat (length examples))%Z then Ok examples
      else collect_examples limit examples rest
  end.

Definition getCodeExamples (db : Database) (query : string) (limit : Z) : Result (list string) :=
  let codeQuery :=
    query +:+ " AND (DeadlineCon OR python OR script OR function OR class OR import)" in
  f ← the_fts db;
  t ← the_table db;
  _ ← require_column t "content";
  hits ← fts5_match codeQuery t f;
  let long_enough hr :=
    match cell hr.2 "content" with
    | SqlText s => (100 <? String.length s)%nat
    | SqlNull => false
    end in
  let rows :=
    Sql.limit (limit * 2)
      (sort_by (fun a b => score_leb (hit_rank a.1) (hit_rank b.1))
         (List.filter long_enough (join_documents t hits))) in
  examples ← collect_examples limit [] (map (fun hr => prop hr.2 "content") rows);
  mret (Js.slice0 limit examples).

End FullText.

End Search.

(** ** The curated fallback: RemoteDeadlineSearch *)

Module Remote.

Definition dq : string := Js.str1 34.

Definition user_manual_url : string :=
  "https://docs.thinkboxsoftware.com/products/deadline/10.4/1_User%20Manual/".
Definition scripting_reference_url : string :=
  "https://docs.thinkboxsoftware.com/products/deadline/10.4/2_Scripting%20Reference/".
Definition python_reference_url : string :=
  "https://docs.thinkboxsoftware.com/products/deadline/10.4/3_Python%20Reference/".
Definition generic_url : string :=
  "https://docs.thinkboxsoftware.com/products/deadline/10.4/".

(** The own properties of the object literal [baseUrls]. *)
Definition baseUrls : gmap string Js.JsValue :=
  list_to_map
    [ ("user-manual", Js.JsString user_manual_url);
      ("scripting-reference", Js.JsString scripting_reference_url);
      ("python-reference", Js.JsString python_reference_url) ].

Definition job_submission_content : string :=
  "To submit jobs to Deadline using Python, use the DeadlineCon class:

import Deadline.DeadlineConnect as Connect

# Connect to Deadline
deadline = Connect.DeadlineCon('localhost', 8082)

# Create job info
JobInfo = {
    " +:+ dq +:+ "Name" +:+ dq +:+ ": " +:+ dq +:+ "My Render Job" +:+ dq +:+ ",
    " +:+ dq +:+ "UserName" +:+ dq +:+ ": " +:+ dq +:+ "username" +:+ dq +:+ ", 
    " +:+ dq +:+ "Frames" +:+ dq +:+ ": " +:+ dq +:+ "1-100" +:+ dq +:+ ",
    " +:+ dq +:+ "Plugin" +:+ dq +:+ ": " +:+ dq +:+ "Maya" +:+ dq +:+ "
}

# Create plugin info
PluginInfo = {
    " +:+ dq +:+ "Version" +:+ dq +:+ ": " +:+ dq +:+ "2023" +:+ dq +:+ ",
    " +:+ dq +:+ "SceneFile" +:+ dq +:+ ": " +:+ dq +:+ "/path/to/scene.ma" +:+ dq +:+ "
}

# Submit the job
result = deadline.Jobs.SubmitJob(JobInfo, PluginInfo)".

Definition deadlinecon_content : string :=
  "DeadlineCon is the main class for connecting to Deadline Web Service:

import Deadline.DeadlineConnect as Connect

# Create connection
connectionObject = Connect.DeadlineCon('WebServiceName', 8082)

# Available methods:
# - connectionObject.Jobs.GetJobs()
# - connectionObject.Jobs.SubmitJob(jobInfo, pluginInfo)
# - connectionObject.Groups.GetGroupNames()
# - connectionObject.Repository.GetRootDirectory()".

Definition plugin_development_content : string :=
  "Deadline plugins are Python scripts that define how applications are launched and monitored. Key components:

1. Plugin Info File (.param) - Defines plugin parameters
2. Plugin Script (.py) - Contains the plugin logic
3. Event Plugin (optional) - Handles job events

Basic plugin structure:
- GetPluginInfo() - Returns plugin information
- InitializeProcess() - Sets up the render process
- StartJob() - Called when job starts
- RenderTasks() - Main rendering logic".

Definition help_content : string :=
  "I can help you with Deadline documentation queries. Try asking about:

- Job submission with Python
- DeadlineCon connection examples  
- Plugin development
- Repository configuration
- Worker/Slave management
- Event plugins

For complete documentation, visit:
- User Manual: https://docs.thinkboxsoftware.com/products/deadline/10.4/1_User%20Manual/
- Scripting Reference: https://docs.thinkboxsoftware.com/products/deadline/10.4/2_Scripting%20Reference/
- Python Reference: https://docs.thinkboxsoftware.com/products/deadline/10.4/3_Python%20Reference/".

Definition job_submission_example : string :=
  "import Deadline.DeadlineConnect as Connect
deadline = Connect.DeadlineCon(" +:+ dq +:+ "localhost" +:+ dq +:+ ", 8082)
result = deadline.Jobs.SubmitJob(JobInfo, PluginInfo)".

Definition deadlinecon_example : string :=
  "import Deadline.DeadlineConnect as Connect
connectionObject = Connect.DeadlineCon(" +:+ dq +:+ "localhost" +:+ dq +:+ ", 8082)".

Definition connect_example : string :=
  "import Deadline.DeadlineConnect as Connect
connectionObject = Connect.DeadlineCon('localhost', 8082)
print(connectionObject.Groups.GetGroupNames())".

Definition submit_example : string :=
  "JobInfo = {
    " +:+ dq +:+ "Name" +:+ dq +:+ ": " +:+ dq +:+ "My Job" +:+ dq +:+ ",
    " +:+ dq +:+ "UserName" +:+ dq +:+ ": " +:+ dq +:+ "username" +:+ dq +:+ ",
    " +:+ dq +:+ "Frames" +:+ dq +:+ ": " +:+ dq +:+ "1-10" +:+ dq +:+ ", 
    " +:+ dq +:+ "Plugin" +:+ dq +:+ ": " +:+ dq +:+ "Maya" +:+ dq +:+ "
}

PluginInfo = {
    " +:+ dq +:+ "Version" +:+ dq +:+ ": " +:+ dq +:+ "2023" +:+ dq +:+ "
}

newJob = deadline.Jobs.SubmitJob(JobInfo, PluginInfo)".

Definition curated (id title content url docType section : string)
    (codeExamples keywords : list string) (score : Q) (matched : string) : SearchResult Q :=
  {| result_section :=
       {| id := Js.JsString id; title := Js.JsString title; content := Js.JsString content;
          url := Js.JsString url; docType := Js.JsString docType; section := Js.JsString section;
          codeExamples := codeExamples; keywords := keywords |};
     score := score;
     matches := [Js.JsString matched] |}.

Definition job_submission : SearchResult Q :=
  curated "python-reference:job-submission" "Job Submission with Python"
    job_submission_content python_reference_url "python-reference" "Job Submission"
    [job_submission_example] ["submit"; "job"; "python"; "DeadlineCon"]
    (9 # 10) "Job submission using Python API".

Definition deadlinecon : SearchResult Q :=
  curated "python-reference:deadlinecon" "DeadlineCon Connection"
    deadlinecon_content python_reference_url "python-reference" "DeadlineCon"
    [deadlinecon_example] ["DeadlineCon"; "connection"; "web service"]
    (95 # 100) "DeadlineCon connection examples".

Definition plugin_development : SearchResult Q :=
  curated "scripting-reference:plugin-development" "Plugin Development"
    plugin_development_content scripting_reference_url "scripting-reference" "Plugin Development"
    [] ["plugin"; "development"; "scripting"]
    (85 # 100) "Plugin development guide".

Definition general_help : SearchResult Q :=
  curated "general:help" "Deadline Documentation Help"
    help_content generic_url "user-manual" "General Help"
    [] ["help"; "documentation"; "deadline"]
    (5 # 10) "General documentation help".

(** [docType] is not read. *)
Definition getCuratedResults (query : string) (docType : option string) : list (SearchResult Q) :=
  let lowerQuery := Js.toLowerCase query in
  let results :=
    ((if Js.includes lowerQuery "submit" && Js.includes lowerQuery "job"
      then [job_submission] else []) ++
     (if Js.includes lowerQuery "deadlinecon" || Js.includes lowerQuery "connection"
      then [deadlinecon] else []) ++
     (if Js.includes lowerQuery "plugin" &&
         (Js.includes lowerQuery "create" || Js.includes lowerQuery "develop")
      then [plugin_development] else []))%list in
  if (length results =? 0)%nat then [general_help] else results.

Definition searchDocumentation (query : string) (docType : option string) (limit : Z)
  : list (SearchResult Q) :=
  Js.slice0 limit (getCuratedResults query docType).

Definition getDocumentById (id : string) : option DocumentSection :=
  let '(docType, section) := Js.split_first_colon id in
  let link := Js.js_or (Js.get_property baseUrls docType) (Js.JsString generic_url) in
  Some {| id := Js.JsString id;
          title := Js.JsString ("Remote Documentation: " +:+ section);
          content := Js.JsString
            ("This content is available in the online Deadline documentation. Please visit: "
               +:+ Js.to_string link);
          url := link;
          docType := Js.JsString docType;
          section := Js.JsString section;
          codeExamples := [];
          keywords := [] |}.

Definition getCommonCodeExamples (query : string) : list string :=
  let lowerQuery := Js.toLowerCase query in
  ((if Js.includes lowerQuery "deadlinecon" || Js.includes lowerQuery "connect"
    then [connect_example] else []) ++
   (if Js.includes lowerQuery "submit" || Js.includes lowerQuery "job"
    then [submit_example] else []))%list.

Definition getCodeExamples (query : string) (limit : Z) : list string :=
  Js.slice0 limit (getCommonCodeExamples query).



End Remote.

(** ** The configuration: ConfigManager *)

Module Config.

(** What the manager reads from its host: the environment variable
    [DEADLINE_DOCS_PATH], [fs.stat] (nothing where it throws, else whether
    the path is a directory), and [path.join]. *)
Class Host := {
  DEADLINE_DOCS_PATH : option string;
  stat : string -> option bool;
  join : string -> string -> string
}.

Definition requiredDirs : list string :=
  [ "Deadline-10.4.1.8-User-Manual";
    "Deadline-10.4.1.8-Scripting-Reference";
    "Deadline-10.4.1.8-Standalone-Python-Reference" ].

Definition remote_config : DeadlineDocConfig :=
  {| docsPath := "remote";
     userManualPath :=
       "https://docs.thinkboxsoftware.com/products/deadline/10.4/1_User%20Manual/";
     scriptingReferencePath :=
       "https://docs.thinkboxsoftware.com/products/deadline/10.4/2_Scripting%20Reference/";
     pythonReferencePath :=
       "https://docs.thinkboxsoftware.com/products/deadline/10.4/3_Python%20Reference/" |}.

Section Manager.

Context `{Host}.

(** The loop of [validateLocalDocs], over the directories that are left:
    it returns false at the first one that is no directory, and the catch
    returns false where [stat] throws. *)
Fixpoint validate_dirs (docsPath : string) (dirs : list string) : bool :=
  match dirs with
  | [] => true
  | dir :: rest =>
      let dirPath := join docsPath dir in
      match stat dirPath with
      | Some true => validate_dirs docsPath rest
      | Some false => false
      | None => false
      end
  end.

Definition validateLocalDocs (docsPath : string) : bool :=
  validate_dirs docsPath requiredDirs.

Definition local_config (localDocsPath : string) : DeadlineDocConfig :=
  {| docsPath := localDocsPath;
     userManualPath := join localDocsPath "Deadline-10.4.1.8-User-Manual";
     scriptingReferencePath := join localDocsPath "Deadline-10.4.1.8-Scripting-Reference";
     pythonReferencePath := join localDocsPath "Deadline-10.4.1.8-Standalone-Python-Reference" |}.

(** [getConfig], on the field [config] of the manager: the configuration
    it returns, and the field afterwards. *)
Definition getConfig (config : option DeadlineDocConfig)
  : DeadlineDocConfig * option DeadlineDocConfig :=
  match config with
  | Some c => (c, config)
  | None =>
      let localDocsPath := DEADLINE_DOCS_PATH in
      match localDocsPath with
      | Some p =>
          if negb (Js.is_empty p) then
            if validateLocalDocs p
            then (local_config p, Some (local_config p))
            else (remote_config, Some remote_config)
          else (remote_config, Some remote_config)
      | None => (remote_config, Some remote_config)
      end
  end.

End Manager.

(** [this.config?.docsPath !== 'remote']: without a configuration the left
    side is [undefined]. *)
Definition isUsingLocalDocs (config : option DeadlineDocConfig) : bool :=
  match config with
  | Some c => negb (String.eqb (docsPath c) "remote")
  | None => true
  end.

End Config.

(** ** The server: index.ts *)

Module Server.

Inductive ErrorCode :=
  | InvalidParams
  | MethodNotFound
  | InternalError.

(** What a tool call comes to: the text of the response, or the
    [McpError] that the handler throws. *)
Inductive Outcome :=
  | Text (text : string)
  | McpError (code : ErrorCode) (message : string).

(** [error.message]. *)
Definition message (e : Error) : string :=
  match e with
  | SqliteError m => m
  | SyntaxError m => m
  | TypeError m => m
  end.

Definition nl : string := Js.str1 10.
Definition dq : string := Js.str1 34.

(** One code example between its fences. *)
Definition fenced (example : string) : string :=
  "```" +:+ nl +:+ example +:+ nl +:+ "```".

(** The text of the response of [get_deadline_document] for a document. *)
Definition document_text (document : DocumentSection) : string :=
  "# " +:+ Js.to_string (title document) +:+ nl +:+ nl +:+
  "**Type:** " +:+ Js.to_string (docType document) +:+ nl +:+
  "**Section:** " +:+ Js.to_string (Js.js_or (section document) (Js.JsString "General")) +:+ nl +:+
  "**URL:** " +:+ Js.to_string (url document) +:+ nl +:+ nl +:+
  "## Content" +:+ nl +:+ nl +:+
  Js.to_string (content document) +:+ nl +:+ nl +:+
  (if (0 <? length (codeExamples document))%nat
   then "## Code Examples" +:+ nl +:+ nl +:+
        Js.join (nl +:+ nl) (map fenced (codeExamples document)) +:+ nl +:+ nl
   else EmptyString) +:+
  (if (0 <? length (keywords document))%nat
   then "**Keywords:** " +:+ Js.join ", " (keywords document)
   else EmptyString).

(** The case [get_deadline_document] of the tool handler; [id] is the
    argument of the call, if it has one.  An error of the search is
    wrapped, by the catch at the end of the handler. *)
Definition get_deadline_document (db : Sql.Database) (id : option string) : Outcome :=
  match id with
  | None => McpError InvalidParams "Document ID is required"
  | Some id =>
      if Js.is_empty id then McpError InvalidParams "Document ID is required"
      else
        match Search.getDocumentById db id with
        | Err error => McpError InternalError ("Tool execution failed: " +:+ message error)
        | Ok None => Text ("Document with ID " +:+ dq +:+ id +:+ dq +:+ " not found.")
        | Ok (Some document) => Text (document_text document)
        end
  end.

(** How [main] ends: the process exits with a code, or the server is
    connected to its transport and runs. *)
Inductive Startup :=
  | Exit (code : Z)
  | Running.

(** [main], with the catch that follows its call; [connects] tells whether
    [server.connect] succeeds. *)
Definition main (db : Sql.Database) (connects : bool) : Startup :=
  match Search.getStats db with
  | Ok stats => if connects then Running else Exit 1
  | Err error => Exit 1
  end.

End Server.

(** * Vocabulary of the properties *)

(** No two whitespace characters in a row. *)
Fixpoint single_spaced (s : string) : bool :=
  match s with
  | String c ((String c' _) as s') =>
      negb (Js.is_space c && Js.is_space c') && single_spaced s'
  | _ => true
  end.

(** The store right after [initDatabase]. *)
Definition fresh : Sql.Database :=
  {| Sql.documents := Some {| Sql.columns := Indexer.documents_columns; Sql.rows := [] |};
     Sql.documents_fts := Some [];
     Sql.documents_ai := true |}.

(** One successful [insertDocument]. *)
Definition insert_step (db db' : Sql.Database) : Prop :=
  exists doc, Indexer.insertDocument db doc = Ok db'.

(** The store has the [documents] table that [initDatabase] creates. *)
Definition indexer_store (db : Sql.Database) : Prop :=
  exists t, Sql.documents db = Some t /\ Sql.columns t = Indexer.documents_columns.

(** The scalar fields of a document are strings, as types.ts declares. *)
Definition typed (doc : DocumentSection) : Prop :=
  exists i t c u ty s,
    id doc = Js.JsString i /\ title doc = Js.JsString t /\ content doc = Js.JsString c /\
    url doc = Js.JsString u /\ docType doc = Js.JsString ty /\ section doc = Js.JsString s.

(** *** Instances for the examples *)

(** A parser that takes a page for plain text: the page is its own body
    and has no other element. *)
Definition plain_parser : Html.Parser :=
  {| Html.Dom := unit;
     Html.Element := string;
     Html.parse := fun html => (tt, html);
     Html.querySelector := fun _ e selector =>
       if String.eqb selector "body" then Some e else None;
     Html.querySelectorAll := fun _ _ _ => [];
     Html.remove := fun _ d => d;
     Html.text := fun _ e => e;
     Html.innerText := fun _ e => e |}.

(** A file system that holds the given files, each a path and its text. *)
Definition files_of (files : list (string * string)) : Fs.Files :=
  {| Fs.access := fun _ => true;
     Fs.glob := fun _ => Some (map fst files);
     Fs.readFile := fun path =>
       snd <$> List.find (fun f => String.eqb (fst f) path) files;
     Fs.join := fun a b => a +:+ "/" +:+ b;
     Fs.relative := fun _ to => to;
     Fs.basename := fun path _ => path |}.

Definition sample_config : DeadlineDocConfig :=
  {| docsPath := "docs";
     userManualPath := "docs/user";
     scriptingReferencePath := "docs/scripting";
     pythonReferencePath := "docs/python" |}.

(** What [getDocumentById] makes of a document that [insertDocument] stored
    in the table of the indexer: the type is gone, since the table has no
    column [doc_type], and the code examples are the ones the code patterns
    find in the content. *)
Definition fetched (doc : DocumentSection) : DocumentSection :=
  {| id := id doc;
     title := title doc;
     content := content doc;
     url := url doc;
     docType := Js.JsUndefined;
     section := section doc;
     codeExamples :=
       match content doc with
       | Js.JsString c => Search.extractCodeExamples c
       | _ => []
       end;
     keywords := keywords doc |}.

(** *** A document for the examples

    A page of the user manual with one code block, as [processHtmlFile]
    puts it together: the content is the main text followed by the code
    examples. *)

Definition sample_main : string :=
  "Jobs are submitted from the Monitor or from a script running on the farm.".

Definition sample_code : string := "for job in jobs: print(job.name) end".

Definition sample_document : DocumentSection :=
  {| id := Js.JsString "user-manual:jobs/submit.html";
     title := Js.JsString "Submitting Jobs";
     content := Js.JsString (sample_main +:+ " " +:+ Js.join " " [sample_code]);
     url := Js.JsString "jobs/submit.html";
     docType := Js.JsString "user-manual";
     section := Js.JsString "jobs";
     codeExamples := [sample_code];
     keywords := Indexer.extractKeywords sample_main "Submitting Jobs" |}.

(** The store once the sample document is inserted into the fresh one. *)
Definition sample_store : Sql.Database :=
  match Indexer.insertDocument fresh sample_document with
  | Ok db => db
  | Err _ => fresh
  end.

(** *** A store in the layout the search reads

    The queries of the search name the type column [doc_type].  The
    library below is a store with that column, holding three documents. *)

Definition search_layout : list Sql.Column :=
  [ Indexer.text_column "id" false true;
    Indexer.text_column "title" true false;
    Indexer.text_column "content" true false;
    Indexer.text_column "section" false false;
    Indexer.text_column "doc_type" true false;
    Indexer.text_column "url" false false;
    Indexer.text_column "keywords" false false ].

Definition library_row (id title content section doc_type url : string) : Sql.Row :=
  list_to_map
    [ ("id", Sql.SqlText id); ("title", Sql.SqlText title); ("content", Sql.SqlText content);
      ("section", Sql.SqlText section); ("doc_type", Sql.SqlText doc_type);
      ("url", Sql.SqlText url); ("keywords", Sql.SqlText "[]") ].

Definition library_rows : list Sql.Row :=
  [ library_row "user-manual:jobs/submit.html" "Submitting Jobs"
      "Jobs are submitted from the Monitor." "Jobs" "user-manual" "jobs/submit.html";
    library_row "python-reference:jobs.html" "Jobs API"
      "The Jobs class lists and submits jobs." "api" "python-reference" "jobs.html";
    library_row "scripting-reference:events.html" "Event Plugins"
      "Events run when jobs change state." "events" "scripting-reference" "events.html" ].

Definition library : Sql.Database :=
  {| Sql.documents := Some {| Sql.columns := search_layout; Sql.rows := library_rows |};
     Sql.documents_fts :=
       Some (imap (fun i r => {| Sql.fts_rowid := S i; Sql.fts_values := r |}) library_rows);
     Sql.documents_ai := true |}.

(** A stand-in for FTS5 in the examples: a row matches when its content
    contains the query, letter case ignored; the rank is the rowid; the
    empty query is a syntax error. *)
Definition word_engine : Search.Fts5 :=
  {| Search.Score := Z;
     Search.score_leb := Z.leb;
     Search.fts5_match := fun query _ f =>
       if Js.is_empty query then Err (SqliteError "fts5: syntax error")
       else Ok (flat_map
                  (fun fr =>
                     match Sql.cell (Sql.fts_values fr) "content" with
                     | Sql.SqlText c =>
                         if Js.includes (Js.toLowerCase c) (Js.toLowerCase query)
                         then [ {| Search.hit_rowid := Sql.fts_rowid fr;
                                   Search.hit_rank := Z.of_nat (Sql.fts_rowid fr);
                                   Search.hit_highlighted := Sql.SqlNull |} ]
                         else []
                     | Sql.SqlNull => []
                     end) f) |}.

(** A character that is no whitespace, or is the space. *)
Definition space_or_visible (c : ascii) : bool :=
  negb (Js.is_space c) || (Js.code c =? 32)%N.

(** The normal form of [cleanText]: safe characters only, no whitespace but
    the space, no two spaces in a row, nothing to trim. *)
Definition normalized (s : string) : Prop :=
  Js.all_chars Indexer.is_safe s = true /\
  Js.all_chars space_or_visible s = true /\
  single_spaced s = true /\
  Js.trim s = s.

(** A character that the normalization drops or turns into a space. *)
Definition blank_char (c : ascii) : bool :=
  Js.is_space c || negb (Indexer.is_safe c).

(** A character that is no path separator. *)
Definition not_separator (c : ascii) : bool :=
  negb ((Js.code c =? 47) || (Js.code c =? 92))%N.

(** A hyphen or an underscore becomes a space. *)
Definition dash_to_space (c : ascii) : ascii :=
  if ((Js.code c =? 45) || (Js.code c =? 95))%N then " "%char else c.


(** *** The stores that the indexer builds *)

#[global] Instance JsValue_eq_dec : EqDecision Js.JsValue.
Proof. solve_decision. Defined.

(** The row that [insertDocument] writes for a document into the table of
    the indexer. *)
Definition row_of (doc : DocumentSection) : Sql.Row :=
  match Indexer.insert_values doc with
  | Ok values =>
      Indexer.new_row {| Sql.columns := Indexer.documents_columns; Sql.rows := [] |} values
  | Err _ => ∅
  end.

(** The entry that the trigger writes for a row. *)
Definition fts_entry (i : nat) (r : Sql.Row) : Sql.FtsRow :=
  {| Sql.fts_rowid := S i;
     Sql.fts_values := list_to_map (map (fun c => (c, Sql.cell r c)) Indexer.fts_columns) |}.

(** The store that holds the given documents, in this order: their rows,
    one full-text entry for each row, and the trigger. *)
Definition store_of (docs : list DocumentSection) : Sql.Database :=
  {| Sql.documents :=
       Some {| Sql.columns := Indexer.documents_columns; Sql.rows := map row_of docs |};
     Sql.documents_fts := Some (imap fts_entry (map row_of docs));
     Sql.documents_ai := true |}.

Definition document_types : list string :=
  [ "user-manual"; "scripting-reference"; "python-reference" ].

(** What [processHtmlFile] puts into a document of type [ty]: the id is the
    type, a colon and the url; the content has the 50 characters that the
    length gate asks for and the space that follows them; the keywords are
    terms of the vocabularies. *)
Definition built_by (ty : string) (doc : DocumentSection) : Prop :=
  exists rel t c s,
    id doc = Js.JsString (ty +:+ ":" +:+ rel) /\
    url doc = Js.JsString rel /\
    docType doc = Js.JsString ty /\
    title doc = Js.JsString t /\
    content doc = Js.JsString c /\
    51 <= String.length c /\
    section doc = Js.JsString s /\
    forall k, In k (keywords doc) -> In k (Indexer.deadlineTerms ++ Indexer.progTerms)%list.

(** The files that [indexDocumentationType] goes through for a directory:
    none where the directory cannot be accessed or the search for files
    fails. *)
Definition html_files `{Fs.Files} (docsPath : string) : list string :=
  if Fs.access docsPath then
    match Fs.glob (Js.replaceAll Indexer.backslash "/" 0 (Fs.join docsPath "**/*.html")) with
    | Some htmlFiles => htmlFiles
    | None => []
    end
  else [].

(** Processing the file changes no store that has the ids of [docs]. *)
Definition settled `{Html.Parser} `{Fs.Files} (config : DeadlineDocConfig)
    (filePath docType : string) (docs : list DocumentSection) : Prop :=
  forall docs',
    Forall typed docs' ->
    (forall x, x ∈ map id docs -> x ∈ map id docs') ->
    Indexer.processHtmlFile config (store_of docs') filePath docType = (false, store_of docs').

(** A page for the examples, long enough to be stored. *)
Definition sample_page : string :=
  "Jobs are submitted from the Monitor or from a script that runs on the render farm.".

(** *** Browsing, on documents *)



(** *** A store with a code page, and an engine that matches every row *)

Definition code_document : DocumentSection :=
  {| id := Js.JsString "python-reference:connect.html";
     title := Js.JsString "Connecting";
     content := Js.JsString
       "Connect to the web service first, then list the jobs of the farm: import Deadline.DeadlineConnect and call DeadlineCon.Jobs.GetJobs() on the connection.";
     url := Js.JsString "connect.html";
     docType := Js.JsString "python-reference";
     section := Js.JsString "api";
     codeExamples := [];
     keywords := ["deadline"; "job"; "farm"; "deadlinecon"; "import"] |}.

(** A stand-in for FTS5 that matches every row, whatever the query; the
    rank is the rowid. *)
Definition any_engine : Search.Fts5 :=
  {| Search.Score := Z;
     Search.score_leb := Z.leb;
     Search.fts5_match := fun _ _ f =>
       Ok (map (fun fr => {| Search.hit_rowid := Sql.fts_rowid fr;
                             Search.hit_rank := Z.of_nat (Sql.fts_rowid fr);
                             Search.hit_highlighted := Sql.SqlNull |}) f) |}.

(** A piece of the content of a row that has more than 100 characters. *)
Definition piece_of_long_content (t : Sql.Table) (e : string) : Prop :=
  exists row c,
    row ∈ Sql.rows t /\ Sql.cell row "content" = Sql.SqlText c /\
    100 < String.length c /\ Js.includes c e = true.

(** A character that is no backslash. *)
Definition not_backslash (c : ascii) : bool := negb (Js.code c =? 92)%N.

(** * Properties *)

(** ** Strings *)

Lemma append_nil (a : string) : EmptyString +:+ a = a.
Proof. reflexivity. Qed.

Lemma append_cons (x : ascii) (a b : string) : String x a +:+ b = String x (a +:+ b).
Proof. reflexivity. Qed.

Lemma append_assoc (a b c : string) : (a +:+ b) +:+ c = a +:+ (b +:+ c).
Proof.
  induction a as [|x a IH]; [reflexivity|].
  rewrite !append_cons. f_equal. exact IH.
Qed.

Lemma append_empty_r (a : string) : a +:+ EmptyString = a.
Proof.
  induction a as [|x a IH]; [reflexivity|].
  rewrite append_cons. f_equal. exact IH.
Qed.

(** ** JSON: what [JSON.stringify] writes, [JSON.parse] reads back *)

Lemma parse_escape_char (c : ascii) acc out rest :
  Js.parse_from (Js.JStr acc) out (Js.escape_char c +:+ rest) =
  Js.parse_from (Js.JStr (c :: acc)) out rest.
Proof. destruct c as [[] [] [] [] [] [] [] []]; reflexivity. Qed.

Lemma parse_escape (s : string) : forall acc out rest,
  Js.parse_from (Js.JStr acc) out (Js.escape s +:+ rest) =
  Js.parse_from (Js.JStr (rev (list_ascii_of_string s) ++ acc)) out rest.
Proof.
  induction s as [|c s IH]; intros acc out rest.
  - reflexivity.
  - change (Js.escape (String c s)) with (Js.escape_char c +:+ Js.escape s).
    rewrite append_assoc, parse_escape_char, IH.
    simpl list_ascii_of_string. simpl rev.
    now rewrite <- app_assoc.
Qed.

Lemma parse_quote (s : string) out rest :
  Js.parse_from Js.JFirst out (Js.quote s +:+ rest) = Js.parse_from Js.JAfter (s :: out) rest /\
  Js.parse_from Js.JValue out (Js.quote s +:+ rest) = Js.parse_from Js.JAfter (s :: out) rest.
Proof.
  assert (Hstr : Js.parse_from (Js.JStr []) out (Js.escape s +:+ Js.str1 34 +:+ rest)
                 = Js.parse_from Js.JAfter (s :: out) rest).
  { rewrite parse_escape, app_nil_r.
    change (Js.parse_from (Js.JStr (rev (list_ascii_of_string s))) out (Js.str1 34 +:+ rest))
      with (Js.parse_from Js.JAfter
              (string_of_list_ascii (rev (rev (list_ascii_of_string s))) :: out) rest).
    now rewrite rev_involutive, string_of_list_ascii_of_string. }
  unfold Js.quote. rewrite !append_assoc.
  split; exact Hstr.
Qed.

Lemma parse_items (l : list string) : forall x out,
  Js.parse_from Js.JFirst out (Js.join "," (map Js.quote (x :: l)) +:+ "]") = Some (rev out ++ x :: l)%list /\
  Js.parse_from Js.JValue out (Js.join "," (map Js.quote (x :: l)) +:+ "]") = Some (rev out ++ x :: l)%list.
Proof.
  induction l as [|y l IH]; intros x out.
  - change (Js.join "," (map Js.quote [x])) with (Js.quote x).
    destruct (parse_quote x out "]") as [-> ->].
    split; reflexivity.
  - change (Js.join "," (map Js.quote (x :: y :: l)))
      with (Js.quote x +:+ "," +:+ Js.join "," (map Js.quote (y :: l))).
    rewrite !append_assoc.
    destruct (parse_quote x out ("," +:+ Js.join "," (map Js.quote (y :: l)) +:+ "]")) as [-> ->].
    change (Js.parse_from Js.JAfter (x :: out) ("," +:+ Js.join "," (map Js.quote (y :: l)) +:+ "]"))
      with (Js.parse_from Js.JValue (x :: out) (Js.join "," (map Js.quote (y :: l)) +:+ "]")).
    destruct (IH y (x :: out)) as [_ ->]. simpl rev.
    rewrite <- app_assoc. split; reflexivity.
Qed.

Lemma JSON_roundtrip (l : list string) : Js.JSON_parse (Js.JSON_stringify l) = Some l.
Proof.
  unfold Js.JSON_parse, Js.JSON_stringify.
  destruct l as [|x l].
  - reflexivity.
  - change (Js.parse_from Js.JStart [] ("[" +:+ Js.join "," (map Js.quote (x :: l)) +:+ "]"))
      with (Js.parse_from Js.JFirst [] (Js.join "," (map Js.quote (x :: l)) +:+ "]")).
    now destruct (parse_items l x []) as [-> _].
Qed.

(** ** Text normalization *)

Lemma replaceAll_unsafe_safe (s : string) : forall k,
  Js.all_chars Indexer.is_safe (Js.replaceAll Indexer.unsafe_char EmptyString k s) = true.
Proof.
  induction s as [|c s IH]; intros k; [reflexivity|].
  destruct k as [|k]; [|apply IH].
  cbn [Js.replaceAll]. unfold Indexer.unsafe_char at 1.
  destruct (Indexer.is_safe c) eqn:Hc.
  - cbn [Js.all_chars]. now rewrite Hc, IH.
  - rewrite append_nil. apply IH.
Qed.

Lemma all_chars_trimStart (p : ascii -> bool) (s : string) :
  Js.all_chars p s = true -> Js.all_chars p (Js.trimStart s) = true.
Proof.
  induction s as [|c s IH]; [easy|].
  cbn [Js.trimStart Js.all_chars]. intros [Hc Hs]%andb_prop.
  destruct (Js.is_space c); [now apply IH|].
  cbn [Js.all_chars]. now rewrite Hc, Hs.
Qed.

Lemma all_chars_trimEnd (p : ascii -> bool) (s : string) :
  Js.all_chars p s = true -> Js.all_chars p (Js.trimEnd s) = true.
Proof.
  induction s as [|c s IH]; [easy|].
  cbn [Js.trimEnd Js.all_chars]. intros [Hc Hs]%andb_prop.
  destruct (Js.is_space c && Js.is_empty (Js.trimEnd s)); [reflexivity|].
  cbn [Js.all_chars]. now rewrite Hc, IH.
Qed.

(** Only characters of the safe set are left. *)
Lemma cleanText_safe (text : string) :
  Js.all_chars Indexer.is_safe (Indexer.cleanText text) = true.
Proof.
  unfold Indexer.cleanText, Js.trim.
  apply all_chars_trimEnd, all_chars_trimStart, replaceAll_unsafe_safe.
Qed.

Lemma trimEnd_idempotent (s : string) : Js.trimEnd (Js.trimEnd s) = Js.trimEnd s.
Proof.
  induction s as [|c s IH]; [reflexivity|].
  cbn [Js.trimEnd].
  destruct (Js.is_space c && Js.is_empty (Js.trimEnd s)) eqn:E; [reflexivity|].
  cbn [Js.trimEnd]. now rewrite IH, E.
Qed.

Lemma trimStart_trimEnd (s : string) :
  Js.trimStart (Js.trimEnd (Js.trimStart s)) = Js.trimEnd (Js.trimStart s).
Proof.
  induction s as [|c s IH]; [reflexivity|].
  cbn [Js.trimStart]. destruct (Js.is_space c) eqn:Hc; [exact IH|].
  cbn [Js.trimEnd]. rewrite Hc. cbn [andb Js.trimStart]. now rewrite Hc.
Qed.

(** The result has no whitespace at either end. *)
Lemma cleanText_trimmed (text : string) :
  Js.trim (Indexer.cleanText text) = Indexer.cleanText text.
Proof.
  unfold Indexer.cleanText, Js.trim at 1 2.
  now rewrite trimStart_trimEnd, trimEnd_idempotent.
Qed.

(** The first step alone does what it is there for: once the whitespace
    runs are collapsed, no two whitespace characters are next to each
    other. *)

Lemma replaceAll_pending (m : Js.matcher) (rep : string) (s : string) : forall k,
  Js.replaceAll m rep k s = Js.replaceAll m rep 0 (Js.skip k s).
Proof.
  induction s as [|c s IH]; intros [|k]; try reflexivity.
  cbn [Js.replaceAll Js.skip]. apply IH.
Qed.

Lemma skip_span_head (p : ascii -> bool) (s : string) :
  match Js.skip (Js.span p s) s with
  | String c _ => p c = false
  | EmptyString => True
  end.
Proof.
  induction s as [|c s IH]; [exact I|].
  cbn [Js.span]. destruct (p c) eqn:Hc; [exact IH | exact Hc].
Qed.

Lemma skip_length (n : nat) (s : string) : String.length (Js.skip n s) <= String.length s.
Proof.
  revert s. induction n as [|n IH]; intros [|c s]; cbn [Js.skip String.length]; try lia.
  specialize (IH s). lia.
Qed.

Lemma single_spaced_cons (c c' : ascii) (t : string) :
  single_spaced (String c (String c' t))
  = negb (Js.is_space c && Js.is_space c') && single_spaced (String c' t).
Proof. reflexivity. Qed.

Lemma collapse_single_spaced (text : string) :
  single_spaced (Js.replaceAll Indexer.ws_run " " 0 text) = true.
Proof.
  remember (String.length text) as n eqn:Hn.
  assert (Hle : String.length text <= n) by lia. clear Hn.
  revert text Hle. induction n as [|n IH]; intros [|c s] Hle; try reflexivity.
  { cbn [String.length] in Hle. lia. }
  cbn [String.length] in Hle.
  assert (Hnon : forall c' u, Js.is_space c' = false ->
            Js.replaceAll Indexer.ws_run " " 0 (String c' u)
            = String c' (Js.replaceAll Indexer.ws_run " " 0 u)).
  { intros c' u Hc'. cbn [Js.replaceAll]. unfold Indexer.ws_run at 1.
    cbn [Js.span]. now rewrite Hc'. }
  destruct (Js.is_space c) eqn:Hc.
  - cbn [Js.replaceAll]. unfold Indexer.ws_run at 1. cbn [Js.span]. rewrite Hc.
    cbn [pred]. rewrite replaceAll_pending.
    pose proof (skip_span_head Js.is_space s) as Hhead.
    pose proof (skip_length (Js.span Js.is_space s) s) as Hlen.
    destruct (Js.skip (Js.span Js.is_space s) s) as [|c' u] eqn:Hu; [reflexivity|].
    specialize (IH (String c' u) ltac:(lia)).
    rewrite Hnon in IH |- * by exact Hhead.
    change (" " +:+ String c' (Js.replaceAll Indexer.ws_run " " 0 u))
      with (String " " (String c' (Js.replaceAll Indexer.ws_run " " 0 u))).
    rewrite single_spaced_cons, Hhead, andb_false_r. exact IH.
  - rewrite Hnon by exact Hc.
    specialize (IH s ltac:(lia)).
    destruct (Js.replaceAll Indexer.ws_run " " 0 s) as [|c' t]; [reflexivity|].
    rewrite single_spaced_cons, Hc. exact IH.
Qed.

(** C8. The normalization function does not always return a string free of
    whitespace runs: whitespace is collapsed before the characters outside
    the safe set are stripped, so on the text a ! b the two spaces around
    the stripped character end up next to each other. *)
Theorem cleanText_leaves_space_run :
  Indexer.cleanText "a ! b" = "a  b" /\
  single_spaced (Indexer.cleanText "a ! b") = false.
Proof. split; reflexivity. Qed.

(** ** The navigation-page heuristic *)




(** ** Pages that are skipped *)

Section Skipped.

Context `{Html.Parser} `{Fs.Files}.
Variable config : DeadlineDocConfig.

(** A navigation page never reaches the store. *)
Lemma navigation_page_not_stored db filePath docType htmlContent d root :
  Fs.readFile filePath = Some htmlContent ->
  Html.parse htmlContent = (d, root) ->
  Indexer.isNavigationPage (Indexer.page_title d root) htmlContent = true ->
  Indexer.processHtmlFile config db filePath docType = (false, db).
Proof.
  intros Hread Hparse Hnav. unfold Indexer.processHtmlFile.
  now rewrite Hread, Hparse, Hnav.
Qed.

(** C6. A page whose extracted main content, once normalized, is shorter
    than 50 characters is not stored: processing it answers false and
    leaves the store as it was, whatever its title. *)
Theorem short_content_not_stored db filePath docType htmlContent d root :
  Fs.readFile filePath = Some htmlContent ->
  Html.parse htmlContent = (d, root) ->
  String.length (fst (Indexer.extractMainContent d root)) < 50 ->
  Indexer.processHtmlFile config db filePath docType = (false, db).
Proof.
  intros Hread Hparse Hshort. unfold Indexer.processHtmlFile.
  rewrite Hread, Hparse.
  destruct (Indexer.isNavigationPage _ _); [reflexivity|].
  destruct (Indexer.extractMainContent d root) as [content d'].
  simpl in Hshort. apply Nat.ltb_lt in Hshort. now rewrite Hshort.
Qed.

End Skipped.

Lemma short_content_not_stored_witness :
  @Indexer.processHtmlFile plain_parser (files_of [("docs/user/a.html", "<p>tiny</p>")])
    sample_config fresh "docs/user/a.html" "user-manual" = (false, fresh).
Proof.
  apply (@short_content_not_stored plain_parser (files_of [("docs/user/a.html", "<p>tiny</p>")])
           sample_config fresh "docs/user/a.html" "user-manual" "<p>tiny</p>" tt "<p>tiny</p>").
  - reflexivity.
  - reflexivity.
  - vm_compute. lia.
Defined.

(** ** The store of the indexer *)

Lemma initDatabase_fresh (db : Sql.Database) : Indexer.initDatabase db = fresh.
Proof. reflexivity. Qed.

Ltac bind_ok H :=
  match type of H with
  | mbind _ ?m = Ok _ =>
      let E := fresh "E" in
      destruct m eqn:E; [cbn [mbind result_bind] in H | discriminate H]
  end.

(** What a successful insert did. *)
Lemma insertDocument_ok db doc db' :
  Indexer.insertDocument db doc = Ok db' ->
  exists t values f,
    Sql.documents db = Some t /\
    Indexer.insert_values doc = Ok values /\
    Indexer.violates_unique t (Indexer.new_row t values) = false /\
    db' = {| Sql.documents :=
               Some {| Sql.columns := Sql.columns t;
                       Sql.rows := (Sql.rows t ++ [Indexer.new_row t values])%list |};
             Sql.documents_fts := f;
             Sql.documents_ai := Sql.documents_ai db |}.
Proof.
  unfold Indexer.insertDocument, Sql.the_table. intros Hins.
  destruct (Sql.documents db) as [t|] eqn:Ht; [|discriminate Hins].
  cbn [mbind result_bind] in Hins.
  bind_ok Hins. bind_ok Hins.
  destruct (Indexer.violates_not_null _ _); [discriminate Hins|].
  destruct (Indexer.violates_unique _ _) eqn:Hu; [discriminate Hins|].
  bind_ok Hins. injection Hins as <-.
  eauto 10.
Qed.

Lemma insert_step_keeps_indexer_store db db' :
  insert_step db db' -> indexer_store db -> indexer_store db'.
Proof.
  intros [doc Hins] (t & Ht & Hc).
  apply insertDocument_ok in Hins as (t' & values & f & Ht' & _ & _ & ->).
  rewrite Ht in Ht'. injection Ht' as <-.
  eexists. split; [reflexivity|]. exact Hc.
Qed.

Lemma inserts_keep_indexer_store db db' :
  rtc insert_step db db' -> indexer_store db -> indexer_store db'.
Proof.
  induction 1 as [|db db1 db2 Hstep _ IH]; [easy|].
  intros Hdb. apply IH. now apply (insert_step_keeps_indexer_store db).
Qed.

Lemma fresh_indexer_store : indexer_store fresh.
Proof. eexists. split; reflexivity. Qed.

Section Run.

Context `{Html.Parser} `{Fs.Files}.
Variable config : DeadlineDocConfig.

(** Processing a file inserts one document or leaves the store alone. *)
Lemma processHtmlFile_steps db filePath docType :
  rtc insert_step db (snd (Indexer.processHtmlFile config db filePath docType)).
Proof.
  unfold Indexer.processHtmlFile.
  destruct (Fs.readFile filePath); [|apply rtc_refl].
  destruct (Html.parse _) as [d root].
  destruct (Indexer.isNavigationPage _ _); [apply rtc_refl|].
  destruct (Indexer.extractMainContent d root) as [content d'].
  destruct (_ <? _)%nat; [apply rtc_refl|].
  match goal with
  | |- context [Indexer.insertDocument db ?doc] =>
      destruct (Indexer.insertDocument db doc) as [db'|e] eqn:Hins
  end; [|apply rtc_refl].
  apply rtc_once. eexists. exact Hins.
Qed.

Lemma indexDocumentationType_steps db docType docsPath :
  rtc insert_step db (Indexer.indexDocumentationType config db docType docsPath).
Proof.
  unfold Indexer.indexDocumentationType.
  destruct (Fs.access docsPath); [|apply rtc_refl].
  destruct (Fs.glob _) as [htmlFiles|]; [|apply rtc_refl].
  revert db. induction htmlFiles as [|f fs IH]; intros db; [apply rtc_refl|].
  cbn [foldl]. eapply rtc_trans; [apply processHtmlFile_steps | apply IH].
Qed.

Lemma indexAllDocumentation_steps db :
  rtc insert_step db (Indexer.indexAllDocumentation config db).
Proof.
  unfold Indexer.indexAllDocumentation.
  eapply rtc_trans; [apply indexDocumentationType_steps|].
  eapply rtc_trans; [apply indexDocumentationType_steps|].
  apply indexDocumentationType_steps.
Qed.

Lemma run_indexer_store db : indexer_store (Indexer.run config db).
Proof.
  unfold Indexer.run. rewrite initDatabase_fresh.
  eapply inserts_keep_indexer_store;
    [apply indexAllDocumentation_steps | apply fresh_indexer_store].
Qed.

End Run.

(** ** Reading back what was inserted *)

Lemma new_row_lookup (t : Sql.Table) (values : Sql.Row) (k : string) :
  Indexer.new_row t values !! k =
  if bool_decide (k ∈ map Sql.col_name (Sql.columns t))
  then Some (Sql.cell values k) else None.
Proof.
  unfold Indexer.new_row.
  induction (Sql.columns t) as [|c cs IH]; cbn [foldr map].
  - rewrite lookup_empty. now rewrite bool_decide_eq_false_2 by apply not_elem_of_nil.
  - destruct (decide (Sql.col_name c = k)) as [->|Hne].
    + rewrite lookup_insert_eq.
      now rewrite bool_decide_eq_true_2 by apply list_elem_of_here.
    + rewrite lookup_insert_ne by exact Hne. rewrite IH.
      assert (E : bool_decide (k ∈ Sql.col_name c :: map Sql.col_name cs)
                  = bool_decide (k ∈ map Sql.col_name cs)).
      { apply bool_decide_ext. rewrite elem_of_cons.
        split; [intros [E|E]; [now subst | exact E] | now right]. }
      now rewrite E.
Qed.

Lemma insert_values_cells (a b c d e f g : Sql.SqlValue) :
  let m : Sql.Row :=
    <["id" := a]> (<["title" := b]> (<["content" := c]> (<["section" := d]>
      (<["docType" := e]> (<["url" := f]> (<["keywords" := g]> ∅)))))) in
  Sql.cell m "id" = a /\ Sql.cell m "title" = b /\ Sql.cell m "content" = c /\
  Sql.cell m "section" = d /\ Sql.cell m "docType" = e /\ Sql.cell m "url" = f /\
  Sql.cell m "keywords" = g.
Proof. vm_compute. repeat split. Qed.

Lemma no_row_with_id (rows : list Sql.Row) (i : string) :
  existsb (fun r => bool_decide (Sql.cell r "id" = Sql.SqlText i)) rows = false ->
  List.filter (fun r => Sql.holds (Sql.sql_eq (Sql.cell r "id") i)) rows = [].
Proof.
  induction rows as [|r rows IH]; [easy|].
  cbn [existsb List.filter]. intros [Hr Hrows]%orb_false_elim.
  apply bool_decide_eq_false in Hr.
  destruct (Sql.cell r "id") as [|s]; cbn [Sql.sql_eq Sql.holds].
  - now apply IH.
  - destruct (String.eqb_spec s i) as [->|_]; [now destruct Hr | now apply IH].
Qed.

Lemma stringify_not_empty (l : list string) : Js.is_empty (Js.JSON_stringify l) = false.
Proof. reflexivity. Qed.

(** A stored document, looked up by its id in the store it was inserted
    into. *)
Lemma getDocumentById_inserted db doc db' i :
  indexer_store db -> typed doc -> id doc = Js.JsString i ->
  Indexer.insertDocument db doc = Ok db' ->
  Search.getDocumentById db' i = Ok (Some (fetched doc)).
Proof.
  intros (t & Ht & Hc) (i' & ti & c & u & ty & s & Hid & Hti & Hco & Hu & Hty & Hs) Hi Hins.
  rewrite Hi in Hid. injection Hid as <-.
  apply insertDocument_ok in Hins as (t' & values & f & Ht' & Hv & Huniq & ->).
  rewrite Ht in Ht'. injection Ht' as <-.
  unfold Indexer.insert_values in Hv.
  rewrite Hi, Hti, Hco, Hu, Hty, Hs in Hv.
  cbn [Sql.bind_param mbind result_bind mret result_ret] in Hv.
  injection Hv as <-.
  destruct (insert_values_cells (Sql.SqlText i) (Sql.SqlText ti) (Sql.SqlText c)
              (Sql.SqlText s) (Sql.SqlText ty) (Sql.SqlText u)
              (Sql.SqlText (Js.JSON_stringify (keywords doc))))
    as (Cid & Cti & Cco & Cse & Cty & Cu & Ck).
  match type of Huniq with
  | context [Indexer.new_row t ?m] =>
      set (r := Indexer.new_row t m) in *;
      assert (Hcol : forall k, r !! k =
                if bool_decide (k ∈ map Sql.col_name Indexer.documents_columns)
                then Some (Sql.cell m k) else None)
        by (intros k; unfold r; rewrite new_row_lookup, Hc; reflexivity)
  end.
  assert (Rid : r !! "id" = Some (Sql.SqlText i)) by (rewrite Hcol, Cid; reflexivity).
  assert (Rti : r !! "title" = Some (Sql.SqlText ti)) by (rewrite Hcol, Cti; reflexivity).
  assert (Rco : r !! "content" = Some (Sql.SqlText c)) by (rewrite Hcol, Cco; reflexivity).
  assert (Rse : r !! "section" = Some (Sql.SqlText s)) by (rewrite Hcol, Cse; reflexivity).
  assert (Ru : r !! "url" = Some (Sql.SqlText u)) by (rewrite Hcol, Cu; reflexivity).
  assert (Rk : r !! "keywords" = Some (Sql.SqlText (Js.JSON_stringify (keywords doc))))
    by (rewrite Hcol, Ck; reflexivity).
  assert (Rty : r !! "doc_type" = None) by (rewrite Hcol; reflexivity).
  assert (Cr : Sql.cell r "id" = Sql.SqlText i) by (unfold Sql.cell; now rewrite Rid).
  assert (Hnone : List.filter (fun r' => Sql.holds (Sql.sql_eq (Sql.cell r' "id") i)) (Sql.rows t) = []).
  { apply no_row_with_id.
    unfold Indexer.violates_unique in Huniq. rewrite Hc in Huniq.
    cbn [existsb Indexer.documents_columns Indexer.text_column
           Sql.col_primary_key Sql.col_name andb orb] in Huniq.
    rewrite Cr, orb_false_r in Huniq.
    rewrite bool_decide_eq_false_2 in Huniq by discriminate.
    exact Huniq. }
  unfold Search.getDocumentById, Sql.the_table.
  cbn [Sql.documents Sql.rows Sql.columns mbind result_bind].
  unfold Sql.require_column, Sql.has_column. cbn [Sql.columns]. rewrite Hc.
  rewrite bool_decide_eq_true_2 by (vm_compute; set_solver).
  cbn [mbind result_bind].
  rewrite List.filter_app, Hnone. cbn [List.filter app].
  rewrite Cr. cbn [Sql.sql_eq]. rewrite String.eqb_refl. cbn [Sql.holds].
  unfold Search.row_document, Search.parse_keywords, Search.examples_of, Sql.prop.
  rewrite Rid, Rti, Rco, Rse, Ru, Rk, Rty.
  unfold Js.js_or. cbn [Js.truthy]. rewrite stringify_not_empty. cbn [negb Js.to_string].
  rewrite JSON_roundtrip. cbn [mbind result_bind mret result_ret].
  unfold fetched. rewrite Hi, Hti, Hco, Hu, Hs.
  destruct s; reflexivity.
Qed.

Lemma getDocumentById_stable db db' i d :
  Search.getDocumentById db i = Ok (Some d) ->
  insert_step db db' ->
  Search.getDocumentById db' i = Ok (Some d).
Proof.
  intros Hget [doc Hins].
  apply insertDocument_ok in Hins as (t & values & f & Ht & _ & _ & ->).
  unfold Search.getDocumentById, Sql.the_table in *.
  rewrite Ht in Hget. cbn [Sql.documents mbind result_bind] in *.
  unfold Sql.require_column, Sql.has_column in *. cbn [Sql.columns Sql.rows].
  destruct (bool_decide _); [|discriminate Hget].
  cbn [mbind result_bind] in *.
  rewrite List.filter_app.
  destruct (List.filter _ (Sql.rows t)) as [|row rest]; [discriminate Hget|].
  exact Hget.
Qed.

Lemma getDocumentById_stable_rtc db db' i d :
  rtc insert_step db db' ->
  Search.getDocumentById db i = Ok (Some d) ->
  Search.getDocumentById db' i = Ok (Some d).
Proof.
  induction 1 as [|db db1 db2 Hstep _ IH]; [easy|].
  intros Hget. apply IH. now apply (getDocumentById_stable db).
Qed.

(** C1. A document that the indexer stored is found again by its id, in
    the store it was inserted into and in every store that later inserts
    make of it; the document found has the id, the title, the content, the
    section, the url and the keywords that were indexed, and its code
    examples are the ones the code patterns find in the stored content. *)
Theorem getById_returns_stored db doc db1 db2 i :
  indexer_store db -> typed doc -> id doc = Js.JsString i ->
  Indexer.insertDocument db doc = Ok db1 ->
  rtc insert_step db1 db2 ->
  exists d,
    Search.getDocumentById db2 i = Ok (Some d) /\
    id d = id doc /\ title d = title doc /\ content d = content doc /\
    section d = section doc /\ url d = url doc /\ keywords d = keywords doc /\
    forall c, content doc = Js.JsString c -> codeExamples d = Search.extractCodeExamples c.
Proof.
  intros Hdb Hdoc Hi Hins Hlater.
  exists (fetched doc). split.
  - apply (getDocumentById_stable_rtc db1); [exact Hlater|].
    now apply (getDocumentById_inserted db).
  - repeat split. intros c Hc. cbn [fetched codeExamples]. now rewrite Hc.
Qed.

Lemma getById_returns_stored_witness :
  exists d,
    Search.getDocumentById sample_store "user-manual:jobs/submit.html" = Ok (Some d) /\
    id d = id sample_document /\ title d = title sample_document /\
    content d = content sample_document /\ section d = section sample_document /\
    url d = url sample_document /\ keywords d = keywords sample_document /\
    forall c, content sample_document = Js.JsString c ->
              codeExamples d = Search.extractCodeExamples c.
Proof.
  apply (getById_returns_stored fresh sample_document sample_store sample_store
           "user-manual:jobs/submit.html").
  - exists {| Sql.columns := Indexer.documents_columns; Sql.rows := [] |}.
    split; reflexivity.
  - unfold typed. repeat eexists; reflexivity.
  - reflexivity.
  - vm_compute. reflexivity.
  - apply rtc_refl.
Defined.

(** C1, as stated, fails: the sample document is stored, and what
    [getDocumentById] returns for its id is not equal to it in all fields;
    the code block that was indexed is not among its code examples. *)
Lemma getById_not_equal_in_all_fields :
  Indexer.insertDocument fresh sample_document = Ok sample_store /\
  codeExamples sample_document = ["for job in jobs: print(job.name) end"] /\
  exists d,
    Search.getDocumentById sample_store "user-manual:jobs/submit.html" = Ok (Some d) /\
    codeExamples d = [] /\
    d <> sample_document.
Proof.
  split; [vm_compute; reflexivity|].
  split; [reflexivity|].
  exists (fetched sample_document). split; [|split].
  - apply (getDocumentById_inserted fresh).
    + apply fresh_indexer_store.
    + unfold typed. repeat eexists; reflexivity.
    + reflexivity.
    + vm_compute. reflexivity.
  - vm_compute. reflexivity.
  - intros E. apply (f_equal codeExamples) in E. vm_compute in E. discriminate E.
Qed.

(** ** Full runs *)

Section Rebuild.

Context `{Html.Parser} `{Fs.Files}.
Variable config : DeadlineDocConfig.

(** A document that [processHtmlFile] stores has strings in all its
    fields. *)
Lemma processHtmlFile_stores_typed db filePath docType db' :
  Indexer.processHtmlFile config db filePath docType = (true, db') ->
  exists doc, typed doc /\ Indexer.insertDocument db doc = Ok db'.
Proof.
  unfold Indexer.processHtmlFile.
  destruct (Fs.readFile filePath); [|discriminate].
  destruct (Html.parse _) as [d root].
  destruct (Indexer.isNavigationPage _ _); [discriminate|].
  destruct (Indexer.extractMainContent d root) as [content d'].
  destruct (_ <? _)%nat; [discriminate|].
  match goal with
  | |- context [Indexer.insertDocument db ?doc] =>
      destruct (Indexer.insertDocument db doc) as [db1|e] eqn:Hins; [|discriminate];
      intros [= <-]; exists doc
  end.
  split; [|exact Hins].
  unfold typed. repeat eexists; reflexivity.
Qed.

(** C9. A full run does not depend on the store it starts from: it first
    drops and recreates the table, the full-text table and the trigger, so
    the store it leaves is the one that indexing the corpus into an empty
    store gives.  Running twice on the same corpus therefore leaves the
    same store, with the same rows and the same statistics, as running
    once. *)
Theorem rebuild_replaces_store (db : Sql.Database) :
  Indexer.run config db = Indexer.indexAllDocumentation config fresh /\
  Indexer.run config (Indexer.run config db) = Indexer.run config db /\
  Sql.rows <$> Sql.documents (Indexer.run config (Indexer.run config db))
    = Sql.rows <$> Sql.documents (Indexer.run config db) /\
  Indexer.showIndexStats (Indexer.run config (Indexer.run config db))
    = Indexer.showIndexStats (Indexer.run config db) /\
  Search.getStats (Indexer.run config (Indexer.run config db))
    = Search.getStats (Indexer.run config db).
Proof.
  assert (Hrun : forall db', Indexer.run config db' = Indexer.indexAllDocumentation config fresh).
  { intros db'. unfold Indexer.run. now rewrite initDatabase_fresh. }
  split; [apply Hrun|].
  assert (Htwice : Indexer.run config (Indexer.run config db) = Indexer.run config db)
    by (now rewrite !Hrun).
  now rewrite Htwice.
Qed.

(** C3. On a store that the indexer built, [getStats] does not succeed:
    it groups by a column [doc_type], and the table of the indexer names
    that column [docType]; [showIndexStats], which reads [docType], does
    succeed on the same store. *)
Theorem getStats_fails_on_indexed_store (db : Sql.Database) :
  Search.getStats (Indexer.run config db) = Err (SqliteError "no such column: doc_type") /\
  is_ok (Indexer.showIndexStats (Indexer.run config db)) = true.
Proof.
  destruct (run_indexer_store config db) as (t & Ht & Hc).
  unfold Search.getStats, Indexer.showIndexStats, Sql.the_table.
  rewrite Ht. cbn [mbind result_bind].
  unfold Sql.require_column, Sql.has_column. rewrite Hc.
  split; reflexivity.
Qed.

End Rebuild.

(** On a store in the layout the search reads, [getStats] counts the rows
    and the rows of each type. *)
Example getStats_library :
  exists stats,
    Search.getStats library = Ok stats /\
    Search.total stats = 3 /\
    Search.byType stats !! "user-manual" = Some 1 /\
    Search.byType stats !! "scripting-reference" = Some 1 /\
    Search.byType stats !! "python-reference" = Some 1 /\
    Search.byType stats !! "general" = None.
Proof.
  exists (match Search.getStats library with
          | Ok stats => stats
          | Err _ => {| Search.total := 0; Search.byType := ∅ |}
          end).
  repeat split; vm_compute; reflexivity.
Qed.

(** *** Counting by type

    On a store whose table has the column [doc_type], with a type in every
    row, [getStats] succeeds: the total is the number of rows, and a type
    is a key of [byType] exactly when some row has it, with the number of
    such rows as its value. *)

Lemma elem_of_insert_by {A} (le : A -> A -> bool) (x y : A) (l : list A) :
  y ∈ Sql.insert_by le x l <-> y = x \/ y ∈ l.
Proof.
  induction l as [|z l IH]; cbn [Sql.insert_by].
  - rewrite list_elem_of_singleton, elem_of_nil. tauto.
  - destruct (le x z).
    + now rewrite elem_of_cons.
    + rewrite !elem_of_cons, IH. tauto.
Qed.

Lemma elem_of_sort_by {A} (le : A -> A -> bool) (y : A) (l : list A) :
  y ∈ Sql.sort_by le l <-> y ∈ l.
Proof.
  unfold Sql.sort_by. induction l as [|x l IH]; cbn [foldr]; [reflexivity|].
  now rewrite elem_of_insert_by, elem_of_cons, IH.
Qed.

Lemma elem_of_distinct (l : list Sql.SqlValue) : forall seen y,
  y ∈ Sql.distinct seen l <-> y ∈ l /\ y ∉ seen.
Proof.
  induction l as [|x l IH]; intros seen y; cbn [Sql.distinct].
  - rewrite elem_of_nil. tauto.
  - destruct (bool_decide (x ∈ seen)) eqn:Hx.
    + apply bool_decide_eq_true in Hx. rewrite IH, elem_of_cons.
      split; [tauto|]. intros [[->|Hy] Hseen]; [contradiction | tauto].
    + apply bool_decide_eq_false in Hx. rewrite !elem_of_cons, IH, elem_of_cons.
      destruct (decide (y = x)) as [->|Hne]; tauto.
Qed.

Lemma count_of_zero (v : Sql.SqlValue) (l : list Sql.SqlValue) :
  Sql.count_of v l = 0 <-> v ∉ l.
Proof.
  unfold Sql.count_of. induction l as [|x l IH]; cbn [List.filter].
  - split; [intros _; apply not_elem_of_nil | reflexivity].
  - rewrite not_elem_of_cons. destruct (bool_decide (x = v)) eqn:Hx.
    + apply bool_decide_eq_true in Hx. cbn [length]. split; [discriminate|].
      intros [Hne _]. now destruct Hne.
    + apply bool_decide_eq_false in Hx. rewrite IH.
      split; [intros Hv; split; [congruence | exact Hv] | tauto].
Qed.

Lemma byType_lookup (ty : string) (n : nat) (rows : list (Sql.SqlValue * nat)) :
  ty <> "__proto__" ->
  (forall row, row ∈ rows -> Search.property_key row.1 = ty -> row.2 = n) ->
  forall byType : gmap string nat,
    foldl (fun byType row => Search.set_property byType (Search.property_key row.1) row.2)
          byType rows !! ty
    = if existsb (fun row => String.eqb (Search.property_key row.1) ty) rows
      then Some n else byType !! ty.
Proof.
  intros Hty. induction rows as [|row rows IH]; intros Hrows byType; [reflexivity|].
  cbn [foldl existsb]. rewrite IH by (intros r Hr; apply Hrows; now right).
  unfold Search.set_property.
  destruct (String.eqb_spec (Search.property_key row.1) ty) as [Hk|Hk]; cbn [orb].
  - rewrite Hk. destruct (String.eqb_spec ty "__proto__") as [E|_]; [contradiction|].
    rewrite lookup_insert_eq, (Hrows row) by (exact Hk || now left).
    now destruct (existsb _ rows).
  - destruct (String.eqb (Search.property_key row.1) "__proto__"); [reflexivity|].
    now rewrite lookup_insert_ne by exact Hk.
Qed.

Lemma getStats_counts db t :
  Sql.documents db = Some t ->
  Sql.has_column t "doc_type" = true ->
  (forall r, r ∈ Sql.rows t -> exists ty, Sql.cell r "doc_type" = Sql.SqlText ty) ->
  exists stats,
    Search.getStats db = Ok stats /\
    Search.total stats = length (Sql.rows t) /\
    forall ty, ty <> "__proto__" ->
      Search.byType stats !! ty =
      match Sql.count_of (Sql.SqlText ty) (map (fun r => Sql.cell r "doc_type") (Sql.rows t)) with
      | O => None
      | n => Some n
      end.
Proof.
  intros Ht Hcol Htyped. unfold Search.getStats, Sql.the_table, Sql.require_column.
  rewrite Ht. cbn [mbind result_bind]. rewrite Hcol. cbn [mbind result_bind mret result_ret].
  eexists. split; [reflexivity|]. cbn [Search.total Search.byType]. split; [reflexivity|].
  intros ty Hty. unfold Sql.group_count.
  set (vals := map (fun r => Sql.cell r "doc_type") (Sql.rows t)).
  assert (Hvals : forall v, v ∈ vals -> exists s, v = Sql.SqlText s).
  { intros v (r & -> & Hr)%list_elem_of_fmap. now apply Htyped. }
  set (keys := Sql.sort_by Sql.sql_leb (Sql.distinct [] vals)).
  assert (Hkeys : forall v, v ∈ keys <-> v ∈ vals).
  { intros v. unfold keys. rewrite elem_of_sort_by, elem_of_distinct.
    split; [tauto|]. intros Hv. split; [exact Hv | apply not_elem_of_nil]. }
  rewrite (byType_lookup ty (Sql.count_of (Sql.SqlText ty) vals)); [|exact Hty|].
  - rewrite lookup_empty.
    destruct (existsb _ _) eqn:Hex.
    + apply existsb_exists in Hex as ([v n] & Hin & Hk).
      apply list_elem_of_In, list_elem_of_fmap in Hin as (v' & [= -> ->] & Hv').
      apply Hkeys in Hv'. destruct (Hvals _ Hv') as [s ->].
      cbn in Hk. apply String.eqb_eq in Hk. subst s.
      destruct (Sql.count_of (Sql.SqlText ty) vals) eqn:Hc; [|reflexivity].
      now apply count_of_zero in Hc.
    + destruct (Sql.count_of (Sql.SqlText ty) vals) eqn:Hc; [reflexivity|].
      assert (Hin : Sql.SqlText ty ∈ vals).
      { destruct (decide (Sql.SqlText ty ∈ vals)) as [|Hno]; [assumption|].
        apply count_of_zero in Hno. lia. }
      apply Hkeys in Hin.
      assert (Hex' : existsb
                (fun row : Sql.SqlValue * nat => String.eqb (Search.property_key row.1) ty)
                (map (fun v => (v, Sql.count_of v vals)) keys) = true).
      { apply existsb_exists. exists (Sql.SqlText ty, Sql.count_of (Sql.SqlText ty) vals).
        split; [|apply String.eqb_refl].
        apply list_elem_of_In, list_elem_of_fmap. now exists (Sql.SqlText ty). }
      congruence.
  - intros [v n] (v' & [= -> ->] & Hv')%list_elem_of_fmap Hk.
    apply Hkeys in Hv'. destruct (Hvals _ Hv') as [s ->].
    cbn in Hk. now subst s.
Qed.

(** ** Filters and limits of the queries *)


Lemma all_ok_Forall {A B} (f : A -> Result B) (P : A -> Prop) (Q : B -> Prop) (l : list A) :
  (forall x y, P x -> f x = Ok y -> Q y) ->
  forall ys, Forall P l -> Search.all_ok f l = Ok ys -> Forall Q ys.
Proof.
  intros Hf. induction l as [|x l IH]; intros ys Hl Hys; cbn [Search.all_ok] in Hys.
  - injection Hys as <-. constructor.
  - bind_ok Hys. bind_ok Hys. injection Hys as <-.
    apply Forall_cons_1 in Hl as [Hx Hl].
    constructor; [now apply (Hf x) | now apply IH].
Qed.


Lemma slice0_length {A} (n : Z) (l : list A) :
  (0 <= n)%Z -> (Z.of_nat (length (Js.slice0 n l)) <= n)%Z.
Proof.
  intros Hn. unfold Js.slice0.
  destruct (Z.ltb_spec n 0); [lia|].
  rewrite length_take. lia.
Qed.

Lemma Forall_limit {A} (P : A -> Prop) (n : Z) (l : list A) :
  Forall P l -> Forall P (Sql.limit n l).
Proof.
  intros Hl. unfold Sql.limit. destruct (n <? 0)%Z; [exact Hl | now apply Forall_take].
Qed.

Lemma Forall_insert_by {A} (P : A -> Prop) (le : A -> A -> bool) (x : A) (l : list A) :
  P x -> Forall P l -> Forall P (Sql.insert_by le x l).
Proof.
  intros Hx. induction 1 as [|y l Hy Hl IH]; cbn [Sql.insert_by].
  - now repeat constructor.
  - destruct (le x y); repeat constructor; assumption.
Qed.

Lemma Forall_sort_by {A} (P : A -> Prop) (le : A -> A -> bool) (l : list A) :
  Forall P l -> Forall P (Sql.sort_by le l).
Proof.
  unfold Sql.sort_by. induction 1 as [|x l Hx Hl IH]; cbn [foldr].
  - constructor.
  - now apply Forall_insert_by.
Qed.

Lemma Forall_filter_holds {A} (p : A -> bool) (l : list A) :
  Forall (fun x => p x = true) (List.filter p l).
Proof. apply Forall_forall. intros x Hx%list_elem_of_In. now apply List.filter_In in Hx. Qed.

Lemma row_document_docType (row : Sql.Row) (ty : string) (d : DocumentSection) :
  Sql.holds (Sql.sql_eq (Sql.cell row "doc_type") ty) = true ->
  Search.row_document row = Ok d ->
  docType d = Js.JsString ty.
Proof.
  unfold Sql.cell, Search.row_document, Sql.prop. intros Hty Hd.
  bind_ok Hd. bind_ok Hd. injection Hd as <-. cbn [docType].
  destruct (row !! "doc_type") as [[|s]|]; cbn in Hty; try discriminate Hty.
  destruct (String.eqb s ty) eqn:Hs; [|discriminate Hty].
  apply String.eqb_eq in Hs. now rewrite Hs.
Qed.

Section Queries.

Context `{Search.Fts5}.

(** The type filter of the full-text search: every result has the type
    that was asked for. *)
Lemma searchDocumentation_filtered db query ty limit results :
  Js.is_empty ty = false ->
  Search.searchDocumentation db query (Some ty) limit = Ok results ->
  Forall (fun r => docType (result_section r) = Js.JsString ty) results.
Proof.
  intros Hty Hs. unfold Search.searchDocumentation in Hs.
  do 4 bind_ok Hs.
  cbn [Search.given] in Hs. rewrite Hty in Hs.
  revert Hs. apply all_ok_Forall with
    (P := fun hr => Sql.holds (Sql.sql_eq (Sql.cell hr.2 "doc_type") ty) = true).
  - intros [h row] r Hrow Hr. unfold Search.search_result in Hr.
    bind_ok Hr. bind_ok Hr. injection Hr as <-. cbn [result_section].
    now apply (row_document_docType row).
  - apply Forall_limit, Forall_sort_by, Forall_filter_holds.
Qed.


End Queries.


(** Three documents of the library match the query; with a limit of two,
    two results come back. *)
Example search_library_limit_two :
  length <$> (match @Search.searchDocumentation word_engine library "jobs" None (-1) with
              | Ok results => Some results
              | Err _ => None
              end) = Some 3 /\
  length <$> (match @Search.searchDocumentation word_engine library "jobs" None 2 with
              | Ok results => Some results
              | Err _ => None
              end) = Some 2.
Proof. split; vm_compute; reflexivity. Qed.

(** C2. Browsing a section with a type filter returns documents of other
    types: in the condition of the query the filter is joined to the title
    match only, so a document whose section matches passes whatever its
    type.  In the library, browsing Jobs within the Python reference
    returns a page of the user manual. *)
Theorem browseSections_returns_other_types :
  exists docs,
    Search.browseSections library "Jobs" (Some "python-reference") = Ok docs /\
    map docType docs = [Js.JsString "python-reference"; Js.JsString "user-manual"].
Proof.
  exists (match Search.browseSections library "Jobs" (Some "python-reference") with
          | Ok docs => docs
          | Err _ => []
          end).
  split; vm_compute; reflexivity.
Qed.

(** On a store that the indexer built, browsing with a type filter does
    not return at all: the column [doc_type] is missing. *)
Lemma browseSections_filter_fails_on_indexed_store db section ty :
  indexer_store db -> Js.is_empty ty = false ->
  Search.browseSections db section (Some ty) = Err (SqliteError "no such column: doc_type").
Proof.
  intros (t & Ht & Hc) Hty. unfold Search.browseSections, Sql.the_table.
  rewrite Ht. cbn [mbind result_bind Search.given]. rewrite Hty.
  unfold Sql.require_columns, Sql.require_column, Sql.has_column. rewrite Hc.
  reflexivity.
Qed.

(** ** The empty query *)

Section EmptyQuery.

Context `{Search.Fts5}.

(** C4. The store-backed search hands an empty query to the full-text
    engine as it is, and fails when the engine refuses it; the curated
    fallback does not fail on an empty query: it answers with the general
    help entry, cut at the limit. *)
Theorem empty_query_outcome db docType limit :
  (forall t f, is_ok (Search.fts5_match EmptyString t f) = false) ->
  is_ok (Search.searchDocumentation db EmptyString docType limit) = false /\
  Remote.searchDocumentation EmptyString docType limit
    = Js.slice0 limit [Remote.general_help].
Proof.
  intros Hengine. split; [|reflexivity].
  unfold Search.searchDocumentation.
  destruct (Search.the_fts db) as [f|]; [|reflexivity].
  destruct (Sql.the_table db) as [t|]; [|reflexivity].
  cbn [mbind result_bind].
  destruct (Sql.require_columns t Search.search_columns); [|reflexivity].
  cbn [mbind result_bind].
  specialize (Hengine t f).
  destruct (Search.fts5_match EmptyString t f); [discriminate Hengine | reflexivity].
Qed.

End EmptyQuery.

Lemma empty_query_outcome_witness :
  is_ok (@Search.searchDocumentation word_engine library EmptyString None 10) = false /\
  Remote.searchDocumentation EmptyString None 10 = Js.slice0 10 [Remote.general_help].
Proof.
  apply (@empty_query_outcome word_engine library None 10).
  intros t f. reflexivity.
Defined.

(** C4, as stated, fails for the curated fallback: the empty query is
    answered, with one result. *)
Lemma remote_empty_query_succeeds :
  Remote.searchDocumentation EmptyString None 10 = [Remote.general_help] /\
  Remote.searchDocumentation EmptyString None 10 <> [].
Proof. split; [reflexivity | discriminate]. Qed.

(** ** Documents of the curated fallback *)

(** What the fallback returns for an id: always a document, with the id
    that was asked for, the part of the id before the first colon as its
    type, and the url of that type where the type is one of the three; the
    general url where the type is neither one of the three nor the name of
    an inherited property. *)
Lemma remote_getDocumentById_fields (i : string) :
  exists d,
    Remote.getDocumentById i = Some d /\
    id d = Js.JsString i /\
    docType d = Js.JsString (Js.split_first_colon i).1 /\
    url d = Js.js_or (Js.get_property Remote.baseUrls (Js.split_first_colon i).1)
                     (Js.JsString Remote.generic_url) /\
    (Remote.baseUrls !! (Js.split_first_colon i).1 = None ->
     Js.object_prototype (Js.split_first_colon i).1 = Js.JsUndefined ->
     url d = Js.JsString Remote.generic_url).
Proof.
  unfold Remote.getDocumentById.
  destruct (Js.split_first_colon i) as [ty rest]. cbn [fst].
  eexists. split; [reflexivity|]. cbn [id docType url].
  repeat split. intros Hown Hproto.
  unfold Js.get_property. now rewrite Hown, Hproto.
Qed.

(** C10. The fallback to the general url is missed where the part of the
    id before the colon names a property that every object inherits: for
    the id constructor:jobs the url of the document is the function that
    [baseUrls] inherits under that name, not the general url. *)
Theorem remote_getDocumentById_inherited_key :
  exists d,
    Remote.getDocumentById "constructor:jobs" = Some d /\
    id d = Js.JsString "constructor:jobs" /\
    docType d = Js.JsString "constructor" /\
    Remote.baseUrls !! "constructor" = None /\
    url d = Js.JsFunction "Object" /\
    url d <> Js.JsString Remote.generic_url.
Proof.
  eexists. split; [reflexivity|].
  cbn [id docType url]. repeat split; try reflexivity. discriminate.
Qed.

(** ** The full-text search on a store of the indexer *)

Section IndexedStore.

Context `{Search.Fts5}.

(** The full-text query names [d.doc_type] in its column list, so on a
    store that the indexer built it fails whatever the query is. *)
Lemma searchDocumentation_fails_on_indexed_store db query docType limit :
  indexer_store db ->
  is_ok (Search.searchDocumentation db query docType limit) = false.
Proof.
  intros (t & Ht & Hc). unfold Search.searchDocumentation, Sql.the_table.
  destruct (Search.the_fts db); [|reflexivity].
  rewrite Ht. cbn [mbind result_bind].
  unfold Search.search_columns. cbn [Sql.require_columns].
  unfold Sql.require_column, Sql.has_column. rewrite Hc.
  reflexivity.
Qed.

End IndexedStore.

(** * Further properties *)

(** ** The normal form of the text normalization *)

Lemma all_chars_append (p : ascii -> bool) (a b : string) :
  Js.all_chars p (a +:+ b) = Js.all_chars p a && Js.all_chars p b.
Proof.
  induction a as [|c a IH]; [reflexivity|].
  rewrite append_cons. cbn [Js.all_chars]. now rewrite IH, andb_assoc.
Qed.

Lemma all_chars_replaceAll (p : ascii -> bool) (m : Js.matcher) (rep s : string) :
  Js.all_chars p rep = true -> Js.all_chars p s = true ->
  forall k, Js.all_chars p (Js.replaceAll m rep k s) = true.
Proof.
  intros Hrep. induction s as [|c s IH]; intros Hs k; [reflexivity|].
  cbn [Js.all_chars] in Hs. apply andb_prop in Hs as [Hc Hs].
  destruct k as [|k]; cbn [Js.replaceAll]; [|now apply IH].
  destruct (m (String c s)).
  - rewrite all_chars_append, Hrep. now apply IH.
  - cbn [Js.all_chars]. rewrite Hc. now apply IH.
Qed.

Lemma length_append (a b : string) :
  String.length (a +:+ b) = String.length a + String.length b.
Proof.
  induction a as [|c a IH]; [reflexivity|].
  rewrite append_cons. cbn [String.length]. now rewrite IH.
Qed.

Lemma replaceAll_length (m : Js.matcher) (rep s : string) :
  String.length rep <= 1 ->
  forall k, String.length (Js.replaceAll m rep k s) <= String.length s.
Proof.
  intros Hrep. induction s as [|c s IH]; intros k; [reflexivity|].
  destruct k as [|k]; cbn [Js.replaceAll String.length].
  - destruct (m (String c s)) as [n|].
    + rewrite length_append. specialize (IH (pred n)). lia.
    + cbn [String.length]. specialize (IH 0). lia.
  - specialize (IH k). lia.
Qed.

Lemma trimStart_length (s : string) : String.length (Js.trimStart s) <= String.length s.
Proof.
  induction s as [|c s IH]; [reflexivity|].
  cbn [Js.trimStart]. destruct (Js.is_space c); cbn [String.length]; lia.
Qed.

Lemma trimEnd_length (s : string) : String.length (Js.trimEnd s) <= String.length s.
Proof.
  induction s as [|c s IH]; [reflexivity|].
  cbn [Js.trimEnd]. destruct (_ && _); cbn [String.length]; lia.
Qed.

(** After the first step the only whitespace left is the space. *)
Lemma collapse_space_or_visible (s : string) : forall k,
  Js.all_chars space_or_visible (Js.replaceAll Indexer.ws_run " " k s) = true.
Proof.
  induction s as [|c s IH]; intros k; [reflexivity|].
  destruct k as [|k]; cbn [Js.replaceAll]; [|apply IH].
  unfold Indexer.ws_run at 1. cbn [Js.span].
  destruct (Js.is_space c) eqn:Hc.
  - rewrite all_chars_append, IH. reflexivity.
  - cbn [Js.all_chars]. unfold space_or_visible at 1. rewrite Hc. apply IH.
Qed.

(** Where no line feed is left, the second step changes nothing. *)
Lemma blank_lines_unchanged (s : string) :
  Js.all_chars space_or_visible s = true ->
  Js.replaceAll Indexer.blank_lines (Js.str1 10) 0 s = s.
Proof.
  induction s as [|c s IH]; [reflexivity|].
  cbn [Js.all_chars]. intros [Hc Hs]%andb_prop.
  cbn [Js.replaceAll]. unfold Indexer.blank_lines at 1.
  destruct (Js.code c =? 10)%N eqn:Hlf.
  - apply N.eqb_eq in Hlf. unfold space_or_visible, Js.is_space, Js.in_range in Hc.
    rewrite Hlf in Hc. discriminate Hc.
  - now rewrite IH.
Qed.

(** Where every character is safe, the third step changes nothing. *)
Lemma strip_unchanged (s : string) :
  Js.all_chars Indexer.is_safe s = true ->
  Js.replaceAll Indexer.unsafe_char EmptyString 0 s = s.
Proof.
  induction s as [|c s IH]; [reflexivity|].
  cbn [Js.all_chars]. intros [Hc Hs]%andb_prop.
  cbn [Js.replaceAll]. unfold Indexer.unsafe_char at 1. rewrite Hc. now rewrite IH.
Qed.

Lemma cleanText_space_or_visible (text : string) :
  Js.all_chars space_or_visible (Indexer.cleanText text) = true.
Proof.
  unfold Indexer.cleanText, Js.trim.
  apply all_chars_trimEnd, all_chars_trimStart, all_chars_replaceAll; [reflexivity|].
  rewrite blank_lines_unchanged; apply collapse_space_or_visible.
Qed.

Lemma cleanText_length (text : string) :
  String.length (Indexer.cleanText text) <= String.length text.
Proof.
  unfold Indexer.cleanText, Js.trim.
  etrans; [apply trimEnd_length|]. etrans; [apply trimStart_length|].
  etrans; [apply replaceAll_length; cbn; lia|].
  etrans; [apply replaceAll_length; cbn; lia|].
  apply replaceAll_length. cbn. lia.
Qed.

(** X1. Whatever the text, its normalization has only characters of the
    safe set, has no whitespace character but the space, has no whitespace
    at either end, and is no longer than the text. *)
Theorem cleanText_result (text : string) :
  Js.all_chars Indexer.is_safe (Indexer.cleanText text) = true /\
  Js.all_chars space_or_visible (Indexer.cleanText text) = true /\
  Js.trim (Indexer.cleanText text) = Indexer.cleanText text /\
  String.length (Indexer.cleanText text) <= String.length text.
Proof.
  split; [apply cleanText_safe|].
  split; [apply cleanText_space_or_visible|].
  split; [apply cleanText_trimmed | apply cleanText_length].
Qed.

Lemma single_spaced_tail (c : ascii) (s : string) :
  single_spaced (String c s) = true -> single_spaced s = true.
Proof.
  destruct s as [|c' s]; [reflexivity|].
  rewrite single_spaced_cons. now intros [_ Hs]%andb_prop.
Qed.

Lemma single_spaced_trimStart (s : string) :
  single_spaced s = true -> single_spaced (Js.trimStart s) = true.
Proof.
  induction s as [|c s IH]; [reflexivity|]. intros Hs.
  cbn [Js.trimStart]. destruct (Js.is_space c); [|exact Hs].
  apply IH. now apply single_spaced_tail in Hs.
Qed.

Lemma single_spaced_trimEnd (s : string) :
  single_spaced s = true -> single_spaced (Js.trimEnd s) = true.
Proof.
  induction s as [|c s IH]; [reflexivity|]. intros Hs.
  cbn [Js.trimEnd]. destruct (Js.is_space c && Js.is_empty (Js.trimEnd s)); [reflexivity|].
  specialize (IH (single_spaced_tail c s Hs)).
  destruct s as [|c' s]; [reflexivity|].
  rewrite single_spaced_cons in Hs. apply andb_prop in Hs as [Hcc _].
  cbn [Js.trimEnd] in IH |- *.
  destruct (Js.is_space c' && Js.is_empty (Js.trimEnd s)); [reflexivity|].
  rewrite single_spaced_cons, Hcc. exact IH.
Qed.

Lemma space_is_space (c : ascii) :
  Js.is_space c = true -> space_or_visible c = true -> c = " "%char.
Proof.
  unfold space_or_visible. intros -> Hc. cbn [negb orb] in Hc.
  apply N.eqb_eq in Hc. rewrite <- (ascii_N_embedding c). unfold Js.code in Hc.
  now rewrite Hc.
Qed.

(** On a text that is already single-spaced, with spaces only, the first
    step changes nothing. *)
Lemma collapse_unchanged (s : string) :
  Js.all_chars space_or_visible s = true -> single_spaced s = true ->
  Js.replaceAll Indexer.ws_run " " 0 s = s.
Proof.
  induction s as [|c s IH]; [reflexivity|].
  cbn [Js.all_chars]. intros [Hc Hs]%andb_prop Hsingle.
  specialize (IH Hs (single_spaced_tail c s Hsingle)).
  cbn [Js.replaceAll]. unfold Indexer.ws_run at 1. cbn [Js.span].
  destruct (Js.is_space c) eqn:Hsp.
  - assert (Hspan : Js.span Js.is_space s = 0).
    { destruct s as [|c' s]; [reflexivity|].
      rewrite single_spaced_cons, Hsp in Hsingle. cbn [andb] in Hsingle.
      apply andb_prop in Hsingle as [Hc' _]. apply negb_true_iff in Hc'.
      cbn [Js.span]. now rewrite Hc'. }
    rewrite Hspan. cbn [pred]. rewrite IH.
    now rewrite (space_is_space c Hsp Hc).
  - now rewrite IH.
Qed.

Lemma cleanText_of_normalized (s : string) : normalized s -> Indexer.cleanText s = s.
Proof.
  intros (Hsafe & Hspace & Hsingle & Htrim). unfold Indexer.cleanText.
  rewrite collapse_unchanged, blank_lines_unchanged, strip_unchanged; assumption.
Qed.

(** The normalization of a text of safe characters is in normal form. *)
Lemma cleanText_of_safe (s : string) :
  Js.all_chars Indexer.is_safe s = true -> normalized (Indexer.cleanText s).
Proof.
  intros Hsafe.
  split; [apply cleanText_safe|]. split; [apply cleanText_space_or_visible|].
  split; [|apply cleanText_trimmed].
  unfold Indexer.cleanText.
  rewrite (blank_lines_unchanged _ (collapse_space_or_visible s 0)).
  rewrite strip_unchanged by (now apply all_chars_replaceAll).
  apply single_spaced_trimEnd, single_spaced_trimStart, collapse_single_spaced.
Qed.

(** X2. A second pass of the normalization removes the runs of spaces that
    the first pass can leave: the text is then in normal form (safe
    characters, spaces as the only whitespace, no two in a row, nothing to
    trim), and a third pass changes nothing. *)
Theorem cleanText_second_pass (text : string) :
  normalized (Indexer.cleanText (Indexer.cleanText text)) /\
  Indexer.cleanText (Indexer.cleanText (Indexer.cleanText text))
    = Indexer.cleanText (Indexer.cleanText text).
Proof.
  assert (Hn : normalized (Indexer.cleanText (Indexer.cleanText text)))
    by apply cleanText_of_safe, cleanText_safe.
  split; [exact Hn | now apply cleanText_of_normalized].
Qed.

(** X3. The texts that the normalization leaves as they are, are exactly
    the texts in normal form. *)
Theorem cleanText_fixed_points (text : string) :
  Indexer.cleanText text = text <-> normalized text.
Proof.
  split; [|apply cleanText_of_normalized].
  intros Hfix.
  assert (Hsafe : Js.all_chars Indexer.is_safe text = true)
    by (rewrite <- Hfix; apply cleanText_safe).
  rewrite <- Hfix. now apply cleanText_of_safe.
Qed.

Lemma all_chars_both (p q : ascii -> bool) (s : string) :
  Js.all_chars p s = true -> Js.all_chars q s = true ->
  Js.all_chars (fun c => p c && q c) s = true.
Proof.
  induction s as [|c s IH]; [reflexivity|]. cbn [Js.all_chars].
  intros [Hp Hps]%andb_prop [Hq Hqs]%andb_prop. now rewrite Hp, Hq, IH.
Qed.

Lemma trimStart_blank (s : string) :
  Js.all_chars (fun c => blank_char c && Indexer.is_safe c) s = true ->
  Js.trimStart s = EmptyString.
Proof.
  induction s as [|c s IH]; [reflexivity|]. cbn [Js.all_chars Js.trimStart].
  intros [Hc Hs]%andb_prop. unfold blank_char in Hc.
  destruct (Js.is_space c); [now apply IH|].
  destruct (Indexer.is_safe c); discriminate Hc.
Qed.

(** X4. A text made of whitespace and of characters outside the safe set
    only is normalized to the empty string. *)
Theorem cleanText_blank (text : string) :
  Js.all_chars blank_char text = true -> Indexer.cleanText text = EmptyString.
Proof.
  intros Hblank. unfold Indexer.cleanText, Js.trim.
  rewrite (blank_lines_unchanged _ (collapse_space_or_visible text 0)).
  rewrite trimStart_blank; [reflexivity|].
  apply all_chars_both; [|apply replaceAll_unsafe_safe].
  apply all_chars_replaceAll; [reflexivity|].
  now apply all_chars_replaceAll.
Qed.

Lemma cleanText_blank_witness :
  Indexer.cleanText (" <!> " +:+ Js.str1 9 +:+ "&") = EmptyString.
Proof.
  apply (cleanText_blank (" <!> " +:+ Js.str1 9 +:+ "&")). reflexivity.
Defined.

(** ** Keywords *)

Lemma dedupe_from_unchanged (l : list string) : forall seen,
  List.NoDup l -> (forall x, In x l -> x ∉ seen) ->
  Js.dedupe_from seen l = l.
Proof.
  induction l as [|x l IH]; intros seen Hnd Hseen; [reflexivity|].
  apply List.NoDup_cons_iff in Hnd as [Hx Hnd].
  cbn [Js.dedupe_from].
  rewrite bool_decide_eq_false_2 by (apply Hseen; now left).
  f_equal. apply IH; [exact Hnd|].
  intros y Hy [->|Hin]%elem_of_cons; [contradiction|].
  revert Hin. apply Hseen. now right.
Qed.

Lemma dedupe_unchanged (l : list string) : List.NoDup l -> Js.dedupe l = l.
Proof.
  intros Hnd. apply dedupe_from_unchanged; [exact Hnd|].
  intros x _. apply not_elem_of_nil.
Qed.

Lemma vocabulary_NoDup : List.NoDup (Indexer.deadlineTerms ++ Indexer.progTerms)%list.
Proof.
  apply NoDup_ListNoDup.
  apply (bool_decide_unpack (NoDup (Indexer.deadlineTerms ++ Indexer.progTerms)%list)).
  vm_compute. exact I.
Qed.

Lemma lower_char_idempotent (c : ascii) : Js.lower_char (Js.lower_char c) = Js.lower_char c.
Proof. destruct c as [[] [] [] [] [] [] [] []]; reflexivity. Qed.

Lemma toLowerCase_idempotent (s : string) : Js.toLowerCase (Js.toLowerCase s) = Js.toLowerCase s.
Proof.
  unfold Js.toLowerCase. induction s as [|c s IH]; [reflexivity|].
  cbn [Js.map_chars]. now rewrite lower_char_idempotent, IH.
Qed.

Lemma toLowerCase_append (a b : string) :
  Js.toLowerCase (a +:+ b) = Js.toLowerCase a +:+ Js.toLowerCase b.
Proof.
  unfold Js.toLowerCase. induction a as [|c a IH]; [reflexivity|].
  rewrite append_cons. cbn [Js.map_chars]. now rewrite IH, append_cons.
Qed.

Lemma extractKeywords_filter (content title : string) :
  Indexer.extractKeywords content title
  = List.filter (fun term => Js.includes (Js.toLowerCase (title +:+ " " +:+ content)) term)
                (Indexer.deadlineTerms ++ Indexer.progTerms)%list.
Proof.
  unfold Indexer.extractKeywords. rewrite <- List.filter_app.
  apply dedupe_unchanged, List.NoDup_filter, vocabulary_NoDup.
Qed.

(** X5. The keywords of a page are exactly the terms of the two
    vocabularies that occur in the lower-cased title, space and content,
    in the order of the vocabularies and each once; the letter case of the
    page plays no part. *)
Theorem extractKeywords_exactly (content title : string) :
  Indexer.extractKeywords content title
    = List.filter (fun term => Js.includes (Js.toLowerCase (title +:+ " " +:+ content)) term)
                  (Indexer.deadlineTerms ++ Indexer.progTerms)%list /\
  List.NoDup (Indexer.extractKeywords content title) /\
  (forall term,
     In term (Indexer.extractKeywords content title) <->
     In term (Indexer.deadlineTerms ++ Indexer.progTerms)%list /\
     Js.includes (Js.toLowerCase (title +:+ " " +:+ content)) term = true) /\
  Indexer.extractKeywords (Js.toLowerCase content) (Js.toLowerCase title)
    = Indexer.extractKeywords content title.
Proof.
  split; [apply extractKeywords_filter|]. split; [|split].
  - rewrite extractKeywords_filter. apply List.NoDup_filter, vocabulary_NoDup.
  - intros term. rewrite extractKeywords_filter. apply List.filter_In.
  - rewrite !extractKeywords_filter.
    rewrite !toLowerCase_append, !toLowerCase_idempotent. reflexivity.
Qed.

(** ** Sections *)

Lemma split_path_not_nil (s : string) : Indexer.split_path s <> [].
Proof.
  induction s as [|c s IH]; [discriminate|].
  cbn [Indexer.split_path]. destruct (_ || _)%bool; [discriminate|].
  destruct (Indexer.split_path s); [contradiction | discriminate].
Qed.

Lemma split_path_single (s : string) :
  Js.all_chars not_separator s = true -> Indexer.split_path s = [s].
Proof.
  induction s as [|c s IH]; [reflexivity|].
  cbn [Js.all_chars]. intros [Hc Hs]%andb_prop.
  cbn [Indexer.split_path]. unfold not_separator in Hc.
  apply negb_true_iff in Hc. rewrite Hc. now rewrite (IH Hs).
Qed.

Lemma split_path_slash (a b : string) :
  Indexer.split_path (a +:+ "/" +:+ b) = (Indexer.split_path a ++ Indexer.split_path b)%list.
Proof.
  induction a as [|c a IH]; [reflexivity|].
  rewrite append_cons. cbn [Indexer.split_path]. rewrite IH.
  destruct (_ || _)%bool; [reflexivity|].
  pose proof (split_path_not_nil a) as Hne.
  destruct (Indexer.split_path a); [contradiction | reflexivity].
Qed.

Lemma replace_one_char (n : N) (s : string) :
  Js.replaceAll (Indexer.one_char n) " " 0 s
  = Js.map_chars (fun c => if (Js.code c =? n)%N then " "%char else c) s.
Proof.
  induction s as [|c s IH]; [reflexivity|].
  cbn [Js.replaceAll Js.map_chars]. unfold Indexer.one_char at 1.
  destruct (Js.code c =? n)%N; cbn [pred]; now rewrite IH.
Qed.

Lemma map_chars_map_chars (f g : ascii -> ascii) (s : string) :
  Js.map_chars f (Js.map_chars g s) = Js.map_chars (fun c => f (g c)) s.
Proof. induction s as [|c s IH]; [reflexivity|]. cbn [Js.map_chars]. now rewrite IH. Qed.

Lemma map_chars_ext (f g : ascii -> ascii) (s : string) :
  (forall c, f c = g c) -> Js.map_chars f s = Js.map_chars g s.
Proof.
  intros Hfg. induction s as [|c s IH]; [reflexivity|].
  cbn [Js.map_chars]. now rewrite Hfg, IH.
Qed.

Lemma dash_to_space_twice (c : ascii) :
  (if (Js.code (if (Js.code c =? 45)%N then " "%char else c) =? 95)%N
   then " "%char else if (Js.code c =? 45)%N then " "%char else c)
  = dash_to_space c.
Proof. destruct c as [[] [] [] [] [] [] [] []]; reflexivity. Qed.

(** The parts of a path that ends with a directory and a file name. *)
Lemma split_path_parent (prefix dir file : string) :
  Js.all_chars not_separator dir = true ->
  Js.all_chars not_separator file = true ->
  Indexer.split_path (prefix +:+ "/" +:+ dir +:+ "/" +:+ file)
  = (Indexer.split_path prefix ++ [dir; file])%list.
Proof.
  intros Hdir Hfile.
  now rewrite !split_path_slash, (split_path_single dir Hdir), (split_path_single file Hfile).
Qed.

Lemma parent_lookup (parts : list string) (dir file : string) :
  (1 <? length (parts ++ [dir; file]))%nat = true /\
  (parts ++ [dir; file])%list !! (length (parts ++ [dir; file]) - 2) = Some dir.
Proof.
  rewrite length_app. cbn [length]. split; [apply Nat.ltb_lt; lia|].
  replace (length parts + 2 - 2) with (length parts + 0) by lia.
  now rewrite lookup_app_r, Nat.add_0_r, Nat.sub_diag by lia.
Qed.

(** X6. For a file in a directory that is not named manual or html, the
    section is the name of that directory with its hyphens and underscores
    turned into spaces; the title plays no part. *)
Theorem extractSection_of_directory (title prefix dir file : string) :
  Js.all_chars not_separator dir = true ->
  Js.all_chars not_separator file = true ->
  Js.is_empty dir = false ->
  String.eqb dir "manual" = false ->
  String.eqb dir "html" = false ->
  Indexer.extractSection title (prefix +:+ "/" +:+ dir +:+ "/" +:+ file)
  = Js.map_chars dash_to_space dir.
Proof.
  intros Hdir Hfile Hne Hmanual Hhtml. unfold Indexer.extractSection.
  rewrite (split_path_parent prefix dir file Hdir Hfile).
  destruct (parent_lookup (Indexer.split_path prefix) dir file) as [-> ->].
  change (default EmptyString (Some dir)) with dir.
  rewrite Hne, Hmanual, Hhtml. cbn [negb andb].
  rewrite !replace_one_char, map_chars_map_chars.
  apply map_chars_ext, dash_to_space_twice.
Qed.

Lemma extractSection_of_directory_witness :
  Indexer.extractSection "Jobs - Overview"
    ("docs" +:+ "/" +:+ "job-submission_guide" +:+ "/" +:+ "index.html")
  = Js.map_chars dash_to_space "job-submission_guide".
Proof.
  apply (extractSection_of_directory "Jobs - Overview" "docs"
           "job-submission_guide" "index.html"); reflexivity.
Defined.








(** ** The stores that the indexer builds *)

Lemma built_by_typed (ty : string) (doc : DocumentSection) : built_by ty doc -> typed doc.
Proof.
  intros (rel & t & c & s & Hid & Hurl & Hty & Ht & Hc & _ & Hs & _).
  unfold typed. eauto 12.
Qed.

(** The row of a document whose fields are strings. *)
Lemma row_of_typed (doc : DocumentSection) (i t c u ty s : string) :
  id doc = Js.JsString i -> title doc = Js.JsString t -> content doc = Js.JsString c ->
  url doc = Js.JsString u -> docType doc = Js.JsString ty -> section doc = Js.JsString s ->
  Indexer.insert_values doc
    = Ok (<["id" := Sql.SqlText i]> (<["title" := Sql.SqlText t]>
           (<["content" := Sql.SqlText c]> (<["section" := Sql.SqlText s]>
           (<["docType" := Sql.SqlText ty]> (<["url" := Sql.SqlText u]>
           (<["keywords" := Sql.SqlText (Js.JSON_stringify (keywords doc))]> ∅))))))) /\
  row_of doc
    = <["id" := Sql.SqlText i]> (<["title" := Sql.SqlText t]>
        (<["content" := Sql.SqlText c]> (<["section" := Sql.SqlText s]>
        (<["docType" := Sql.SqlText ty]> (<["url" := Sql.SqlText u]>
        (<["keywords" := Sql.SqlText (Js.JSON_stringify (keywords doc))]> ∅)))))).
Proof.
  intros Hi Ht Hc Hu Hty Hs.
  assert (Hv : Indexer.insert_values doc
    = Ok (<["id" := Sql.SqlText i]> (<["title" := Sql.SqlText t]>
           (<["content" := Sql.SqlText c]> (<["section" := Sql.SqlText s]>
           (<["docType" := Sql.SqlText ty]> (<["url" := Sql.SqlText u]>
           (<["keywords" := Sql.SqlText (Js.JSON_stringify (keywords doc))]> ∅)))))))).
  { unfold Indexer.insert_values. rewrite Hi, Ht, Hc, Hu, Hty, Hs. reflexivity. }
  split; [exact Hv|].
  unfold row_of. rewrite Hv. unfold Indexer.new_row.
  cbn [Sql.columns foldr Indexer.documents_columns Indexer.text_column Sql.col_name].
  destruct (insert_values_cells (Sql.SqlText i) (Sql.SqlText t) (Sql.SqlText c)
              (Sql.SqlText s) (Sql.SqlText ty) (Sql.SqlText u)
              (Sql.SqlText (Js.JSON_stringify (keywords doc))))
    as (-> & -> & -> & -> & -> & -> & ->).
  apply map_eq. intros k.
  repeat (rewrite !lookup_insert; case_decide; [reflexivity|]).
  reflexivity.
Qed.

Lemma row_of_id (doc : DocumentSection) :
  typed doc -> Sql.prop (row_of doc) "id" = id doc /\
               exists i, id doc = Js.JsString i /\ Sql.cell (row_of doc) "id" = Sql.SqlText i.
Proof.
  intros (i & t & c & u & ty & s & Hi & Ht & Hc & Hu & Hty & Hs).
  destruct (row_of_typed doc i t c u ty s Hi Ht Hc Hu Hty Hs) as [_ ->].
  split; [now rewrite Hi | exists i; now split].
Qed.

Lemma id_stored (docs : list DocumentSection) (i : string) :
  Forall typed docs ->
  existsb (fun r => bool_decide (Sql.cell r "id" = Sql.SqlText i)) (map row_of docs)
  = bool_decide (Js.JsString i ∈ map id docs).
Proof.
  induction 1 as [|doc docs Hdoc _ IH]; [reflexivity|].
  cbn [map existsb]. rewrite IH.
  destruct (row_of_id doc Hdoc) as (_ & j & Hj & ->).
  rewrite Hj. destruct (decide (j = i)) as [->|Hne].
  - rewrite (bool_decide_eq_true_2 (Sql.SqlText i = Sql.SqlText i)) by reflexivity.
    cbn [orb]. symmetry. apply bool_decide_eq_true_2, list_elem_of_here.
  - rewrite (bool_decide_eq_false_2 (Sql.SqlText j = Sql.SqlText i)) by congruence.
    cbn [orb]. apply bool_decide_ext. rewrite elem_of_cons.
    split; [now right | intros [[= E]|H]; [now subst | exact H]].
Qed.

(** What [insertDocument] does on a store of typed documents: it refuses
    an id that the store has, and stores any other document after the ones
    that are there. *)
Lemma insertDocument_store_of (docs : list DocumentSection) (doc : DocumentSection) :
  Forall typed docs -> typed doc ->
  Indexer.insertDocument (store_of docs) doc
  = if bool_decide (id doc ∈ map id docs)
    then Err (SqliteError "UNIQUE constraint failed: documents.id")
    else Ok (store_of (docs ++ [doc])).
Proof.
  intros Hdocs Hdoc.
  pose proof Hdoc as (i & t & c & u & ty & s & Hi & Ht & Hc & Hu & Hty & Hs).
  destruct (row_of_typed doc i t c u ty s Hi Ht Hc Hu Hty Hs) as [Hv Hrow].
  unfold Indexer.insertDocument, Sql.the_table.
  set (t0 := {| Sql.columns := Indexer.documents_columns; Sql.rows := map row_of docs |}).
  change (Sql.documents (store_of docs)) with (Some t0).
  cbn [mbind result_bind].
  assert (Hcols : Sql.require_columns t0 Indexer.insert_columns = Ok tt) by reflexivity.
  rewrite Hcols. cbn [mbind result_bind]. rewrite Hv. cbn [mbind result_bind].
  assert (Hr : Indexer.new_row t0
                 (<["id" := Sql.SqlText i]> (<["title" := Sql.SqlText t]>
                   (<["content" := Sql.SqlText c]> (<["section" := Sql.SqlText s]>
                   (<["docType" := Sql.SqlText ty]> (<["url" := Sql.SqlText u]>
                   (<["keywords" := Sql.SqlText (Js.JSON_stringify (keywords doc))]> ∅)))))))
               = row_of doc) by (unfold row_of; now rewrite Hv).
  rewrite Hr.
  assert (Hnn : Indexer.violates_not_null t0 (row_of doc) = false).
  { rewrite Hrow. reflexivity. }
  rewrite Hnn.
  assert (Hu' : Indexer.violates_unique t0 (row_of doc) = bool_decide (id doc ∈ map id docs)).
  { unfold Indexer.violates_unique, t0.
    cbn [Sql.columns Sql.rows existsb Indexer.documents_columns Indexer.text_column
           Sql.col_primary_key Sql.col_name andb orb].
    destruct (row_of_id doc Hdoc) as (_ & j & Hj & Hcell).
    rewrite Hcell, Hj, orb_false_r.
    rewrite (bool_decide_eq_false_2 (Sql.SqlText j = Sql.SqlNull)) by discriminate.
    cbn [negb andb]. now apply id_stored. }
  rewrite Hu'. destruct (bool_decide (id doc ∈ map id docs)); [reflexivity|].
  unfold Indexer.run_trigger, t0, store_of.
  cbn [Sql.documents_ai Sql.documents_fts Sql.rows Sql.columns
         mbind result_bind mret result_ret].
  rewrite !map_app. cbn [map].
  rewrite imap_app. cbn [imap]. rewrite length_map, Nat.add_0_r.
  reflexivity.
Qed.

Section Built.

Context `{Html.Parser} `{Fs.Files}.
Variable config : DeadlineDocConfig.

(** [processHtmlFile] either skips the file, whatever the store, or builds
    a document from the file alone and tries to insert it. *)
Lemma processHtmlFile_document (filePath ty : string) :
  exists od : option DocumentSection,
    (forall doc, od = Some doc -> built_by ty doc) /\
    forall db,
      Indexer.processHtmlFile config db filePath ty
      = match od with
        | None => (false, db)
        | Some doc =>
            match Indexer.insertDocument db doc with
            | Ok db' => (true, db')
            | Err _ => (false, db)
            end
        end.
Proof.
  unfold Indexer.processHtmlFile.
  destruct (Fs.readFile filePath) as [htmlContent|];
    [|exists None; split; [discriminate | reflexivity]].
  destruct (Html.parse htmlContent) as [d root].
  destruct (Indexer.isNavigationPage _ _);
    [exists None; split; [discriminate | reflexivity]|].
  destruct (Indexer.extractMainContent d root) as [main d'].
  destruct (String.length main <? 50)%nat eqn:Hlen;
    [exists None; split; [discriminate | reflexivity]|].
  eexists (Some _). split; [|reflexivity].
  intros doc [= <-]. unfold built_by. cbn [id url docType title content section keywords].
  do 4 eexists. repeat split.
  - apply Nat.ltb_ge in Hlen. rewrite !length_append. cbn [String.length]. lia.
  - intros k. rewrite extractKeywords_filter. intros Hk%List.filter_In. tauto.
Qed.

Lemma processHtmlFile_store_of (filePath ty : string) (docs : list DocumentSection) :
  Forall typed docs ->
  Indexer.processHtmlFile config (store_of docs) filePath ty = (false, store_of docs) \/
  exists doc,
    built_by ty doc /\ (id doc ∉ map id docs) /\
    Indexer.processHtmlFile config (store_of docs) filePath ty
      = (true, store_of (docs ++ [doc])) /\
    settled config filePath ty (docs ++ [doc]).
Proof.
  intros Hdocs.
  destruct (processHtmlFile_document filePath ty) as (od & Hbuilt & Hod).
  destruct od as [doc|]; [|left; apply Hod].
  specialize (Hbuilt doc eq_refl). pose proof (built_by_typed _ _ Hbuilt) as Hdoc.
  rewrite Hod, insertDocument_store_of by assumption.
  destruct (bool_decide (id doc ∈ map id docs)) eqn:Hin; [now left|].
  right. exists doc. apply bool_decide_eq_false in Hin.
  repeat split; try assumption.
  intros docs' Hdocs' Hsub.
  rewrite Hod, insertDocument_store_of by assumption.
  rewrite bool_decide_eq_true_2; [reflexivity|].
  apply Hsub. rewrite map_app. apply elem_of_app. right. apply list_elem_of_here.
Qed.

(** A file that is skipped on a store is skipped on every store that has
    the same ids, and more. *)
Lemma skipped_settled (filePath ty : string) (docs : list DocumentSection) :
  Forall typed docs ->
  Indexer.processHtmlFile config (store_of docs) filePath ty = (false, store_of docs) ->
  settled config filePath ty docs.
Proof.
  intros Hdocs Hskip docs' Hdocs' Hsub.
  destruct (processHtmlFile_document filePath ty) as (od & Hbuilt & Hod).
  rewrite Hod in Hskip |- *. destruct od as [doc|]; [|reflexivity].
  specialize (Hbuilt doc eq_refl). pose proof (built_by_typed _ _ Hbuilt) as Hdoc.
  rewrite insertDocument_store_of in Hskip |- * by assumption.
  destruct (bool_decide (id doc ∈ map id docs)) eqn:Hin; [|discriminate Hskip].
  apply bool_decide_eq_true in Hin.
  now rewrite bool_decide_eq_true_2 by (apply Hsub, Hin).
Qed.

Lemma settled_mono (filePath ty : string) (docs docs2 : list DocumentSection) :
  (forall x, x ∈ map id docs -> x ∈ map id docs2) ->
  settled config filePath ty docs -> settled config filePath ty docs2.
Proof. intros Hsub Hs docs' Hdocs' Hsub'. apply Hs; [exact Hdocs'|]. auto. Qed.

(** Going through the files of one type, from a store of typed documents
    with pairwise different ids. *)
Lemma files_store_of (ty : string) (files : list string) :
  forall docs, Forall typed docs -> NoDup (map id docs) ->
  exists more,
    foldl (fun db filePath => snd (Indexer.processHtmlFile config db filePath ty))
          (store_of docs) files = store_of (docs ++ more) /\
    Forall (built_by ty) more /\
    NoDup (map id (docs ++ more)) /\
    Forall (fun filePath => settled config filePath ty (docs ++ more)) files.
Proof.
  induction files as [|f files IH]; intros docs Hdocs Hnd.
  - exists []. rewrite app_nil_r. repeat split; try assumption; constructor.
  - cbn [foldl].
    destruct (processHtmlFile_store_of f ty docs Hdocs)
      as [Hskip|(doc & Hbuilt & Hfresh & Hstored & Hsettled)].
    + rewrite Hskip. cbn [snd].
      destruct (IH docs Hdocs Hnd) as (more & Hfold & Hmore & Hnd' & Hfiles).
      exists more. repeat split; try assumption.
      constructor; [|exact Hfiles].
      apply (settled_mono f ty docs); [|now apply skipped_settled].
      intros x Hx. rewrite map_app. apply elem_of_app. now left.
    + rewrite Hstored. cbn [snd].
      assert (Hdocs' : Forall typed (docs ++ [doc])).
      { apply Forall_app. split; [exact Hdocs|]. repeat constructor.
        now apply (built_by_typed ty). }
      assert (Hnd1 : NoDup (map id (docs ++ [doc]))).
      { rewrite map_app. apply NoDup_app. repeat split; [exact Hnd| |].
        - intros x Hx [->|Hnil%elem_of_nil]%elem_of_cons; [contradiction | exact Hnil].
        - apply NoDup_singleton. }
      destruct (IH (docs ++ [doc])%list Hdocs' Hnd1) as (more & Hfold & Hmore & Hnd' & Hfiles).
      exists (doc :: more). rewrite <- app_assoc in Hfold, Hnd', Hfiles.
      cbn [app] in Hfold, Hnd', Hfiles.
      repeat split; try assumption; [now constructor|].
      constructor; [|exact Hfiles].
      apply (settled_mono f ty (docs ++ [doc])%list); [|exact Hsettled].
      intros x Hx. rewrite map_app in Hx |- *. cbn [map] in *.
      rewrite !elem_of_app, ?elem_of_cons in *. rewrite elem_of_nil in Hx. tauto.
Qed.

Lemma indexDocumentationType_files (db : Sql.Database) (ty docsPath : string) :
  Indexer.indexDocumentationType config db ty docsPath
  = foldl (fun db filePath => snd (Indexer.processHtmlFile config db filePath ty))
          db (html_files docsPath).
Proof.
  unfold Indexer.indexDocumentationType, html_files.
  destruct (Fs.access docsPath); [|reflexivity].
  now destruct (Fs.glob _).
Qed.

End Built.

Section BuiltRuns.

Context `{Html.Parser} `{Fs.Files}.
Variable config : DeadlineDocConfig.

Lemma settled_files (ty : string) (files : list string) (docs : list DocumentSection) :
  Forall typed docs ->
  Forall (fun filePath => settled config filePath ty docs) files ->
  foldl (fun db filePath => snd (Indexer.processHtmlFile config db filePath ty))
        (store_of docs) files = store_of docs.
Proof.
  intros Hdocs. induction 1 as [|f files Hf _ IH]; [reflexivity|].
  cbn [foldl]. rewrite (Hf docs Hdocs) by auto. exact IH.
Qed.

Lemma settled_files_mono (ty : string) (files : list string) (docs docs2 : list DocumentSection) :
  (forall x, x ∈ map id docs -> x ∈ map id docs2) ->
  Forall (fun filePath => settled config filePath ty docs) files ->
  Forall (fun filePath => settled config filePath ty docs2) files.
Proof.
  intros Hsub. apply List.Forall_impl. intros f. now apply settled_mono.
Qed.

Lemma ids_app_l (docs more : list DocumentSection) (x : Js.JsValue) :
  x ∈ map id docs -> x ∈ map id (docs ++ more).
Proof. intros Hx. rewrite map_app. apply elem_of_app. now left. Qed.

(** The store that a full run leaves, and the files of the three
    directories, all settled on it. *)
Lemma run_built (db : Sql.Database) :
  exists docs,
    Indexer.run config db = store_of docs /\
    NoDup (map id docs) /\
    Forall (fun doc => exists ty, In ty document_types /\ built_by ty doc) docs /\
    Forall (fun f => settled config f "user-manual" docs)
           (html_files (userManualPath config)) /\
    Forall (fun f => settled config f "scripting-reference" docs)
           (html_files (scriptingReferencePath config)) /\
    Forall (fun f => settled config f "python-reference" docs)
           (html_files (pythonReferencePath config)).
Proof.
  unfold Indexer.run, Indexer.indexAllDocumentation. rewrite initDatabase_fresh.
  change fresh with (store_of []). rewrite !indexDocumentationType_files.
  destruct (files_store_of config "user-manual" (html_files (userManualPath config)) [])
    as (d1 & -> & Hb1 & Hn1 & Hs1); [constructor | constructor |].
  cbn [app] in *.
  assert (Ht1 : Forall typed d1)
    by (revert Hb1; apply List.Forall_impl; intros doc; apply built_by_typed).
  destruct (files_store_of config "scripting-reference"
              (html_files (scriptingReferencePath config)) d1 Ht1 Hn1)
    as (d2 & -> & Hb2 & Hn2 & Hs2).
  assert (Ht2 : Forall typed (d1 ++ d2)).
  { apply Forall_app. split; [exact Ht1|].
    revert Hb2; apply List.Forall_impl; intros doc; apply built_by_typed. }
  destruct (files_store_of config "python-reference"
              (html_files (pythonReferencePath config)) (d1 ++ d2)%list Ht2 Hn2)
    as (d3 & -> & Hb3 & Hn3 & Hs3).
  exists ((d1 ++ d2) ++ d3)%list. split; [reflexivity|]. split; [exact Hn3|].
  split; [|split; [|split]].
  - rewrite !Forall_app. repeat split.
    + revert Hb1. apply List.Forall_impl. intros doc Hd. exists "user-manual".
      split; [cbn; tauto | exact Hd].
    + revert Hb2. apply List.Forall_impl. intros doc Hd. exists "scripting-reference".
      split; [cbn; tauto | exact Hd].
    + revert Hb3. apply List.Forall_impl. intros doc Hd. exists "python-reference".
      split; [cbn; tauto | exact Hd].
  - apply (settled_files_mono _ _ d1); [|exact Hs1].
    intros x Hx. now apply ids_app_l, ids_app_l.
  - apply (settled_files_mono _ _ (d1 ++ d2)%list); [|exact Hs2].
    intros x Hx. now apply ids_app_l.
  - exact Hs3.
Qed.

(** X8. The store that a full run leaves is the store of a list of
    documents: one row for each document, one full-text entry for each
    row, with the rowid of the row.  The ids of the documents are pairwise
    different; each document has one of the three types, the type, a colon
    and the url as its id, a content of at least 51 characters, and
    keywords from the vocabularies. *)
Theorem run_leaves_store_of_documents (db : Sql.Database) :
  exists docs,
    Indexer.run config db = store_of docs /\
    NoDup (map id docs) /\
    Forall (fun doc => exists ty, In ty document_types /\ built_by ty doc) docs.
Proof.
  destruct (run_built db) as (docs & Hrun & Hnd & Hbuilt & _).
  exists docs. auto.
Qed.

(** X9. Indexing again without initializing the store first adds nothing:
    every document that the files give has its id in the store already,
    and the primary key refuses it.  The store after
    [indexAllDocumentation] on the store of a full run is that store. *)
Theorem indexAllDocumentation_again (db : Sql.Database) :
  Indexer.indexAllDocumentation config (Indexer.run config db) = Indexer.run config db.
Proof.
  destruct (run_built db) as (docs & -> & _ & Hbuilt & Hs1 & Hs2 & Hs3).
  assert (Hdocs : Forall typed docs).
  { revert Hbuilt. apply List.Forall_impl. intros doc (ty & _ & Hd). now apply (built_by_typed ty). }
  unfold Indexer.indexAllDocumentation. rewrite !indexDocumentationType_files.
  now rewrite !settled_files.
Qed.

(** X10. Where [processHtmlFile] answers true on a store of documents, it
    has added one document to it, of the type it was called with, and
    whose id the store did not have; processing the same file again then
    answers false and leaves the store as it is. *)
Theorem processHtmlFile_stores_once (docs : list DocumentSection) (filePath ty : string)
    (db' : Sql.Database) :
  Forall typed docs ->
  Indexer.processHtmlFile config (store_of docs) filePath ty = (true, db') ->
  (exists doc, built_by ty doc /\ (id doc ∉ map id docs) /\ db' = store_of (docs ++ [doc])) /\
  Indexer.processHtmlFile config db' filePath ty = (false, db').
Proof.
  intros Hdocs Htrue.
  destruct (processHtmlFile_store_of config filePath ty docs Hdocs)
    as [Hskip|(doc & Hbuilt & Hfresh & Hstored & Hsettled)].
  - rewrite Hskip in Htrue. discriminate Htrue.
  - rewrite Hstored in Htrue. injection Htrue as <-.
    split; [exists doc; auto|].
    apply Hsettled; [|auto].
    apply Forall_app. split; [exact Hdocs|]. repeat constructor.
    now apply (built_by_typed ty).
Qed.

End BuiltRuns.

Lemma processHtmlFile_stores_once_witness :
  (exists doc,
     built_by "user-manual" doc /\ (id doc ∉ map id ([] : list DocumentSection)) /\
     snd (@Indexer.processHtmlFile plain_parser (files_of [("docs/user/a.html", sample_page)])
            sample_config (store_of []) "docs/user/a.html" "user-manual")
     = store_of ([] ++ [doc])) /\
  @Indexer.processHtmlFile plain_parser (files_of [("docs/user/a.html", sample_page)])
    sample_config
    (snd (@Indexer.processHtmlFile plain_parser (files_of [("docs/user/a.html", sample_page)])
            sample_config (store_of []) "docs/user/a.html" "user-manual"))
    "docs/user/a.html" "user-manual"
  = (false,
     snd (@Indexer.processHtmlFile plain_parser (files_of [("docs/user/a.html", sample_page)])
            sample_config (store_of []) "docs/user/a.html" "user-manual")).
Proof.
  apply (@processHtmlFile_stores_once plain_parser
           (files_of [("docs/user/a.html", sample_page)]) sample_config
           [] "docs/user/a.html" "user-manual").
  - constructor.
  - vm_compute. reflexivity.
Defined.

(** ** Reading the stores of the indexer *)

(** What the search makes of the row of a document. *)
Lemma row_document_row_of (doc : DocumentSection) :
  typed doc -> Search.row_document (row_of doc) = Ok (fetched doc).
Proof.
  intros (i & t & c & u & ty & s & Hi & Ht & Hc & Hu & Hty & Hs).
  destruct (row_of_typed doc i t c u ty s Hi Ht Hc Hu Hty Hs) as [_ ->].
  unfold Search.row_document, Search.parse_keywords, Search.examples_of.
  match goal with
  | |- context [Sql.prop ?m "keywords"] => set (r := m)
  end.
  change (Sql.prop r "keywords") with (Js.JsString (Js.JSON_stringify (keywords doc))).
  change (Sql.prop r "content") with (Js.JsString c).
  change (Sql.prop r "id") with (Js.JsString i).
  change (Sql.prop r "title") with (Js.JsString t).
  change (Sql.prop r "section") with (Js.JsString s).
  change (Sql.prop r "doc_type") with Js.JsUndefined.
  change (Sql.prop r "url") with (Js.JsString u).
  unfold Js.js_or. cbn [Js.truthy]. rewrite stringify_not_empty. cbn [negb Js.to_string].
  rewrite JSON_roundtrip. cbn [mbind result_bind mret result_ret].
  unfold fetched. rewrite Hi, Ht, Hc, Hu, Hs.
  destruct s; reflexivity.
Qed.

Lemma getDocumentById_docs (docs : list DocumentSection) (i : string) :
  Forall typed docs ->
  Search.getDocumentById (store_of docs) i
  = Ok (fetched <$> List.find (fun doc => bool_decide (id doc = Js.JsString i)) docs).
Proof.
  intros Hdocs. unfold Search.getDocumentById, Sql.the_table.
  set (t0 := {| Sql.columns := Indexer.documents_columns; Sql.rows := map row_of docs |}).
  change (Sql.documents (store_of docs)) with (Some t0).
  cbn [mbind result_bind].
  assert (Hcol : Sql.require_column t0 "id" = Ok tt) by reflexivity.
  rewrite Hcol. cbn [mbind result_bind]. unfold t0. cbn [Sql.rows]. clear t0 Hcol.
  induction Hdocs as [|doc docs Hdoc _ IH]; [reflexivity|].
  cbn [map List.filter List.find].
  destruct (row_of_id doc Hdoc) as (_ & j & Hj & ->).
  rewrite Hj. cbn [Sql.sql_eq Sql.holds].
  destruct (String.eqb j i) eqn:E.
  - apply String.eqb_eq in E. subst j.
    rewrite bool_decide_eq_true_2 by reflexivity.
    rewrite (row_document_row_of doc Hdoc). reflexivity.
  - apply String.eqb_neq in E.
    rewrite bool_decide_eq_false_2 by congruence.
    exact IH.
Qed.

Lemma find_id (docs : list DocumentSection) (i : string) (doc : DocumentSection) :
  List.find (fun doc => bool_decide (id doc = Js.JsString i)) docs = Some doc ->
  In doc docs /\ id doc = Js.JsString i.
Proof.
  intros Hfind. apply List.find_some in Hfind as [Hin Hid].
  split; [exact Hin | now apply bool_decide_eq_true in Hid].
Qed.

(** X11. On the store of a list of documents whose fields are strings,
    the lookup by id never fails: it answers with the first document that
    has this id, as the search reads it (without its type, and with the
    code examples that the code patterns find in its content), and with
    null where no document has it. *)
Theorem getDocumentById_on_store (docs : list DocumentSection) (i : string) :
  Forall typed docs ->
  Search.getDocumentById (store_of docs) i
  = Ok (fetched <$> List.find (fun doc => bool_decide (id doc = Js.JsString i)) docs).
Proof. apply getDocumentById_docs. Qed.

Lemma getDocumentById_on_store_witness :
  Search.getDocumentById (store_of [sample_document]) "user-manual:jobs/submit.html"
  = Ok (fetched <$> List.find
          (fun doc => bool_decide (id doc = Js.JsString "user-manual:jobs/submit.html"))
          [sample_document]).
Proof.
  apply (getDocumentById_on_store [sample_document] "user-manual:jobs/submit.html").
  repeat constructor. unfold typed. repeat eexists; reflexivity.
Defined.

Section ReadingRuns.

Context `{Html.Parser} `{Fs.Files}.
Variable config : DeadlineDocConfig.

(** X12. After a full run of the indexer the lookup by id never fails,
    whatever the files are.  It answers null, or a document that has the
    requested id, that id being one of the three types, a colon and the
    url of the document; its type is undefined, since the search reads a
    column that the indexer does not create, and its content has more than
    50 characters. *)
Theorem getDocumentById_after_run (db : Sql.Database) (i : string) :
  exists answer,
    Search.getDocumentById (Indexer.run config db) i = Ok answer /\
    forall d, answer = Some d ->
      id d = Js.JsString i /\
      docType d = Js.JsUndefined /\
      exists ty rel c,
        In ty document_types /\ i = ty +:+ ":" +:+ rel /\ url d = Js.JsString rel /\
        content d = Js.JsString c /\ 50 < String.length c.
Proof.
  destruct (run_built config db) as (docs & -> & _ & Hbuilt & _).
  assert (Hdocs : Forall typed docs).
  { revert Hbuilt. apply List.Forall_impl. intros doc (ty & _ & Hd).
    now apply (built_by_typed ty). }
  rewrite (getDocumentById_docs docs i Hdocs).
  eexists. split; [reflexivity|].
  intros d Hd.
  destruct (List.find _ docs) as [doc|] eqn:Hfind; [|discriminate Hd].
  injection Hd as <-.
  apply find_id in Hfind as [Hin Hid].
  rewrite List.Forall_forall in Hbuilt.
  destruct (Hbuilt doc Hin) as (ty & Hty & rel & t & c & s & Hi & Hu & _ & _ & Hc & Hlen & _).
  cbn [fetched id docType url content].
  split; [exact Hid|]. split; [reflexivity|].
  exists ty, rel, c. rewrite Hid in Hi. injection Hi as ->.
  repeat split; auto.
Qed.

End ReadingRuns.

(** X13. Inserting a document into the store of a list of documents fails
    on the primary key where a document of the list has its id, and leaves
    the store of the list with the document at its end otherwise: the row
    and its full-text entry are added together. *)
Theorem insertDocument_unique_id (docs : list DocumentSection) (doc : DocumentSection) :
  Forall typed docs -> typed doc ->
  Indexer.insertDocument (store_of docs) doc
  = if bool_decide (id doc ∈ map id docs)
    then Err (SqliteError "UNIQUE constraint failed: documents.id")
    else Ok (store_of (docs ++ [doc])).
Proof. apply insertDocument_store_of. Qed.

Lemma insertDocument_unique_id_witness :
  Indexer.insertDocument (store_of [sample_document]) sample_document
  = if bool_decide (id sample_document ∈ map id [sample_document])
    then Err (SqliteError "UNIQUE constraint failed: documents.id")
    else Ok (store_of ([sample_document] ++ [sample_document])).
Proof.
  apply (insertDocument_unique_id [sample_document] sample_document).
  - repeat constructor. unfold typed. repeat eexists; reflexivity.
  - unfold typed. repeat eexists; reflexivity.
Defined.

(** ** Browsing the stores of the indexer *)




Lemma row_of_cells (doc : DocumentSection) :
  typed doc ->
  Sql.cell (row_of doc) "section" = Sql.SqlText (Js.to_string (section doc)) /\
  Sql.cell (row_of doc) "title" = Sql.SqlText (Js.to_string (title doc)) /\
  Sql.cell (row_of doc) "content" = Sql.SqlText (Js.to_string (content doc)) /\
  Sql.cell (row_of doc) "docType" = Sql.SqlText (Js.to_string (docType doc)).
Proof.
  intros (i & t & c & u & ty & s & Hi & Ht & Hc & Hu & Hty & Hs).
  destruct (row_of_typed doc i t c u ty s Hi Ht Hc Hu Hty Hs) as [_ ->].
  rewrite Hs, Ht, Hc, Hty. repeat split.
Qed.





Section FailingQueries.

Context `{Html.Parser} `{Fs.Files} `{Search.Fts5}.
Variable config : DeadlineDocConfig.


End FailingQueries.

(** ** The statistics of the indexer *)

Lemma list_sum_insert_by {A} (f : A -> nat) (le : A -> A -> bool) (x : A) (l : list A) :
  list_sum (map f (Sql.insert_by le x l)) = f x + list_sum (map f l).
Proof.
  unfold list_sum. induction l as [|y l IH]; [reflexivity|].
  cbn [Sql.insert_by]. destruct (le x y); [reflexivity|].
  cbn [map fold_right] in *. rewrite IH. lia.
Qed.

Lemma list_sum_sort_by {A} (f : A -> nat) (le : A -> A -> bool) (l : list A) :
  list_sum (map f (Sql.sort_by le l)) = list_sum (map f l).
Proof.
  unfold Sql.sort_by. induction l as [|x l IH]; [reflexivity|].
  cbn [foldr]. rewrite list_sum_insert_by, IH. reflexivity.
Qed.

Lemma NoDup_insert_by {A} (le : A -> A -> bool) (x : A) (l : list A) :
  x ∉ l -> NoDup l -> NoDup (Sql.insert_by le x l).
Proof.
  intros Hx Hl. induction Hl as [|y l Hy Hl IH]; cbn [Sql.insert_by].
  - apply NoDup_singleton.
  - destruct (le x y).
    + apply NoDup_cons. split; [exact Hx | now apply NoDup_cons].
    + apply not_elem_of_cons in Hx as [Hxy Hx].
      apply NoDup_cons. split; [|now apply IH].
      rewrite elem_of_insert_by. intros [->|Hin]; [now destruct Hxy | contradiction].
Qed.

Lemma NoDup_sort_by {A} (le : A -> A -> bool) (l : list A) :
  NoDup l -> NoDup (Sql.sort_by le l).
Proof.
  unfold Sql.sort_by. induction 1 as [|x l Hx Hl IH]; cbn [foldr].
  - apply NoDup_nil_2.
  - apply NoDup_insert_by; [|exact IH].
    change (foldr (Sql.insert_by le) [] l) with (Sql.sort_by le l).
    now rewrite elem_of_sort_by.
Qed.

Lemma NoDup_distinct (l : list Sql.SqlValue) : forall seen, NoDup (Sql.distinct seen l).
Proof.
  induction l as [|x l IH]; intros seen; cbn [Sql.distinct]; [apply NoDup_nil_2|].
  destruct (bool_decide (x ∈ seen)); [apply IH|].
  apply NoDup_cons. split; [|apply IH].
  rewrite elem_of_distinct. intros [_ Hx]. apply Hx, list_elem_of_here.
Qed.

(** The counts of pairwise different values add up to the number of the
    entries that have one of these values. *)
Lemma count_of_sum (keys vals : list Sql.SqlValue) :
  NoDup keys ->
  list_sum (map (fun v => Sql.count_of v vals) keys)
  = length (List.filter (fun x => bool_decide (x ∈ keys)) vals).
Proof.
  induction 1 as [|k ks Hk _ IH].
  - induction vals as [|x vals IHv]; [reflexivity|].
    cbn [List.filter]. now rewrite bool_decide_eq_false_2 by apply not_elem_of_nil.
  - change (list_sum (map (fun v => Sql.count_of v vals) (k :: ks)))
      with (Sql.count_of k vals + list_sum (map (fun v => Sql.count_of v vals) ks)).
    rewrite IH. unfold Sql.count_of. clear IH.
    induction vals as [|x vals IHv]; [reflexivity|].
    cbn [List.filter]. destruct (decide (x = k)) as [->|Hne].
    + rewrite (bool_decide_eq_true_2 (k = k)) by reflexivity.
      rewrite (bool_decide_eq_true_2 (k ∈ k :: ks)) by apply list_elem_of_here.
      rewrite (bool_decide_eq_false_2 (k ∈ ks)) by exact Hk.
      cbn [length]. lia.
    + rewrite (bool_decide_eq_false_2 (x = k)) by exact Hne.
      assert (E : bool_decide (x ∈ k :: ks) = bool_decide (x ∈ ks)).
      { apply bool_decide_ext. rewrite elem_of_cons. tauto. }
      rewrite E. destruct (bool_decide (x ∈ ks)); cbn [length]; lia.
Qed.

Lemma filter_all {A} (p : A -> bool) (l : list A) :
  (forall x, x ∈ l -> p x = true) -> List.filter p l = l.
Proof.
  induction l as [|x l IH]; intros Hl; [reflexivity|].
  cbn [List.filter]. rewrite (Hl x) by apply list_elem_of_here.
  f_equal. apply IH. intros y Hy. apply Hl. now right.
Qed.

Lemma count_of_map {A} (f : A -> Sql.SqlValue) (v : Sql.SqlValue) (l : list A) :
  Sql.count_of v (map f l) = length (List.filter (fun x => bool_decide (f x = v)) l).
Proof.
  unfold Sql.count_of. now rewrite List.filter_map_swap, length_map.
Qed.

(** What GROUP BY hands back: one row for each value of the column, with
    the number of the rows that have it; the numbers add up to the number
    of rows. *)
Lemma group_count_rows (c : string) (t : Sql.Table) :
  NoDup (map fst (Sql.group_count c t)) /\
  list_sum (map snd (Sql.group_count c t)) = length (Sql.rows t) /\
  Forall (fun g => g.1 ∈ map (fun r => Sql.cell r c) (Sql.rows t) /\
                   g.2 = Sql.count_of g.1 (map (fun r => Sql.cell r c) (Sql.rows t)) /\
                   0 < g.2)
         (Sql.group_count c t).
Proof.
  unfold Sql.group_count.
  set (vals := map (fun r => Sql.cell r c) (Sql.rows t)).
  assert (Hkeys : forall v, v ∈ Sql.sort_by Sql.sql_leb (Sql.distinct [] vals) <-> v ∈ vals).
  { intros v. rewrite elem_of_sort_by, elem_of_distinct.
    split; [tauto|]. intros Hv. split; [exact Hv | apply not_elem_of_nil]. }
  split; [|split].
  - rewrite map_map. cbn [fst]. rewrite map_id.
    apply NoDup_sort_by, NoDup_distinct.
  - rewrite map_map. cbn [snd].
    rewrite list_sum_sort_by, count_of_sum by apply NoDup_distinct.
    rewrite filter_all.
    + unfold vals. now rewrite length_map.
    + intros x Hx. apply bool_decide_eq_true_2, elem_of_distinct.
      split; [exact Hx | apply not_elem_of_nil].
  - apply Forall_forall. intros g (v & -> & Hv)%list_elem_of_fmap. cbn [fst snd].
    apply Hkeys in Hv. split; [exact Hv|]. split; [reflexivity|].
    destruct (Sql.count_of v vals) eqn:Hc; [|lia].
    now apply count_of_zero in Hc.
Qed.

Section Statistics.

Context `{Html.Parser} `{Fs.Files}.
Variable config : DeadlineDocConfig.

(** X16. After a full run the statistics of the indexer succeed, whatever
    the files are.  The total is the number of the documents in the store;
    there is one line for each type that has a document, the type being one
    of the three and the number being the number of its documents, which is
    not zero; no type has two lines, and the numbers add up to the total. *)
Theorem showIndexStats_after_run (db : Sql.Database) :
  exists docs groups,
    Indexer.run config db = store_of docs /\
    Indexer.showIndexStats (Indexer.run config db) = Ok (length docs, groups) /\
    NoDup (map fst groups) /\
    list_sum (map snd groups) = length docs /\
    Forall (fun g => exists ty,
              g.1 = Sql.SqlText ty /\ In ty document_types /\ 0 < g.2 /\
              g.2 = length (List.filter
                              (fun doc => bool_decide (docType doc = Js.JsString ty)) docs))
           groups.
Proof.
  destruct (run_built config db) as (docs & -> & _ & Hbuilt & _).
  set (t0 := {| Sql.columns := Indexer.documents_columns; Sql.rows := map row_of docs |}).
  exists docs, (Sql.group_count "docType" t0).
  destruct (group_count_rows "docType" t0) as (Hnd & Hsum & Hgroups).
  split; [reflexivity|].
  split.
  { unfold Indexer.showIndexStats, Sql.the_table.
    change (Sql.documents (store_of docs)) with (Some t0).
    cbn [mbind result_bind].
    assert (Hcol : Sql.require_column t0 "docType" = Ok tt) by reflexivity.
    rewrite Hcol. cbn [mbind result_bind mret result_ret].
    unfold t0 at 1. cbn [Sql.rows]. now rewrite length_map. }
  split; [exact Hnd|].
  split; [rewrite Hsum; unfold t0; cbn [Sql.rows]; apply length_map|].
  revert Hgroups. apply List.Forall_impl. intros g (Hin & Hcount & Hpos).
  unfold t0 in Hin, Hcount. cbn [Sql.rows] in Hin, Hcount.
  rewrite map_map in Hin, Hcount.
  apply list_elem_of_fmap in Hin as (doc & Hg & Hdoc).
  rewrite List.Forall_forall in Hbuilt.
  destruct (Hbuilt doc (proj1 (list_elem_of_In _ _) Hdoc)) as (ty & Hty & Hb).
  pose proof (built_by_typed ty doc Hb) as Htyped.
  destruct Hb as (rel & t & c & s & _ & _ & Hdt & _).
  destruct (row_of_cells doc Htyped) as (_ & _ & _ & Hcell).
  rewrite Hcell, Hdt in Hg. cbn [Js.to_string] in Hg.
  exists ty. split; [exact Hg|]. split; [exact Hty|]. split; [exact Hpos|].
  rewrite Hcount, Hg, count_of_map. f_equal.
  apply List.filter_ext_in. intros d Hd.
  destruct (Hbuilt d Hd) as (ty' & _ & Hb').
  pose proof (built_by_typed ty' d Hb') as Htyped'.
  destruct Hb' as (rel' & t' & c' & s' & _ & _ & Hdt' & _).
  destruct (row_of_cells d Htyped') as (_ & _ & _ & ->).
  rewrite Hdt'. cbn [Js.to_string].
  apply bool_decide_ext. split; congruence.
Qed.

End Statistics.

(** ** Code examples *)

Lemma elem_of_dedupe_from (l : list string) : forall seen y,
  y ∈ Js.dedupe_from seen l <-> y ∈ l /\ y ∉ seen.
Proof.
  induction l as [|x l IH]; intros seen y; cbn [Js.dedupe_from].
  - rewrite elem_of_nil. tauto.
  - destruct (bool_decide (x ∈ seen)) eqn:Hx.
    + apply bool_decide_eq_true in Hx. rewrite IH, elem_of_cons.
      split; [tauto|]. intros [[->|Hy] Hseen]; [contradiction | tauto].
    + apply bool_decide_eq_false in Hx. rewrite !elem_of_cons, IH, elem_of_cons.
      destruct (decide (y = x)) as [->|Hne]; tauto.
Qed.

Lemma NoDup_dedupe_from (l : list string) : forall seen, NoDup (Js.dedupe_from seen l).
Proof.
  induction l as [|x l IH]; intros seen; cbn [Js.dedupe_from]; [apply NoDup_nil_2|].
  destruct (bool_decide (x ∈ seen)); [apply IH|].
  apply NoDup_cons. split; [|apply IH].
  rewrite elem_of_dedupe_from. intros [_ Hx]. apply Hx, list_elem_of_here.
Qed.

Lemma length_dedupe_from (l : list string) : forall seen,
  length (Js.dedupe_from seen l) <= length l.
Proof.
  induction l as [|x l IH]; intros seen; cbn [Js.dedupe_from]; [reflexivity|].
  destruct (bool_decide (x ∈ seen)); cbn [length].
  - specialize (IH seen). lia.
  - specialize (IH (x :: seen)). lia.
Qed.

Lemma elem_of_dedupe (l : list string) (y : string) : y ∈ Js.dedupe l <-> y ∈ l.
Proof.
  unfold Js.dedupe. rewrite elem_of_dedupe_from.
  split; [tauto|]. intros Hy. split; [exact Hy | apply not_elem_of_nil].
Qed.

Lemma startsWith_take (n : nat) : forall s, Js.startsWith s (Js.take n s) = true.
Proof.
  induction n as [|n IH]; intros [|c s]; try reflexivity.
  cbn [Js.take Js.startsWith]. now rewrite Ascii.eqb_refl, IH.
Qed.

Lemma includes_tail (c : ascii) (s e : string) :
  Js.includes s e = true -> Js.includes (String c s) e = true.
Proof.
  intros He. change (Js.includes (String c s) e)
    with (Js.startsWith (String c s) e || Js.includes s e).
  rewrite He. apply orb_true_r.
Qed.

Lemma includes_startsWith (s e : string) :
  Js.startsWith s e = true -> Js.includes s e = true.
Proof. intros He. destruct s; cbn [Js.includes]; now rewrite He. Qed.

(** What [match] finds are pieces of the string. *)
Lemma matchAll_includes (m : Js.matcher) (s : string) : forall k,
  Forall (fun e => Js.includes s e = true) (Js.matchAll m k s).
Proof.
  induction s as [|c s IH]; intros k; [constructor|].
  assert (Htail : forall k', Forall (fun e => Js.includes (String c s) e = true)
                                    (Js.matchAll m k' s)).
  { intros k'. specialize (IH k'). revert IH. apply List.Forall_impl.
    intros e. apply includes_tail. }
  destruct k as [|k]; cbn [Js.matchAll]; [|apply Htail].
  destruct (m (String c s)) as [n|]; [|apply Htail].
  constructor; [|apply Htail].
  apply includes_startsWith, startsWith_take.
Qed.

(** A match of a pattern that has a character to begin with is not empty. *)
Lemma matchAll_not_empty (m : Js.matcher) (s : string) :
  (forall s' n, m s' = Some n -> 0 < n) ->
  forall k, Forall (fun e => 0 < String.length e) (Js.matchAll m k s).
Proof.
  intros Hm. induction s as [|c s IH]; intros k; [constructor|].
  destruct k as [|k]; cbn [Js.matchAll]; [|apply IH].
  destruct (m (String c s)) as [n|] eqn:Hn; [|apply IH].
  constructor; [|apply IH].
  apply Hm in Hn. destruct n as [|n]; [lia|]. cbn [Js.take String.length]. lia.
Qed.

Lemma seq_positive (m1 m2 : Js.matcher) :
  (forall s n, m1 s = Some n -> 0 < n) ->
  forall s n, Search.seq m1 m2 s = Some n -> 0 < n.
Proof.
  intros Hm s n. unfold Search.seq.
  destruct (m1 s) as [a|] eqn:Ha; [|discriminate].
  destruct (m2 _) as [b|]; [|discriminate].
  intros [= <-]. apply Hm in Ha. lia.
Qed.

Lemma lit_positive (c : ascii) (t : string) :
  forall s n, Search.lit (String c t) s = Some n -> 0 < n.
Proof.
  intros s n. unfold Search.lit. destruct (Js.startsWith _ _); [|discriminate].
  intros [= <-]. cbn [String.length]. lia.
Qed.

Lemma plus_positive (p : ascii -> bool) :
  forall s n, Search.plus p s = Some n -> 0 < n.
Proof.
  intros s n. unfold Search.plus. destruct (Js.span p s); [discriminate|].
  intros [= <-]. lia.
Qed.

Lemma codePatterns_positive (pattern : Js.matcher) :
  In pattern Search.codePatterns -> forall s n, pattern s = Some n -> 0 < n.
Proof.
  intros [<-|[<-|[<-|[<-|[<-|[]]]]]]; apply seq_positive;
    first [apply lit_positive | apply plus_positive].
Qed.

Lemma flat_map_firstn_length {A B} (f : A -> list B) (n : nat) (l : list A) :
  length (flat_map (fun x => firstn n (f x)) l) <= n * length l.
Proof.
  induction l as [|x l IH]; cbn [flat_map length]; [lia|].
  rewrite length_app, length_take. lia.
Qed.

Lemma extractCodeExamples_in_content (content : string) :
  Forall (fun e => Js.includes content e = true /\ 0 < String.length e)
         (Search.extractCodeExamples content).
Proof.
  unfold Search.extractCodeExamples.
  - apply Forall_forall. intros e He. apply (proj1 (elem_of_dedupe _ e)) in He.
    apply list_elem_of_In, in_flat_map in He as (pattern & Hp & He).
    apply list_elem_of_In, elem_of_take in He as (i & He & _).
    apply list_elem_of_lookup_2 in He.
    split.
    + pose proof (matchAll_includes pattern content 0) as Hall.
      rewrite Forall_forall in Hall. now apply Hall.
    + pose proof (matchAll_not_empty pattern content (codePatterns_positive pattern Hp) 0)
        as Hall.
      rewrite Forall_forall in Hall. now apply Hall.
Qed.

(** X17. The code examples that the search derives from a content are
    pieces of that content, none of them empty and no two of them equal,
    and there are at most 15 of them: three for each of the five
    patterns. *)
Theorem search_extractCodeExamples_pieces (content : string) :
  NoDup (Search.extractCodeExamples content) /\
  length (Search.extractCodeExamples content) <= 15 /\
  Forall (fun e => Js.includes content e = true /\ 0 < String.length e)
         (Search.extractCodeExamples content).
Proof.
  split; [apply NoDup_dedupe_from|]. split; [|apply extractCodeExamples_in_content].
  unfold Search.extractCodeExamples, Js.dedupe. etrans; [apply length_dedupe_from|].
  etrans; [apply flat_map_firstn_length|]. reflexivity.
Qed.

Section PageExamples.

Context `{Html.Parser}.

(** X18. The code examples that the indexer takes from a page are
    normalized texts, no two of them equal and each shorter than 2000
    characters: the length gate is applied to the text of the element, and
    the normalization does not lengthen it. *)
Theorem indexer_extractCodeExamples_normalized (d : Html.Dom) (root : Html.Element) :
  NoDup (Indexer.extractCodeExamples d root) /\
  Forall (fun e => String.length e < 2000 /\
                   Js.all_chars Indexer.is_safe e = true /\
                   Js.trim e = e)
         (Indexer.extractCodeExamples d root).
Proof.
  unfold Indexer.extractCodeExamples. split; [apply NoDup_dedupe_from|].
  apply Forall_forall. intros e He. apply (proj1 (elem_of_dedupe _ e)) in He.
  apply list_elem_of_In, in_flat_map in He as (selector & _ & He).
  apply in_flat_map in He as (element & _ & He).
  destruct (_ && _) eqn:Hgate; [|destruct He].
  destruct He as [<-|[]].
  apply andb_prop in Hgate as [_ Hlt%Nat.ltb_lt].
  split; [|split].
  - eapply Nat.le_lt_trans; [apply cleanText_length | exact Hlt].
  - apply cleanText_safe.
  - apply cleanText_trimmed.
Qed.

End PageExamples.

(** ** The results of the full-text queries *)





Lemma elem_of_join_documents `{Search.Fts5} (t : Sql.Table) (hits : list (Search.Hit Search.Score))
    (hr : Search.Hit Search.Score * Sql.Row) :
  In hr (Search.join_documents t hits) -> hr.2 ∈ Sql.rows t.
Proof.
  unfold Search.join_documents. intros (h & _ & Hin)%in_flat_map.
  destruct (Search.hit_rowid h) as [|i]; [destruct Hin|].
  destruct (Sql.rows t !! i) as [r|] eqn:Hr; [|destruct Hin].
  destruct Hin as [<-|[]]. cbn [snd]. now apply list_elem_of_lookup_2 in Hr.
Qed.

Section Results.

Context `{Search.Fts5}.


End Results.


(** ** Code examples of the store *)

Lemma Forall_slice0 {A} (P : A -> Prop) (n : Z) (l : list A) :
  Forall P l -> Forall P (Js.slice0 n l).
Proof.
  intros Hl. unfold Js.slice0. destruct (n <? 0)%Z; now apply Forall_take.
Qed.

Lemma elem_of_limit {A} (n : Z) (l : list A) (x : A) : x ∈ Sql.limit n l -> x ∈ l.
Proof.
  unfold Sql.limit. destruct (n <? 0)%Z; [easy|]. intros (i & Hi & _)%elem_of_take.
  now apply list_elem_of_lookup_2 in Hi.
Qed.

Section StoreExamples.

Context `{Search.Fts5}.

Lemma collect_examples_pieces (t : Sql.Table) (limit : Z) (contents : list Js.JsValue) :
  Forall (fun v => exists row c,
            row ∈ Sql.rows t /\ Sql.cell row "content" = Sql.SqlText c /\
            100 < String.length c /\ v = Js.JsString c) contents ->
  forall examples,
    Forall (piece_of_long_content t) examples ->
    exists examples',
      Search.collect_examples limit examples contents = Ok examples' /\
      Forall (piece_of_long_content t) examples'.
Proof.
  induction 1 as [|v contents (row & c & Hrow & Hc & Hlen & ->) _ IH]; intros examples Hex.
  - exists examples. split; [reflexivity | exact Hex].
  - cbn [Search.collect_examples Search.examples_of mbind result_bind].
    assert (Hex' : Forall (piece_of_long_content t)
                          (examples ++ Search.extractCodeExamples c)%list).
    { apply Forall_app. split; [exact Hex|].
      pose proof (extractCodeExamples_in_content c) as Hin. revert Hin.
      apply List.Forall_impl. intros e [He _]. now exists row, c. }
    destruct (_ <=? _)%Z; [|now apply IH].
    eexists. split; [reflexivity | exact Hex'].
Qed.

(** X20. The code examples of the store, where the two tables are there,
    the table of the documents has its content column, and the engine
    answers the query: the call does not fail, whatever the rows hold (a
    row without content does not pass the length test of the query); with
    a limit that is not negative it returns at most [limit] examples; and
    each example is a piece of the content of a row that has more than 100
    characters. *)
Theorem getCodeExamples_result (db : Sql.Database) (query : string) (limit : Z)
    (f : list Sql.FtsRow) (t : Sql.Table) (hits : list (Search.Hit Search.Score)) :
  Sql.documents_fts db = Some f ->
  Sql.documents db = Some t ->
  Sql.has_column t "content" = true ->
  Search.fts5_match
    (query +:+ " AND (DeadlineCon OR python OR script OR function OR class OR import)") t f
  = Ok hits ->
  exists examples,
    Search.getCodeExamples db query limit = Ok examples /\
    ((0 <= limit)%Z -> (Z.of_nat (length examples) <= limit)%Z) /\
    Forall (piece_of_long_content t) examples.
Proof.
  intros Hf Ht Hcol Hhits.
  unfold Search.getCodeExamples, Search.the_fts, Sql.the_table, Sql.require_column.
  rewrite Hf, Ht. cbn [mbind result_bind]. rewrite Hcol. cbn [mbind result_bind].
  rewrite Hhits. cbn [mbind result_bind].
  match goal with
  | |- context [Search.collect_examples limit [] (map ?g ?rows)] =>
      destruct (collect_examples_pieces t limit (map g rows)) with (examples := @nil string)
        as (examples & -> & Hex)
  end.
  - apply Forall_forall. intros v (hr & -> & Hhr)%list_elem_of_fmap.
    apply elem_of_limit, elem_of_sort_by, list_elem_of_In, List.filter_In in Hhr
      as [Hjoin Hlong].
    apply elem_of_join_documents in Hjoin.
    exists hr.2. unfold Sql.cell, Sql.prop in *.
    destruct (hr.2 !! "content") as [[|c]|]; cbn [default from_option] in Hlong;
      try discriminate Hlong.
    exists c. apply Nat.ltb_lt in Hlong. repeat split; auto.
  - constructor.
  - cbn [mbind result_bind mret result_ret].
    eexists. split; [reflexivity|]. split.
    + intros Hlimit. now apply slice0_length.
    + now apply Forall_slice0.
Qed.

End StoreExamples.

Lemma getCodeExamples_result_witness :
  exists examples,
    @Search.getCodeExamples any_engine (store_of [code_document]) "jobs" 5 = Ok examples /\
    ((0 <= 5)%Z -> (Z.of_nat (length examples) <= 5)%Z) /\
    Forall (piece_of_long_content
              {| Sql.columns := Indexer.documents_columns;
                 Sql.rows := map row_of [code_document] |})
           examples.
Proof.
  apply (@getCodeExamples_result any_engine (store_of [code_document]) "jobs" 5
           (imap fts_entry (map row_of [code_document]))
           {| Sql.columns := Indexer.documents_columns;
              Sql.rows := map row_of [code_document] |}
           [ {| Search.hit_rowid := 1; Search.hit_rank := 1%Z;
                Search.hit_highlighted := Sql.SqlNull |} ]);
    reflexivity.
Defined.

(** On the store with the code page, the two examples of the page come
    back. *)
Example getCodeExamples_code_page :
  @Search.getCodeExamples any_engine (store_of [code_document]) "jobs" 5
  = Ok ["DeadlineCon.Jobs.GetJobs()"; "import Deadline.DeadlineConnect"].
Proof. vm_compute. reflexivity. Qed.

(** ** The curated fallback *)

Lemma split_first_colon_parts (i : string) :
  Js.includes (Js.split_first_colon i).1 ":" = false /\
  (Js.includes i ":" = false ->
   (Js.split_first_colon i).1 = i /\ (Js.split_first_colon i).2 = EmptyString) /\
  (Js.includes i ":" = true ->
   i = (Js.split_first_colon i).1 +:+ ":" +:+ (Js.split_first_colon i).2).
Proof.
  induction i as [|c i (IH1 & IH2 & IH3)]; [repeat split; discriminate|].
  cbn [Js.split_first_colon].
  change (Js.includes (String c i) ":")
    with (Js.startsWith (String c i) ":" || Js.includes i ":").
  assert (Hnil : forall s, Js.startsWith s EmptyString = true) by (intros []; reflexivity).
  assert (Hc : forall s, Js.startsWith (String c s) ":" = (Js.code c =? 58)%N).
  { intros s. cbn [Js.startsWith]. rewrite Hnil, andb_true_r.
    destruct c as [[] [] [] [] [] [] [] []]; reflexivity. }
  rewrite Hc.
  destruct (Js.code c =? 58)%N eqn:Hcolon.
  - cbn [fst snd orb]. split; [reflexivity|]. split; [discriminate|]. intros _.
    rewrite append_nil.
    assert (c = ":"%char) as ->; [|reflexivity].
    apply N.eqb_eq in Hcolon. rewrite <- (ascii_N_embedding c).
    unfold Js.code in Hcolon. now rewrite Hcolon.
  - destruct (Js.split_first_colon i) as [a b]. cbn [fst snd orb] in *.
    split; [|split].
    + change (Js.includes (String c a) ":")
        with (Js.startsWith (String c a) ":" || Js.includes a ":").
      now rewrite Hc, IH1.
    + intros Hno. destruct (IH2 Hno) as [-> ->]. now split.
    + intros Hyes. rewrite append_cons. f_equal. now apply IH3.
Qed.

(** X21. The curated search always has something to show: between one and
    three results, each one of the four entries of the fallback, the
    general help only where nothing else matches; the letter case of the
    query plays no part; and with a limit of one or more, the search
    returns a result. *)
Theorem remote_search_never_empty (query : string) (filter : option string) (limit : Z) :
  1 <= length (Remote.getCuratedResults query filter) <= 3 /\
  Forall (fun r => In r [Remote.job_submission; Remote.deadlinecon;
                         Remote.plugin_development; Remote.general_help])
         (Remote.getCuratedResults query filter) /\
  (In Remote.general_help (Remote.getCuratedResults query filter) ->
   Remote.getCuratedResults query filter = [Remote.general_help]) /\
  Remote.getCuratedResults (Js.toLowerCase query) filter
  = Remote.getCuratedResults query filter /\
  ((0 < limit)%Z -> 1 <= length (Remote.searchDocumentation query filter limit)).
Proof.
  assert (Hlen : 1 <= length (Remote.getCuratedResults query filter) <= 3).
  { unfold Remote.getCuratedResults.
    destruct (_ && _), (_ || _), (_ && _); cbn [app length Nat.eqb]; lia. }
  split; [exact Hlen|]. split; [|split; [|split]].
  - unfold Remote.getCuratedResults.
    destruct (_ && _), (_ || _), (_ && _); cbn [app length Nat.eqb];
      repeat (constructor; [cbn [In]; tauto|]); constructor.
  - assert (H1 : Remote.job_submission <> Remote.general_help)
      by (intros E; apply (f_equal score) in E; discriminate E).
    assert (H2 : Remote.deadlinecon <> Remote.general_help)
      by (intros E; apply (f_equal score) in E; discriminate E).
    assert (H3 : Remote.plugin_development <> Remote.general_help)
      by (intros E; apply (f_equal score) in E; discriminate E).
    unfold Remote.getCuratedResults.
    destruct (_ && _), (_ || _), (_ && _); cbn [app length Nat.eqb In];
      intros Hin; try reflexivity; exfalso; tauto.
  - unfold Remote.getCuratedResults. now rewrite toLowerCase_idempotent.
  - intros Hlimit. unfold Remote.searchDocumentation, Js.slice0.
    destruct (Z.ltb_spec limit 0); [lia|].
    rewrite length_take. lia.
Qed.

(** X22. The document that the fallback makes up for an id takes the id
    apart at its first colon: the type is the part before it and has no
    colon, the section is all that follows it, later colons included, so
    that type, colon and section give the id back; an id without a colon
    is the type, with the empty section.  The title is the section behind
    a fixed text, and there are no code examples and no keywords. *)
Theorem remote_getDocumentById_parts (i : string) :
  exists d ty rest,
    Remote.getDocumentById i = Some d /\
    id d = Js.JsString i /\
    docType d = Js.JsString ty /\
    section d = Js.JsString rest /\
    title d = Js.JsString ("Remote Documentation: " +:+ rest) /\
    codeExamples d = [] /\ keywords d = [] /\
    Js.includes ty ":" = false /\
    (Js.includes i ":" = false -> ty = i /\ rest = EmptyString) /\
    (Js.includes i ":" = true -> i = ty +:+ ":" +:+ rest).
Proof.
  unfold Remote.getDocumentById.
  pose proof (split_first_colon_parts i) as (H1 & H2 & H3).
  destruct (Js.split_first_colon i) as [ty rest]. cbn [fst snd] in *.
  eexists _, ty, rest. split; [reflexivity|].
  cbn [id docType section title codeExamples keywords].
  repeat split; auto; now apply H2.
Qed.

(** ** Counting by type, on a store with the column of the search *)

Lemma byType_no_proto (rows : list (Sql.SqlValue * nat)) : forall byType : gmap string nat,
  byType !! "__proto__" = None ->
  foldl (fun byType row => Search.set_property byType (Search.property_key row.1) row.2)
        byType rows !! "__proto__" = None.
Proof.
  induction rows as [|row rows IH]; intros byType Hnone; [exact Hnone|].
  cbn [foldl]. apply IH. unfold Search.set_property.
  destruct (String.eqb_spec (Search.property_key row.1) "__proto__") as [|Hne]; [exact Hnone|].
  now rewrite lookup_insert_ne.
Qed.

(** X23. On a store whose table has the column [doc_type], with a type in
    every row, the statistics of the search succeed: the total is the
    number of rows, and a type is a key of [byType] exactly when some row
    has it, with the number of these rows as its value.  The one type that
    is never a key is [__proto__]: the assignment of a number to that
    property of an object is dropped. *)
Theorem getStats_by_type (db : Sql.Database) (t : Sql.Table) :
  Sql.documents db = Some t ->
  Sql.has_column t "doc_type" = true ->
  (forall r, r ∈ Sql.rows t -> exists ty, Sql.cell r "doc_type" = Sql.SqlText ty) ->
  exists stats,
    Search.getStats db = Ok stats /\
    Search.total stats = length (Sql.rows t) /\
    (forall ty, ty <> "__proto__" ->
       Search.byType stats !! ty =
       match Sql.count_of (Sql.SqlText ty) (map (fun r => Sql.cell r "doc_type") (Sql.rows t)) with
       | O => None
       | n => Some n
       end) /\
    Search.byType stats !! "__proto__" = None.
Proof.
  intros Ht Hcol Htyped.
  destruct (getStats_counts db t Ht Hcol Htyped) as (stats & Hstats & Htotal & Hby).
  exists stats. repeat split; try assumption.
  unfold Search.getStats, Sql.the_table, Sql.require_column in Hstats.
  rewrite Ht in Hstats. cbn [mbind result_bind] in Hstats.
  rewrite Hcol in Hstats. cbn [mbind result_bind mret result_ret] in Hstats.
  injection Hstats as <-. cbn [Search.byType].
  apply byType_no_proto, lookup_empty.
Qed.

Lemma getStats_by_type_witness :
  exists stats,
    Search.getStats library = Ok stats /\
    Search.total stats = length library_rows /\
    (forall ty, ty <> "__proto__" ->
       Search.byType stats !! ty =
       match Sql.count_of (Sql.SqlText ty) (map (fun r => Sql.cell r "doc_type") library_rows) with
       | O => None
       | n => Some n
       end) /\
    Search.byType stats !! "__proto__" = None.
Proof.
  apply (getStats_by_type library {| Sql.columns := search_layout; Sql.rows := library_rows |}).
  - reflexivity.
  - reflexivity.
  - intros r Hr. cbn [Sql.rows] in Hr. unfold library_rows in Hr.
    repeat (apply elem_of_cons in Hr as [->|Hr]; [eexists; reflexivity|]).
    now apply elem_of_nil in Hr.
Defined.

(** ** The configuration *)

Lemma validate_dirs_all `{Config.Host} (docsPath : string) (dirs : list string) :
  Config.validate_dirs docsPath dirs = true <->
  forall dir, In dir dirs -> Config.stat (Config.join docsPath dir) = Some true.
Proof.
  induction dirs as [|dir dirs IH]; cbn [Config.validate_dirs In].
  - split; [intros _ dir [] | reflexivity].
  - destruct (Config.stat (Config.join docsPath dir)) as [[]|] eqn:Hstat.
    + rewrite IH. split.
      * intros Hrest d [<-|Hd]; [exact Hstat | now apply Hrest].
      * intros Hall d Hd. apply Hall. now right.
    + split; [discriminate|]. intros Hall.
      specialize (Hall dir (or_introl eq_refl)). congruence.
    + split; [discriminate|]. intros Hall.
      specialize (Hall dir (or_introl eq_refl)). congruence.
Qed.

(** X24. The configuration is made once: the first [getConfig] of a
    manager stores what it returns, and every later call returns that,
    whatever the environment and the file system have become.  Before the
    first call [isUsingLocalDocs] answers true.  After it, it answers true
    exactly when the variable held a path that is not empty, under which
    the three directories of the documentation are directories, and that
    is not spelled remote; the directories are accepted exactly when
    [stat] finds a directory at each of the three. *)
Theorem config_made_once (first later : Config.Host) :
  snd (@Config.getConfig first None) = Some (fst (@Config.getConfig first None)) /\
  @Config.getConfig later (snd (@Config.getConfig first None))
  = (fst (@Config.getConfig first None), snd (@Config.getConfig first None)) /\
  Config.isUsingLocalDocs None = true /\
  Config.isUsingLocalDocs (snd (@Config.getConfig first None))
  = match @Config.DEADLINE_DOCS_PATH first with
    | Some p =>
        negb (Js.is_empty p) && @Config.validateLocalDocs first p &&
        negb (String.eqb p "remote")
    | None => false
    end /\
  (forall p,
     @Config.validateLocalDocs first p = true <->
     forall dir, In dir Config.requiredDirs ->
                 @Config.stat first (@Config.join first p dir) = Some true).
Proof.
  assert (Hstored : snd (@Config.getConfig first None)
                    = Some (fst (@Config.getConfig first None))).
  { unfold Config.getConfig.
    destruct Config.DEADLINE_DOCS_PATH as [p|]; [|reflexivity].
    destruct (negb _); [|reflexivity].
    now destruct (Config.validateLocalDocs p). }
  split; [exact Hstored|]. split; [now rewrite Hstored|]. split; [reflexivity|]. split.
  - unfold Config.getConfig.
    destruct Config.DEADLINE_DOCS_PATH as [p|]; [|reflexivity].
    destruct (negb _); [|reflexivity].
    destruct (Config.validateLocalDocs p); reflexivity.
  - intros p. apply validate_dirs_all.
Qed.

(** ** The server on a store of the indexer *)

Lemma includes_append_r (a b t : string) :
  Js.includes b t = true -> Js.includes (a +:+ b) t = true.
Proof.
  intros Hb. induction a as [|c a IH]; [exact Hb|].
  rewrite append_cons. now apply includes_tail.
Qed.

Section ServedRuns.

Context `{Html.Parser} `{Fs.Files}.
Variable config : DeadlineDocConfig.

(** X25. What the tool [get_deadline_document] answers on the store of a
    full run of the indexer.  Without an id, or with the empty id, the
    call is refused with InvalidParams.  With another id the handler does
    not fail: its text says that the document was not found, or it is the
    page of a document of the run that has this id, as the search reads
    it, and then the type line of the page reads undefined. *)
Theorem get_deadline_document_after_run (db : Sql.Database) (c : ascii) (i : string) :
  Server.get_deadline_document (Indexer.run config db) None
  = Server.McpError Server.InvalidParams "Document ID is required" /\
  Server.get_deadline_document (Indexer.run config db) (Some EmptyString)
  = Server.McpError Server.InvalidParams "Document ID is required" /\
  (Server.get_deadline_document (Indexer.run config db) (Some (String c i))
   = Server.Text ("Document with ID " +:+ Server.dq +:+ String c i +:+ Server.dq +:+ " not found.")
   \/
   exists doc ty,
     In ty document_types /\ built_by ty doc /\ id doc = Js.JsString (String c i) /\
     Server.get_deadline_document (Indexer.run config db) (Some (String c i))
     = Server.Text (Server.document_text (fetched doc)) /\
     Js.includes (Server.document_text (fetched doc))
                 ("**Type:** undefined" +:+ Server.nl) = true).
Proof.
  split; [reflexivity|]. split; [reflexivity|].
  destruct (run_built config db) as (docs & -> & _ & Hbuilt & _).
  assert (Hdocs : Forall typed docs).
  { revert Hbuilt. apply List.Forall_impl. intros doc (ty & _ & Hd).
    now apply (built_by_typed ty). }
  unfold Server.get_deadline_document. cbn [Js.is_empty].
  rewrite (getDocumentById_docs docs (String c i) Hdocs).
  destruct (List.find _ docs) as [doc|] eqn:Hfind; cbn [fmap option_fmap option_map].
  - right. apply find_id in Hfind as [Hin Hid].
    rewrite List.Forall_forall in Hbuilt. destruct (Hbuilt doc Hin) as (ty & Hty & Hb).
    exists doc, ty. repeat split; try assumption.
    unfold Server.document_text. cbn [fetched docType Js.to_string].
    apply includes_append_r, includes_append_r, includes_append_r, includes_append_r.
    apply includes_startsWith. reflexivity.
  - now left.
Qed.

(** X26. The server does not start on the store of a full run of the
    indexer: [main] asks the search for its statistics first, the
    statistics fail on that store, and the process exits with code 1,
    whatever the files were and whether or not the transport would
    connect. *)
Theorem main_exits_after_run (db : Sql.Database) (connects : bool) :
  Server.main (Indexer.run config db) connects = Server.Exit 1.
Proof.
  destruct (run_built config db) as (docs & -> & _).
  reflexivity.
Qed.

End ServedRuns.

(** On a store in the layout of the search the server starts. *)
Example main_runs_on_library : Server.main library true = Server.Running.
Proof. reflexivity. Qed.

(** ** From the path of a file to its document *)

Lemma slashes_no_backslash (s : string) :
  Js.all_chars not_backslash (Js.replaceAll Indexer.backslash "/" 0 s) = true.
Proof.
  induction s as [|c s IH]; [reflexivity|].
  cbn [Js.replaceAll]. unfold Indexer.backslash at 1, Indexer.one_char.
  destruct (Js.code c =? 92)%N eqn:Hc; cbn [pred].
  - rewrite append_cons, append_nil. cbn [Js.all_chars]. now rewrite IH.
  - cbn [Js.all_chars]. unfold not_backslash at 1. now rewrite Hc, IH.
Qed.

Section FoundByPath.

Context `{Html.Parser} `{Fs.Files}.
Variable config : DeadlineDocConfig.

(** X27. A page that [processHtmlFile] stored is found by the id that its
    path gives: the type, a colon, and the path of the file relative to
    the documentation directory with every backslash turned into a slash.
    This holds in the store the page was added to and in every store that
    later inserts make of it; the url of the document found is that
    relative path, and it has no backslash. *)
Theorem stored_page_found_by_path (db db1 db2 : Sql.Database) (filePath ty : string) :
  indexer_store db ->
  Indexer.processHtmlFile config db filePath ty = (true, db1) ->
  rtc insert_step db1 db2 ->
  let rel := Js.replaceAll Indexer.backslash "/" 0 (Fs.relative (docsPath config) filePath) in
  exists d,
    Search.getDocumentById db2 (ty +:+ ":" +:+ rel) = Ok (Some d) /\
    id d = Js.JsString (ty +:+ ":" +:+ rel) /\
    url d = Js.JsString rel /\
    Js.all_chars not_backslash rel = true.
Proof.
  intros Hdb Hfile Hlater rel.
  unfold Indexer.processHtmlFile in Hfile.
  destruct (Fs.readFile filePath); [|discriminate Hfile].
  destruct (Html.parse _) as [d root].
  destruct (Indexer.isNavigationPage _ _); [discriminate Hfile|].
  destruct (Indexer.extractMainContent d root) as [main d'].
  destruct (_ <? _)%nat; [discriminate Hfile|].
  match type of Hfile with
  | context [Indexer.insertDocument db ?doc] =>
      destruct (Indexer.insertDocument db doc) as [db'|e] eqn:Hins; [|discriminate Hfile];
      injection Hfile as <-;
      exists (fetched doc); split; [|split; [|split]];
      [ apply (getDocumentById_stable_rtc db'); [exact Hlater|];
        apply (getDocumentById_inserted db doc);
        [ exact Hdb | unfold typed; repeat eexists; reflexivity | reflexivity | exact Hins ]
      | reflexivity
      | reflexivity
      | apply slashes_no_backslash ]
  end.
Qed.

End FoundByPath.

Lemma stored_page_found_by_path_witness :
  exists d,
    Search.getDocumentById
      (snd (@Indexer.processHtmlFile plain_parser (files_of [("docs/user/a.html", sample_page)])
              sample_config fresh "docs/user/a.html" "user-manual"))
      ("user-manual" +:+ ":" +:+
       Js.replaceAll Indexer.backslash "/" 0
         (@Fs.relative (files_of [("docs/user/a.html", sample_page)])
            (docsPath sample_config) "docs/user/a.html"))
    = Ok (Some d) /\
    id d = Js.JsString
             ("user-manual" +:+ ":" +:+
              Js.replaceAll Indexer.backslash "/" 0
                (@Fs.relative (files_of [("docs/user/a.html", sample_page)])
                   (docsPath sample_config) "docs/user/a.html")) /\
    url d = Js.JsString
              (Js.replaceAll Indexer.backslash "/" 0
                 (@Fs.relative (files_of [("docs/user/a.html", sample_page)])
                    (docsPath sample_config) "docs/user/a.html")) /\
    Js.all_chars not_backslash
      (Js.replaceAll Indexer.backslash "/" 0
         (@Fs.relative (files_of [("docs/user/a.html", sample_page)])
            (docsPath sample_config) "docs/user/a.html")) = true.
Proof.
  apply (@stored_page_found_by_path plain_parser
           (files_of [("docs/user/a.html", sample_page)]) sample_config
           fresh
           (snd (@Indexer.processHtmlFile plain_parser
                   (files_of [("docs/user/a.html", sample_page)])
                   sample_config fresh "docs/user/a.html" "user-manual"))
           (snd (@Indexer.processHtmlFile plain_parser
                   (files_of [("docs/user/a.html", sample_page)])
                   sample_config fresh "docs/user/a.html" "user-manual"))
           "docs/user/a.html" "user-manual").
  - apply fresh_indexer_store.
  - vm_compute. reflexivity.
  - apply rtc_refl.
Defined.
